(** * bmh: prayer-time schedule from a calibrated NOAA sunset

    Shallow embedding of [src/main.js].

    Modelling conventions.
    - A JavaScript [Date] is its time value: an integer number of
      milliseconds since the epoch, in [Z].  The TimeClip bound of 8.64e15
      ms is outside the model; the Invalid Date arises only from parsing a
      string, where it is [None].
    - The host's local time zone is a parameter, as ECMAScript's
      LocalTZA(t, isUTC): a pair of offset functions.
    - A JavaScript Number that is not a time value is a real number in [R]:
      the binary64 arithmetic of the engine is idealised, [Math.sin] and
      the like are the real functions, [%] is the truncated remainder.  A
      division by zero, which in [R] gives 0, does not occur with the
      constants of the script: its divisor [cosDec * cos(LAT)] is at least
      0.45.
    - Strings are held in UTF-8.  [Number] on a string follows
      StringToNumber, with the rounding of the literal to binary64; the
      Invalid Date of [setHours] with a NaN or infinite argument is [None]
      too.
    - The constants of the script are the fields of a [Config] record, with
      [bmh] the record of the values the source gives them; the mutable
      global [CAL_OFFSET_MS] is passed explicitly.
    - The page is a parameter too: which element ids exist, and the host's
      [toLocaleTimeString]. *)

From Stdlib Require Import ZArith Lia List Bool String Ascii.
From Stdlib Require Import Reals Lra.
From Stdlib Require Floats.
From Stdlib Require Import Sorted.
Import ListNotations.

(** ** The ECMAScript date arithmetic used by the script *)

Module JSDate.
Local Open Scope Z_scope.

Definition msPerSecond : Z := 1000.
Definition msPerMinute : Z := 60000.
Definition msPerHour : Z := 3600000.
Definition msPerDay : Z := 86400000.

Definition Day (t : Z) : Z := t / msPerDay.
Definition TimeWithinDay (t : Z) : Z := t mod msPerDay.

Definition isLeap (y : Z) : bool :=
  ((y mod 4 =? 0) && negb (y mod 100 =? 0)) || (y mod 400 =? 0).

Definition DaysInYear (y : Z) : Z := if isLeap y then 366 else 365.

Definition DayFromYear (y : Z) : Z :=
  365 * (y - 1970) + (y - 1969) / 4 - (y - 1901) / 100 + (y - 1601) / 400.

(** The year of a day number: the largest [y] with [DayFromYear y <= d].
    The mean Gregorian year gives an estimate that is off by at most one. *)
Definition YearFromDay (d : Z) : Z :=
  let y := 1970 + (400 * d) / 146097 in
  if d <? DayFromYear y then y - 1
  else if DayFromYear (y + 1) <=? d then y + 1
  else y.

Definition YearFromTime (t : Z) : Z := YearFromDay (Day t).
Definition InLeapYear (t : Z) : bool := isLeap (YearFromTime t).
Definition DayWithinYear (t : Z) : Z := Day t - DayFromYear (YearFromTime t).

(** Days of the year before the first of month [m] (0 = January). *)
Definition daysBeforeMonth (leap : bool) (m : Z) : Z :=
  let l := if leap then 1 else 0 in
  if m <=? 0 then 0
  else if m =? 1 then 31
  else if m =? 2 then 59 + l
  else if m =? 3 then 90 + l
  else if m =? 4 then 120 + l
  else if m =? 5 then 151 + l
  else if m =? 6 then 181 + l
  else if m =? 7 then 212 + l
  else if m =? 8 then 243 + l
  else if m =? 9 then 273 + l
  else if m =? 10 then 304 + l
  else 334 + l.

Definition monthOfDayWithinYear (leap : bool) (n : Z) : Z :=
  let l := if leap then 1 else 0 in
  if n <? 31 then 0
  else if n <? 59 + l then 1
  else if n <? 90 + l then 2
  else if n <? 120 + l then 3
  else if n <? 151 + l then 4
  else if n <? 181 + l then 5
  else if n <? 212 + l then 6
  else if n <? 243 + l then 7
  else if n <? 273 + l then 8
  else if n <? 304 + l then 9
  else if n <? 334 + l then 10
  else 11.

Definition MonthFromTime (t : Z) : Z :=
  monthOfDayWithinYear (InLeapYear t) (DayWithinYear t).

Definition DateFromTime (t : Z) : Z :=
  DayWithinYear t - daysBeforeMonth (InLeapYear t) (MonthFromTime t) + 1.

Definition WeekDay (t : Z) : Z := (Day t + 4) mod 7.
Definition HourFromTime (t : Z) : Z := (t / msPerHour) mod 24.
Definition MinFromTime (t : Z) : Z := (t / msPerMinute) mod 60.

Definition MakeTime (hour min sec ms : Z) : Z :=
  hour * msPerHour + min * msPerMinute + sec * msPerSecond + ms.

(** MakeDay: the day number of the first of the month, plus [date - 1];
    months beyond 0..11 carry into the year. *)
Definition MakeDay (year month date : Z) : Z :=
  let ym := year + month / 12 in
  let mn := month mod 12 in
  DayFromYear ym + daysBeforeMonth (isLeap ym) mn + date - 1.

Definition MakeDate (day time : Z) : Z := day * msPerDay + time.

(** The host time zone: the offset from UTC in milliseconds, as a function
    of a UTC time value ([offsetAtUTC], LocalTZA(t, true)) and of a local
    time value ([offsetAtLocal], LocalTZA(t, false)). *)
Record TimeZone : Type := {
  offsetAtUTC : Z -> Z;
  offsetAtLocal : Z -> Z
}.

Definition LocalTime (tz : TimeZone) (t : Z) : Z := t + offsetAtUTC tz t.
Definition UTC (tz : TimeZone) (t : Z) : Z := t - offsetAtLocal tz t.

(** Years 0..99 given to the [Date] constructor or to [Date.UTC] mean
    1900..1999. *)
Definition fullYear (y : Z) : Z :=
  if (0 <=? y) && (y <=? 99) then 1900 + y else y.

(** [new Date(year, month, day)] *)
Definition newDate (tz : TimeZone) (year month day : Z) : Z :=
  UTC tz (MakeDate (MakeDay (fullYear year) month day) (MakeTime 0 0 0 0)).

(** [Date.UTC(year, month, day, hours, minutes, seconds)] *)
Definition DateUTC (year month day hours minutes seconds : Z) : Z :=
  MakeDate (MakeDay (fullYear year) month day)
           (MakeTime hours minutes seconds 0).

Definition getFullYear (tz : TimeZone) (d : Z) : Z := YearFromTime (LocalTime tz d).
Definition getMonth (tz : TimeZone) (d : Z) : Z := MonthFromTime (LocalTime tz d).
Definition getDate (tz : TimeZone) (d : Z) : Z := DateFromTime (LocalTime tz d).
Definition getDay (tz : TimeZone) (d : Z) : Z := WeekDay (LocalTime tz d).
Definition getHours (tz : TimeZone) (d : Z) : Z := HourFromTime (LocalTime tz d).
Definition getMinutes (tz : TimeZone) (d : Z) : Z := MinFromTime (LocalTime tz d).

(** [d.setDate(dt)]: the new time value of [d]. *)
Definition setDate (tz : TimeZone) (d dt : Z) : Z :=
  let t := LocalTime tz d in
  UTC tz (MakeDate (MakeDay (YearFromTime t) (MonthFromTime t) dt)
                   (TimeWithinDay t)).

(** [d.setHours(hour, min, sec, ms)]: the new time value of [d]. *)
Definition setHours (tz : TimeZone) (d hour min sec ms : Z) : Z :=
  let t := LocalTime tz d in
  UTC tz (MakeDate (Day t) (MakeTime hour min sec ms)).

(** Zones. *)
Definition fixedZone (c : Z) : TimeZone :=
  {| offsetAtUTC := fun _ => c; offsetAtLocal := fun _ => c |}.

Definition utcZone : TimeZone := fixedZone 0.

(** The zone of the site, America/New_York, with its 2025 transitions:
    UTC-4 from 2025-03-09T07:00Z to 2025-11-02T06:00Z, UTC-5 otherwise.  A
    skipped or repeated local time takes the offset before the transition. *)
Definition newYork2025 : TimeZone :=
  {| offsetAtUTC := fun t =>
       if (1741503600000 <=? t) && (t <? 1762063200000)
       then -4 * msPerHour else -5 * msPerHour;
     offsetAtLocal := fun t =>
       if (1741489200000 <=? t) && (t <? 1762048800000)
       then -4 * msPerHour else -5 * msPerHour |}.

(** Reading a local time back gives the same calendar day: no transition
    of the zone moves a local time across midnight. *)
Definition dayStable (tz : TimeZone) : Prop :=
  forall x, Day (LocalTime tz (UTC tz x)) = Day x.

(** The zone keeps one offset [c] during the local day [D]. *)
Definition steadyOn (tz : TimeZone) (D : Z) (c : Z) : Prop :=
  (forall x, Day x = D -> offsetAtLocal tz x = c) /\
  (forall t, Day (t + c) = D -> offsetAtUTC tz t = c).

(** The local calendar day of a [Date]. *)
Definition localDay (tz : TimeZone) (d : Z) : Z := Day (LocalTime tz d).

(** The time of day that the local clock shows at an instant, in
    milliseconds since local midnight. *)
Definition clockTime (tz : TimeZone) (d : Z) : Z :=
  TimeWithinDay (LocalTime tz d).

End JSDate.

(** ** Numbers and strings of the script *)

Module JSNum.
Local Open Scope R_scope.

(** Truncation towards zero, and the [%] operator on Numbers: the
    remainder has the sign of the dividend. *)
Definition Rtrunc (x : R) : Z :=
  if Rle_dec 0 x then Zfloor x else Zceil x.

Definition rem (x y : R) : R := x - y * IZR (Rtrunc (x / y)).

Definition Math_floor (x : R) : Z := Zfloor x.

(** [Math.round]: the nearest integer, a tie going up. *)
Definition Math_round (x : R) : Z := Zfloor (x + 1 / 2).

Local Open Scope Z_scope.

(** A run of decimal digits and nothing else, as a field of a date-time
    string is: its value.  [None] when another character occurs. *)
Definition digitValue (c : ascii) : option Z :=
  let n := Z.of_nat (nat_of_ascii c) in
  if (48 <=? n) && (n <=? 57) then Some (n - 48) else None.

Fixpoint digitsValue (s : string) (acc : Z) : option Z :=
  match s with
  | EmptyString => Some acc
  | String c r =>
      match digitValue c with
      | Some v => digitsValue r (10 * acc + v)
      | None => None
      end
  end.

(** *** [Number] on a string

    Unlike the arithmetic of the engine, the reading of a numeric string is
    modelled with its rounding to binary64. *)

(** A Number read from a string: NaN, an infinity, or the finite binary64
    value [significand * 2 ^ exponent], the significand odd or 0.  The sign
    of a zero is not kept. *)
Inductive NumberValue : Type :=
| NaN
| Infinity (negative : bool)
| Finite (significand exponent : Z).

(** [n * 2 ^ k] with the factors 2 of [n] moved to the exponent. *)
Fixpoint oddSignificand (n : positive) (k : Z) : Z * Z :=
  match n with
  | xO n' => oddSignificand n' (k + 1)
  | _ => (Z.pos n, k)
  end.

(** The binary64 value nearest to the rational [p / q], for positive [p]
    and [q], a tie going to the even significand: [Some (n, k)] for
    [n * 2 ^ k], [None] when the nearest value is beyond the largest finite
    one, which gives an infinity.  [k] is at least -1074, where the
    subnormal values lie. *)
Definition roundBinary64 (p q : Z) : option (Z * Z) :=
  let k0 := Z.log2 p - Z.log2 q in
  let reaches (k : Z) :=
    if 0 <=? k then q * 2 ^ k <=? p else q <=? p * 2 ^ (- k) in
  let k := if reaches k0 then k0 else k0 - 1 in
  let unit := Z.max (k - 52) (-1074) in
  let '(num, den) :=
    if 0 <=? unit then (p, q * 2 ^ unit) else (p * 2 ^ (- unit), q) in
  let below := num / den in
  let rest := num mod den in
  let n :=
    if 2 * rest <? den then below
    else if den <? 2 * rest then below + 1
    else if Z.even below then below else below + 1 in
  if (0 <=? unit) && (2 ^ 1024 <=? n * 2 ^ unit) then None
  else
    match n with
    | Z.pos n' => Some (oddSignificand n' unit)
    | _ => Some (0, 0)
    end.

(** The Number of the mathematical value [mantissa * 10 ^ e] of a literal
    (RoundMVResult, with the nearest value for every length of literal). *)
Definition numberOfDecimal (negative : bool) (mantissa e : Z) : NumberValue :=
  if mantissa =? 0 then Finite 0 0
  else
    let '(p, q) :=
      if 0 <=? e then (mantissa * 10 ^ e, 1) else (mantissa, 10 ^ (- e)) in
    match roundBinary64 p q with
    | Some (n, k) => Finite (if negative then - n else n) k
    | None => Infinity negative
    end.

(** StrWhiteSpaceChar in one byte: TAB, LF, VT, FF, CR, SP. *)
Definition whiteSpace1 (a : Z) : bool :=
  ((9 <=? a) && (a <=? 13)) || (a =? 32).

(** In two bytes: U+00A0. *)
Definition whiteSpace2 (a b : Z) : bool :=
  (a =? 194) && (b =? 160).

(** In three bytes: U+1680, U+2000 to U+200A, U+2028, U+2029, U+202F,
    U+205F, U+3000 and U+FEFF. *)
Definition whiteSpace3 (a b c : Z) : bool :=
  ((a =? 225) && (b =? 154) && (c =? 128))
  || ((a =? 226) && (b =? 128)
      && (((128 <=? c) && (c <=? 138)) || (c =? 168) || (c =? 169)
          || (c =? 175)))
  || ((a =? 226) && (b =? 129) && (c =? 159))
  || ((a =? 227) && (b =? 128) && (c =? 128))
  || ((a =? 239) && (b =? 187) && (c =? 191)).

Definition byte (c : ascii) : Z := Z.of_nat (nat_of_ascii c).

(** [s] without the white space at its head. *)
Fixpoint trimStart (s : string) : string :=
  match s with
  | EmptyString => s
  | String a r =>
      if whiteSpace1 (byte a) then trimStart r
      else
        match r with
        | EmptyString => s
        | String b r1 =>
            if whiteSpace2 (byte a) (byte b) then trimStart r1
            else
              match r1 with
              | EmptyString => s
              | String c r2 =>
                  if whiteSpace3 (byte a) (byte b) (byte c) then trimStart r2
                  else s
              end
        end
  end.

(** The value of a digit of [base] (2, 8, 10 or 16). *)
Definition digitOf (base : Z) (c : ascii) : option Z :=
  let n := byte c in
  let v :=
    if (48 <=? n) && (n <=? 57) then n - 48
    else if (97 <=? n) && (n <=? 102) then n - 87
    else if (65 <=? n) && (n <=? 70) then n - 55
    else 16 in
  if v <? base then Some v else None.

(** The longest run of digits of [base] at the head of [s]: its value
    after the digits already in [acc], the number of digits, and what
    follows the run. *)
Fixpoint digitRun (base : Z) (s : string) (acc count : Z) : Z * Z * string :=
  match s with
  | EmptyString => (acc, count, s)
  | String c r =>
      match digitOf base c with
      | Some v => digitRun base r (base * acc + v) (count + 1)
      | None => (acc, count, s)
      end
  end.

Fixpoint stripPrefix (p s : string) : option string :=
  match p, s with
  | EmptyString, _ => Some s
  | String a p', String b s' =>
      if Ascii.eqb a b then stripPrefix p' s' else None
  | String _ _, EmptyString => None
  end.

(** A sign, if there is one: whether it is [-], and what follows. *)
Definition signOf (s : string) : bool * string :=
  match s with
  | String c r =>
      if Ascii.eqb c "+"%char then (false, r)
      else if Ascii.eqb c "-"%char then (true, r)
      else (false, s)
  | EmptyString => (false, s)
  end.

(** ExponentPart, if there is one at the head of [s]: its value and what
    follows.  An [e] without digits is not an exponent and is left. *)
Definition exponentPart (s : string) : Z * string :=
  match s with
  | String c r =>
      if Ascii.eqb c "e"%char || Ascii.eqb c "E"%char then
        let '(negative, r1) := signOf r in
        let '(v, count, rest) := digitRun 10 r1 0 0 in
        if 0 <? count then (if negative then - v else v, rest) else (0, s)
      else (0, s)
  | EmptyString => (0, s)
  end.

(** StrDecimalLiteral at the head of [s]: its value and what follows. *)
Definition strDecimalLiteral (s : string) : option (NumberValue * string) :=
  let '(negative, s1) := signOf s in
  match stripPrefix "Infinity"%string s1 with
  | Some rest => Some (Infinity negative, rest)
  | None =>
      let '(a, na, r1) := digitRun 10 s1 0 0 in
      let '(mantissa, nb, r2) :=
        match r1 with
        | String c r => if Ascii.eqb c "."%char then digitRun 10 r a 0
                        else (a, 0, r1)
        | EmptyString => (a, 0, r1)
        end in
      if (0 <? na) || (0 <? nb) then
        let '(e, r3) := exponentPart r2 in
        Some (numberOfDecimal negative mantissa (e - nb), r3)
      else None
  end.

(** NonDecimalIntegerLiteral at the head of [s]: [0x], [0o] or [0b], in
    either case, and at least one digit. *)
Definition nonDecimalIntegerLiteral (s : string)
  : option (NumberValue * string) :=
  match s with
  | String z (String p r) =>
      let base :=
        if Ascii.eqb p "x"%char || Ascii.eqb p "X"%char then 16
        else if Ascii.eqb p "o"%char || Ascii.eqb p "O"%char then 8
        else if Ascii.eqb p "b"%char || Ascii.eqb p "B"%char then 2
        else 0 in
      if Ascii.eqb z "0"%char && negb (base =? 0) then
        let '(v, count, rest) := digitRun base r 0 0 in
        if 0 <? count then Some (numberOfDecimal false v 0, rest) else None
      else None
  | _ => None
  end.

(** [Number(s)], StringToNumber: white space around a numeric literal is
    dropped, the empty string is 0, and anything that is not a literal as
    a whole is NaN. *)
Definition Number (s : string) : NumberValue :=
  let s1 := trimStart s in
  if String.eqb s1 ""%string then Finite 0 0
  else
    let literal :=
      match nonDecimalIntegerLiteral s1 with
      | Some r => Some r
      | None => strDecimalLiteral s1
      end in
    match literal with
    | Some (v, rest) => if String.eqb (trimStart rest) ""%string then v else NaN
    | None => NaN
    end.

(** The integer that [MakeTime] takes from a finite Number, by truncation
    (ToIntegerOrInfinity); [None] for NaN and the infinities, with which
    [MakeTime] gives NaN. *)
Definition finiteInteger (x : NumberValue) : option Z :=
  match x with
  | Finite n k =>
      Some (if 0 <=? k then n * 2 ^ k else Z.quot n (2 ^ (- k)))
  | NaN | Infinity _ => None
  end.

(** [s.split(sep)] for a one-character separator. *)
Fixpoint splitOn (sep : ascii) (s : string) (cur : string) : list string :=
  match s with
  | EmptyString => [cur]
  | String c r =>
      if Ascii.eqb c sep then cur :: splitOn sep r EmptyString
      else splitOn sep r (cur ++ String c EmptyString)
  end.

Definition split (sep : ascii) (s : string) : list string :=
  splitOn sep s EmptyString.

End JSNum.

Module DateParse.
Import JSDate JSNum.
Local Open Scope string_scope.
Local Open Scope Z_scope.

Definition field (s : string) (start len : nat) : option Z :=
  let f := substring start len s in
  if Nat.eqb (String.length f) len then digitsValue f 0 else None.

Definition charAt (s : string) (i : nat) : string := substring i 1 s.

(** [new Date(s)] for the date-time form [YYYY-MM-DDTHH:mm:ss], which
    carries no offset and is therefore read as local time.  [None] stands
    for the Invalid Date. *)
Definition newDateOfString (tz : TimeZone) (s : string) : option Z :=
  match field s 0 4, field s 5 2, field s 8 2,
        field s 11 2, field s 14 2, field s 17 2 with
  | Some y, Some mo, Some d, Some h, Some mi, Some sec =>
      if Nat.eqb (String.length s) 19
         && String.eqb (charAt s 4) "-" && String.eqb (charAt s 7) "-"
         && String.eqb (charAt s 10) "T"
         && String.eqb (charAt s 13) ":" && String.eqb (charAt s 16) ":"
         && (1 <=? mo) && (mo <=? 12) && (1 <=? d) && (d <=? 31)
         && (h <? 24) && (mi <? 60) && (sec <? 60)
      then Some (UTC tz (MakeDate (MakeDay y (mo - 1) d) (MakeTime h mi sec 0)))
      else None
  | _, _, _, _, _, _ => None
  end.

End DateParse.

(** ** The script *)

Module Bmh.
Import JSDate JSNum DateParse.

Record Config : Type := {
  LAT : R;
  LNG : R;
  ZENITH_DEG : R;
  CALIBRATION_ENABLED : bool;
  REFERENCE_SHABBOS : string;
  REFERENCE_MOTZAEI_MAARIV : string;
  REFERENCE_MAARIV_OFFSET_MIN : Z
}.

(** The constants of [main.js], lines 2-11. *)
Definition bmh : Config := {|
  LAT := 41.19392515448243%R;
  LNG := (-74.02504208449552)%R;
  ZENITH_DEG := 90.0%R;
  CALIBRATION_ENABLED := true;
  REFERENCE_SHABBOS := "2025-12-06";
  REFERENCE_MOTZAEI_MAARIV := "17:17";
  REFERENCE_MAARIV_OFFSET_MIN := 50%Z
|}.

Section Script.
Variable cfg : Config.
Variable tz : TimeZone.

Local Open Scope Z_scope.

Definition toDateParts (date : Z) : Z * Z * Z :=
  let d := date in
  (getFullYear tz d, getMonth tz d, getDate tz d).

(** [Math.floor(diff / oneDay)] of two integers is the floored quotient. *)
Definition dayOfYear (date : Z) : Z :=
  let d := date in
  let start := newDate tz (getFullYear tz d) 0 0 in
  let diff := d - start in
  let oneDay := 1000 * 60 * 60 * 24 in
  diff / oneDay.

Local Open Scope R_scope.

Definition sind (x : R) : R := sin (x * PI / 180).
Definition cosd (x : R) : R := cos (x * PI / 180).
Definition tand (x : R) : R := tan (x * PI / 180).

(** Lines 35-38: the approximate time of the event. *)
Definition approxTime (N : Z) (lngDeg : R) : R :=
  let lngHour := lngDeg / 15.0 in
  IZR N + ((18 - lngHour) / 24.0).

(** Lines 40-47: the sun's true longitude, in [0, 360). *)
Definition trueLongitude (t : R) : R :=
  let M := (0.9856 * t) - 3.289 in
  let L := M + (1.916 * sind M) + (0.020 * sind (2 * M)) + 282.634 in
  rem (rem L 360 + 360) 360.

(** Lines 49-55: the right ascension, in hours. *)
Definition rightAscension (L : R) : R :=
  let RA := atan (0.91764 * tand L) * 180 / PI in
  let RA := rem (rem RA 360 + 360) 360 in
  let Lquadrant := IZR (Math_floor (L / 90)) * 90 in
  let RAquadrant := IZR (Math_floor (RA / 90)) * 90 in
  let RA := RA + (Lquadrant - RAquadrant) in
  RA / 15.0.

(** Lines 57-60: the cosine of the local hour angle.  The latitude is the
    constant [LAT]. *)
Definition hourAngleCos (L zenithDeg : R) : R :=
  let sinDec := 0.39782 * sind L in
  let cosDec := cos (asin sinDec) in
  (cosd zenithDeg - (sinDec * sind (LAT cfg))) / (cosDec * cosd (LAT cfg)).

(** [noaaSunsetUT(date, latDeg, lngDeg, zenithDeg)]; [None] is [null]. *)
Definition noaaSunsetUT (date : Z) (latDeg lngDeg zenithDeg : R) : option R :=
  let N := dayOfYear date in
  let lngHour := lngDeg / 15.0 in
  let t := approxTime N lngDeg in
  let L := trueLongitude t in
  let RA := rightAscension L in
  let cosH := hourAngleCos L zenithDeg in
  if Rlt_dec cosH (-1) then None
  else if Rlt_dec 1 cosH then None
  else
    let H := acos cosH * 180 / PI in
    let H := H / 15.0 in
    let T := H + RA - (0.06571 * t) - 6.622 in
    let UT := T - lngHour in
    let UT := rem (rem UT 24 + 24) 24 in
    Some UT.

(** The instant built from the UT hours, lines 81-86. *)
Definition sunsetInstant (year month day : Z) (utHours : R) : Z :=
  let hours := Math_floor utHours in
  let minutes := Math_round ((utHours - IZR hours) * 60) in
  let baseUTC := DateUTC year month day 0 0 0 in
  (baseUTC + (hours * 60 + minutes) * 60 * 1000)%Z.

Definition getNoaaSunsetDateRaw (date : Z) (latDeg lngDeg zenithDeg : R)
  : option Z :=
  let '(year, month, day) := toDateParts date in
  match noaaSunsetUT (newDate tz year month day) latDeg lngDeg zenithDeg with
  | None => None
  | Some utHours => Some (sunsetInstant year month day utHours)
  end.

(** The [Date] that [getNoaaSunsetDateRaw] hands to [noaaSunsetUT]: local
    midnight of the calendar day of [date]. *)
Definition localMidnight (date : Z) : Z :=
  let '(year, month, day) := toDateParts date in
  newDate tz year month day.

(** The value of [cosH] in [noaaSunsetUT(date, latDeg, lngDeg, zenithDeg)]. *)
Definition sunsetCosH (date : Z) (lngDeg zenithDeg : R) : R :=
  hourAngleCos (trueLongitude (approxTime (dayOfYear date) lngDeg)) zenithDeg.

Local Open Scope Z_scope.

(** [CAL_OFFSET_MS] is the argument [calOffsetMs]. *)
Definition getSunsetWithCalibration (calOffsetMs : Z) (date : Z) : option Z :=
  match getNoaaSunsetDateRaw date (LAT cfg) (LNG cfg) (ZENITH_DEG cfg) with
  | None => None
  | Some raw =>
      if negb (CALIBRATION_ENABLED cfg) || (calOffsetMs =? 0) then Some raw
      else Some (raw + calOffsetMs)
  end.

Definition getSundayOfWeek (date : Z) : Z :=
  let d := date in
  let day := getDay tz d in
  let d := setDate tz d (getDate tz d - day) in
  setHours tz d 12 0 0 0.

Definition getComingShabbos (fromDate : Z) : Z :=
  let d := fromDate in
  let day := getDay tz d in
  let diff := Z.rem (6 - day + 7) 7 in
  let diff := if (diff =? 0) && (18 <=? getHours tz d) then 7 else diff in
  let d := setDate tz d (getDate tz d + diff) in
  setHours tz d 12 0 0 0.

(** The number of days the spec has the Shabbos rule move forward: to the
    coming Saturday, and a week further from a Saturday evening. *)
Definition shabbosAdvance (fromDate : Z) : Z :=
  if (getDay tz fromDate =? 6) && (18 <=? getHours tz fromDate) then 7
  else 6 - getDay tz fromDate.

(** [None] stands for the Invalid Date: of an ill-formed date string, of
    a time string with fewer than two parts ([m] is then [undefined]), and
    of a part that is NaN or infinite. *)
Definition parseLocalTimeOnDate (dateString timeStr : string) : option Z :=
  match map Number (split ":" timeStr) with
  | h :: m :: _ =>
      match newDateOfString tz (dateString ++ "T00:00:00") with
      | Some d =>
          match finiteInteger h, finiteInteger m with
          | Some hour, Some min => Some (setHours tz d hour min 0 0)
          | _, _ => None
          end
      | None => None
      end
  | _ => None
  end.

(** [computeCalibrationOffsetMs()]; [None] stands for the NaN that
    ill-formed reference strings would give. *)
Definition computeCalibrationOffsetMs : option Z :=
  if negb (CALIBRATION_ENABLED cfg) then Some 0
  else
    match newDateOfString tz (REFERENCE_SHABBOS cfg ++ "T12:00:00") with
    | None => None
    | Some shabbosDate =>
        match getNoaaSunsetDateRaw shabbosDate (LAT cfg) (LNG cfg) (ZENITH_DEG cfg) with
        | None => Some 0
        | Some computedSunset =>
            match parseLocalTimeOnDate (REFERENCE_SHABBOS cfg)
                                       (REFERENCE_MOTZAEI_MAARIV cfg) with
            | None => None
            | Some maarivActual =>
                let shkiyahActual :=
                  maarivActual - REFERENCE_MAARIV_OFFSET_MIN cfg * 60 * 1000 in
                let offsetMs := shkiyahActual - computedSunset in
                Some offsetMs
            end
        end
    end.

(** The value the load handler leaves in [CAL_OFFSET_MS].  A NaN there
    makes [!CAL_OFFSET_MS] true, as 0 does. *)
Definition loadedCalOffsetMs : Z :=
  match computeCalibrationOffsetMs with
  | Some offsetMs => offsetMs
  | None => 0
  end.

(** The dates of the loop of [updateWeekdayMinchaMaariv], lines 151-156. *)
Definition weekdayDate (sunday : Z) (i : Z) : Z :=
  let d := sunday in
  setDate tz d (getDate tz sunday + i).

(** The array [sunsets] after the loop. *)
Definition weekdaySunsets (calOffsetMs today : Z) : list Z :=
  let sunday := getSundayOfWeek today in
  flat_map
    (fun i =>
       match getSunsetWithCalibration calOffsetMs (weekdayDate sunday i) with
       | Some sunset => [sunset]
       | None => []
       end)
    [0; 1; 2; 3; 4].

(** Lines 162-165. *)
Definition earliestOf (first : Z) (sunsets : list Z) : Z :=
  fold_left (fun earliest s => if s <? earliest then s else earliest)
            sunsets first.

(** The instant [minchaTime]; [None] is the thrown error. *)
Definition weekdayMinchaTime (calOffsetMs today : Z) : option Z :=
  let sunsets := weekdaySunsets calOffsetMs today in
  match sunsets with
  | [] => None
  | s0 :: _ =>
      let earliest := earliestOf s0 sunsets in
      Some (earliest - 15 * 60 * 1000)
  end.

(** The instants [erevMincha], [shabbosMincha], [maariv]; [None] is the
    thrown error. *)
Definition shabbosTimes (calOffsetMs today : Z) : option (Z * Z * Z) :=
  let shabbos := getComingShabbos today in
  match getSunsetWithCalibration calOffsetMs shabbos with
  | None => None
  | Some sunset =>
      let erevMincha := sunset - 15 * 60 * 1000 in
      let shabbosMincha := sunset - 45 * 60 * 1000 in
      let maariv := sunset + 50 * 60 * 1000 in
      Some (erevMincha, shabbosMincha, maariv)
  end.

(** The page: which element ids exist, and [formatTimeLocal], the host's
    [toLocaleTimeString("en-US", ...)].  An update is the list of the
    [(id, textContent)] assignments it makes, in order. *)
Variable hasElement : string -> bool.
Variable formatTimeLocal : Z -> string.

Definition assign (id text : string) : list (string * string) :=
  if hasElement id then [(id, text)] else [].

Definition updateWeekdayMinchaMaariv (calOffsetMs today : Z)
  : list (string * string) :=
  match weekdayMinchaTime calOffsetMs today with
  | Some minchaTime =>
      let timeStr := formatTimeLocal minchaTime in
      assign "weekdayMinchaMaariv" timeStr
      ++ assign "weekdayMinchaMaarivCard" timeStr
      ++ assign "heroWeekdayMincha" timeStr
  | None =>
      let fallback := "Check shul board"%string in
      flat_map (fun id => assign id fallback)
        ["weekdayMinchaMaariv"; "weekdayMinchaMaarivCard"; "heroWeekdayMincha"]%string
  end.

Definition updateShabbosTimes (calOffsetMs today : Z)
  : list (string * string) :=
  match shabbosTimes calOffsetMs today with
  | Some (erevMincha, shabbosMincha, maariv) =>
      let erevMinchaStr := formatTimeLocal erevMincha in
      let shabbosMinchaStr := formatTimeLocal shabbosMincha in
      let maarivStr := formatTimeLocal maariv in
      assign "erevShabbosMinchaTime" erevMinchaStr
      ++ assign "shabbosMinchaTime" shabbosMinchaStr
      ++ assign "shabbosMaarivTime" maarivStr
      ++ assign "heroShabbosMincha" shabbosMinchaStr
      ++ assign "heroShabbosMaariv" maarivStr
  | None =>
      let fallback := "See local listing"%string in
      flat_map (fun id => assign id fallback)
        ["erevShabbosMinchaTime"; "shabbosMinchaTime"; "shabbosMaarivTime";
         "heroShabbosMincha"; "heroShabbosMaariv"]%string
  end.

End Script.

(** The ordinal day of the year of a calendar date (month 0 = January):
    1 for January 1 through 365 or 366 for December 31. *)
Definition ordinalDayOfYear (year month day : Z) : Z :=
  (daysBeforeMonth (isLeap year) month + day)%Z.

(** The cosine of the hour angle as the spec words it, step 8, with the
    latitude of the location given to the computation. *)
Definition hourAngleCosSpec (latitude L depressionAngle : R) : R :=
  let sinDec := (0.39782 * sind L)%R in
  let cosDec := cos (asin sinDec) in
  ((cosd depressionAngle - sinDec * sind latitude)
   / (cosDec * cosd latitude))%R.

(** The five assignments of [updateShabbosTimes] for three texts, before the
    elements that do not exist are left out. *)
Definition shabbosWrites (erev day maariv : string) : list (string * string) :=
  [("erevShabbosMinchaTime", erev); ("shabbosMinchaTime", day);
   ("shabbosMaarivTime", maariv); ("heroShabbosMincha", day);
   ("heroShabbosMaariv", maariv)]%string.

(** The angle of [180 - L] degrees, in radians. *)
Definition supplementRad (L : R) : R := ((180 - L) * PI / 180)%R.

(** Partial sums of the series of sine and cosine, which enclose them. *)
Definition sinPolyLo (r : R) : R :=
  (r - r ^ 3 / 6 + r ^ 5 / 120 - r ^ 7 / 5040)%R.
Definition sinPolyHi (r : R) : R := (sinPolyLo r + r ^ 9 / 362880)%R.
Definition cosPolyLo (r : R) : R :=
  (1 - r ^ 2 / 2 + r ^ 4 / 24 - r ^ 6 / 720)%R.
Definition cosPolyHi (r : R) : R := (cosPolyLo r + r ^ 8 / 40320)%R.

(** A configuration under which no sunset is computable: the sun never
    stands at the zenith (depression reference 0) at latitude 60. *)
Definition neverSets : Config := {|
  LAT := 60%R;
  LNG := LNG bmh;
  ZENITH_DEG := 0%R;
  CALIBRATION_ENABLED := true;
  REFERENCE_SHABBOS := REFERENCE_SHABBOS bmh;
  REFERENCE_MOTZAEI_MAARIV := REFERENCE_MOTZAEI_MAARIV bmh;
  REFERENCE_MAARIV_OFFSET_MIN := REFERENCE_MAARIV_OFFSET_MIN bmh
|}.

(** The script with calibration switched off. *)
Definition uncalibrated : Config := {|
  LAT := LAT bmh;
  LNG := LNG bmh;
  ZENITH_DEG := ZENITH_DEG bmh;
  CALIBRATION_ENABLED := false;
  REFERENCE_SHABBOS := REFERENCE_SHABBOS bmh;
  REFERENCE_MOTZAEI_MAARIV := REFERENCE_MOTZAEI_MAARIV bmh;
  REFERENCE_MAARIV_OFFSET_MIN := REFERENCE_MAARIV_OFFSET_MIN bmh
|}.

End Bmh.


(** ** The page: the reading of the week and the load handler *)

Module Page.
Import JSDate Bmh.
Local Open Scope string_scope.
Local Open Scope Z_scope.

(** A value of [JSON.parse].  An object is the list of its members in the
    order of the text; a name given twice keeps its last value. *)
#[local] Set Warnings "-register-all".
Inductive JSON : Type :=
| JNull
| JBool (b : bool)
| JNumber (x : PrimFloat.float)
| JString (s : string)
| JArray (elements : list JSON)
| JObject (members : list (string * JSON)).

(** A completion: a value, or a thrown error. *)
Inductive Completion (A : Type) : Type :=
| Normal (a : A)
| Throw.
Arguments Normal {A} a.
Arguments Throw {A}.

Fixpoint getOwn (name : string) (members : list (string * JSON)) : option JSON :=
  match members with
  | [] => None
  | (k, v) :: rest =>
      match getOwn name rest with
      | Some w => Some w
      | None => if String.eqb name k then Some v else None
      end
  end.

(** [v.name] for the names the script reads ([items], [category], [hebrew],
    [title]), none of which a prototype defines: a TypeError on [null], the
    member of an object, and [undefined] ([None]) otherwise. *)
Definition getProperty (v : JSON) (name : string) : Completion (option JSON) :=
  match v with
  | JNull => Throw
  | JObject members => Normal (getOwn name members)
  | _ => Normal None
  end.

(** ToBoolean, [None] being [undefined]. *)
Definition truthy (v : option JSON) : bool :=
  match v with
  | None => false
  | Some JNull => false
  | Some (JBool b) => b
  | Some (JNumber x) => negb (PrimFloat.is_zero x || PrimFloat.is_nan x)
  | Some (JString s) => negb (String.eqb s "")
  | Some (JArray _) => true
  | Some (JObject _) => true
  end.

(** The callback of line 248: [item.category === "parashat"]. *)
Definition isParashat (item : JSON) : Completion bool :=
  match getProperty item "category" with
  | Throw => Throw
  | Normal (Some (JString s)) => Normal (String.eqb s "parashat")
  | Normal _ => Normal false
  end.

(** [items.find(isParashat)]: the first item the callback accepts, [None]
    ([undefined]) when there is none, the callback's error when it throws
    first. *)
Fixpoint findParashat (items : list JSON) : Completion (option JSON) :=
  match items with
  | [] => Normal None
  | item :: rest =>
      match isParashat item with
      | Throw => Throw
      | Normal true => Normal (Some item)
      | Normal false => findParashat rest
      end
  end.

(** A value of the script: a parsed value, or [undefined] ([None]). *)
Definition Value : Type := option JSON.

Definition dash : Value := Some (JString "—").

(** [a || b] *)
Definition jsOr (a b : Value) : Value := if truthy a then a else b.

(** ToString of a parsed value, as the setter of [textContent] applies it:
    whether it completes.  It throws a TypeError on an object with a member
    [toString] (no parsed value is callable, and [valueOf] then gives back
    the object), and on an array that holds such an object at any depth,
    [join] converting each element. *)
Fixpoint stringable (v : JSON) : bool :=
  match v with
  | JArray elements => forallb stringable elements
  | JObject members =>
      match getOwn "toString" members with
      | Some _ => false
      | None => true
      end
  | _ => true
  end.

Definition stringableValue (v : Value) : bool :=
  match v with
  | Some j => stringable j
  | None => true
  end.

(** [parshaEl.textContent = v] inside the [try]: the value the element
    holds afterwards, or the error of the conversion. *)
Definition setTextContent (v : Value) : Completion Value :=
  if stringableValue v then Normal v else Throw.

(** Lines 248-255: the value [parshaEl.textContent] is given for the
    parsed body [data].  Calling [find] on anything but an array throws. *)
Definition parshaOfData (data : JSON) : Completion Value :=
  match getProperty data "items" with
  | Throw => Throw
  | Normal (Some (JArray items)) =>
      match findParashat items with
      | Throw => Throw
      | Normal parshaItem =>
          if truthy parshaItem then
            match parshaItem with
            | Some item =>
                match getProperty item "hebrew" with
                | Throw => Throw
                | Normal hebrew =>
                    if truthy hebrew then setTextContent hebrew
                    else
                      match getProperty item "title" with
                      | Throw => Throw
                      | Normal title => setTextContent (jsOr title dash)
                      end
                end
            | None => setTextContent dash
            end
          else setTextContent dash
      end
  | Normal _ => Throw
  end.

(** What [fetch] settles to: a rejection, or a response with its status and
    its body read as JSON ([None] when the body is not JSON). *)
Inductive FetchOutcome : Type :=
| FetchRejected
| FetchResponse (status : Z) (body : option JSON).

(** [res.ok] *)
Definition responseOk (status : Z) : bool :=
  (200 <=? status) && (status <=? 299).

Definition parshaUrl : string :=
  "https://www.hebcal.com/shabbat?cfg=json&geo=pos&latitude=41.19392515448243&longitude=-74.02504208449552&m=50&leyning=on".

Section Handlers.
Variable cfg : Config.
Variable tz : TimeZone.
Variable hasElement : string -> bool.
Variable formatTimeLocal : Z -> string.
Variable fetch : string -> FetchOutcome.

(** [updateParsha()]: the requests made, and the value that
    [parshaEl.textContent] is left with, if it is assigned at all. *)
Definition updateParsha : list string * option Value :=
  if negb (hasElement "parshaName") then ([], None)
  else
    let url := parshaUrl in
    ([url],
     Some (match fetch url with
           | FetchRejected => dash
           | FetchResponse status body =>
               if negb (responseOk status) then dash
               else
                 match body with
                 | None => dash
                 | Some data =>
                     match parshaOfData data with
                     | Normal v => v
                     | Throw => dash
                     end
                 end
           end)).

(** A value given to a [textContent]. *)
Inductive Assigned : Type :=
| AText (s : string)
| ANumber (n : Z)
| AValue (v : Value).

(** The handler of [DOMContentLoaded], lines 261-269.  The three readings
    of the clock are [now0], [now1], [now2].  The result is the requests
    made and the assignments in the order they happen: [updateParsha]
    assigns after its [await], when the synchronous part is over.  The
    elements written are taken not to lie inside one another, so that no
    assignment removes an element looked up later: [hasElement] is the
    same throughout. *)
Definition onLoad (now0 now1 now2 : Z)
  : list string * list (string * Assigned) :=
  let year :=
    if hasElement "year" then [("year", ANumber (getFullYear tz now0))]
    else [] in
  let CAL_OFFSET_MS := loadedCalOffsetMs cfg tz in
  let weekday :=
    updateWeekdayMinchaMaariv cfg tz hasElement formatTimeLocal
      CAL_OFFSET_MS now1 in
  let shabbos :=
    updateShabbosTimes cfg tz hasElement formatTimeLocal CAL_OFFSET_MS now2 in
  let '(requests, parsha) := updateParsha in
  (requests,
   (year
    ++ map (fun w => (fst w, AText (snd w))) weekday
    ++ map (fun w => (fst w, AText (snd w))) shabbos
    ++ match parsha with
       | Some v => [("parshaName", AValue v)]
       | None => []
       end)%list).

End Handlers.

(** A body of the service cut to what the script reads: the second item
    is the reading, with a title only. *)
Definition sampleBody : JSON :=
  JObject
    [("title", JString "Hebcal");
     ("items",
      JArray
        [JObject [("title", JString "Candle lighting: 4:10pm");
                  ("category", JString "candles")];
         JObject [("title", JString "Parashat Vayishlach");
                  ("category", JString "parashat")];
         JObject [("title", JString "Havdalah (50 min): 5:17pm");
                  ("category", JString "havdalah")]])].

(** The element ids the script writes, in the order of [onLoad]. *)
Definition weekdayIds : list string :=
  ["weekdayMinchaMaariv"; "weekdayMinchaMaarivCard"; "heroWeekdayMincha"].

Definition shabbosIds : list string :=
  ["erevShabbosMinchaTime"; "shabbosMinchaTime"; "shabbosMaarivTime";
   "heroShabbosMincha"; "heroShabbosMaariv"].

Definition pageIds : list string :=
  (["year"] ++ weekdayIds ++ shabbosIds ++ ["parshaName"])%list.

End Page.

(** ** Calendar dates *)

Module CalendarDates.
Import JSDate.
Local Open Scope Z_scope.

(** The length of month [m] (0 = January). *)
Definition daysInMonth (leap : bool) (m : Z) : Z :=
  if m =? 1 then (if leap then 29 else 28)
  else if (m =? 3) || (m =? 5) || (m =? 8) || (m =? 10) then 30
  else 31.

(** A date of the calendar, with the years that [new Date(y, m, d)] reads
    as given (not 0..99). *)
Definition validDate (year month day : Z) : Prop :=
  ~ (0 <= year <= 99) /\ 0 <= month <= 11 /\
  1 <= day <= daysInMonth (isLeap year) month.

(** In [newYork2025], the ordinal days of 2025 whose local midnight is in
    summer time: March 10 (69) to November 2 (306). *)
Definition summerMidnight2025 (ordinal : Z) : bool :=
  (69 <=? ordinal) && (ordinal <=? 306).

End CalendarDates.
(** ** Facts about the date arithmetic *)

Module JSDateFacts.
Import JSDate.
Local Open Scope Z_scope.

Ltac zdiv := Z.div_mod_to_equations; lia.

Lemma isLeap_cases (y : Z) :
  (isLeap y = true /\ DaysInYear y = 366) \/
  (isLeap y = false /\ DaysInYear y = 365).
Proof. unfold DaysInYear. destruct (isLeap y); auto. Qed.

Lemma DayFromYear_succ (y : Z) :
  DayFromYear (y + 1) = DayFromYear y + DaysInYear y.
Proof.
  unfold DayFromYear, DaysInYear, isLeap.
  destruct (y mod 4 =? 0) eqn:E4; destruct (y mod 100 =? 0) eqn:E100;
    destruct (y mod 400 =? 0) eqn:E400; cbn [andb orb negb];
    rewrite ?Z.eqb_eq, ?Z.eqb_neq in *; zdiv.
Qed.

Lemma DayFromYear_mono (y y' : Z) :
  y <= y' -> DayFromYear y <= DayFromYear y'.
Proof. unfold DayFromYear. intros H. zdiv. Qed.

Lemma DayFromYear_lt (y y' : Z) :
  y < y' -> DayFromYear y < DayFromYear y'.
Proof.
  intros H. pose proof (DayFromYear_mono (y + 1) y' ltac:(lia)) as Hm.
  rewrite DayFromYear_succ in Hm.
  destruct (isLeap_cases y) as [[_ E]|[_ E]]; lia.
Qed.

Lemma YearFromDay_spec (d : Z) :
  DayFromYear (YearFromDay d) <= d < DayFromYear (YearFromDay d + 1).
Proof.
  unfold YearFromDay.
  set (y := 1970 + 400 * d / 146097).
  assert (Hlo : DayFromYear (y - 1) <= d) by (unfold DayFromYear, y; zdiv).
  assert (Hhi : d < DayFromYear (y + 2)) by (unfold DayFromYear, y; zdiv).
  destruct (d <? DayFromYear y) eqn:E1.
  - apply Z.ltb_lt in E1. replace (y - 1 + 1) with y by lia. lia.
  - apply Z.ltb_ge in E1. destruct (DayFromYear (y + 1) <=? d) eqn:E2.
    + apply Z.leb_le in E2. replace (y + 1 + 1) with (y + 2) by lia. lia.
    + apply Z.leb_gt in E2. lia.
Qed.

Lemma YearFromDay_unique (d y : Z) :
  DayFromYear y <= d < DayFromYear (y + 1) -> YearFromDay d = y.
Proof.
  intros [Hlo Hhi]. pose proof (YearFromDay_spec d) as [Slo Shi].
  destruct (Z.lt_trichotomy (YearFromDay d) y) as [L | [E | G]]; auto.
  - pose proof (DayFromYear_mono (YearFromDay d + 1) y ltac:(lia)). lia.
  - pose proof (DayFromYear_mono (y + 1) (YearFromDay d) ltac:(lia)). lia.
Qed.

Lemma DayWithinYear_bounds (t : Z) :
  0 <= DayWithinYear t < DaysInYear (YearFromTime t).
Proof.
  unfold DayWithinYear, YearFromTime.
  pose proof (YearFromDay_spec (Day t)) as [Slo Shi].
  rewrite DayFromYear_succ in Shi. lia.
Qed.

Lemma monthOfDayWithinYear_range (leap : bool) (n : Z) :
  0 <= monthOfDayWithinYear leap n <= 11.
Proof.
  unfold monthOfDayWithinYear.
  repeat match goal with |- context [if ?b then _ else _] => destruct b end; lia.
Qed.

Lemma MonthFromTime_range (t : Z) : 0 <= MonthFromTime t <= 11.
Proof. apply monthOfDayWithinYear_range. Qed.

(** The month found for a day of the year is the one that contains it. *)
Lemma monthOfDayWithinYear_spec (leap : bool) (n : Z) :
  0 <= n < (if leap then 366 else 365) ->
  let m := monthOfDayWithinYear leap n in
  daysBeforeMonth leap m <= n /\
  (m < 11 -> n < daysBeforeMonth leap (m + 1)).
Proof.
  intros Hn. unfold monthOfDayWithinYear.
  destruct leap; cbv zeta;
  repeat match goal with
         | |- context [if ?a <? ?b then _ else _] =>
             destruct (Z.ltb_spec a b)
         end; cbn; lia.
Qed.

Lemma DateFromTime_range (t : Z) : 1 <= DateFromTime t <= 31.
Proof.
  unfold DateFromTime, MonthFromTime.
  pose proof (DayWithinYear_bounds t) as Hb. unfold DaysInYear in Hb.
  fold (InLeapYear t) in Hb.
  destruct (InLeapYear t); revert Hb; generalize (DayWithinYear t); intros n Hb;
  unfold monthOfDayWithinYear; cbv zeta;
  repeat match goal with
         | |- context [if ?a <? ?b then _ else _] =>
             destruct (Z.ltb_spec a b)
         end; cbn; lia.
Qed.

(** [MakeDay], applied to the fields of a time value with the date moved
    by [k], is the day of the time value moved by [k]. *)
Lemma MakeDay_fields (t k : Z) :
  MakeDay (YearFromTime t) (MonthFromTime t) (DateFromTime t + k) = Day t + k.
Proof.
  unfold MakeDay. pose proof (MonthFromTime_range t) as Hm.
  rewrite Z.div_small, Z.mod_small, Z.add_0_r by lia.
  unfold DateFromTime, DayWithinYear, InLeapYear. lia.
Qed.

Lemma MakeDay_year_start (y : Z) : MakeDay y 0 0 = DayFromYear y - 1.
Proof.
  unfold MakeDay. change (0 / 12) with 0. change (0 mod 12) with 0.
  rewrite !Z.add_0_r.
  cbv beta zeta iota delta [daysBeforeMonth Z.leb Z.compare]. lia.
Qed.

(** [MakeDay] finds the first of the month: the fields of the day it
    returns are the ones it was given. *)
Lemma MakeDay_spec (y m d : Z) :
  0 <= m <= 11 -> 1 <= d <= 28 ->
  let t := MakeDate (MakeDay y m d) 0 in
  YearFromTime t = y /\ MonthFromTime t = m /\ DateFromTime t = d.
Proof.
  intros Hm Hd t.
  assert (HD : Day t = MakeDay y m d).
  { unfold t, MakeDate, Day, msPerDay. rewrite Z.add_0_r. now rewrite Z.div_mul. }
  assert (Hy : YearFromTime t = y).
  { unfold YearFromTime. rewrite HD. apply YearFromDay_unique.
    rewrite DayFromYear_succ. unfold MakeDay.
    rewrite Z.div_small, Z.mod_small, Z.add_0_r by lia.
    unfold DaysInYear, daysBeforeMonth. destruct (isLeap y);
    repeat match goal with
           | |- context [if ?a <=? ?b then _ else _] => destruct (Z.leb_spec a b)
           | |- context [if ?a =? ?b then _ else _] => destruct (Z.eqb_spec a b)
           end; lia. }
  assert (Hw : DayWithinYear t = daysBeforeMonth (isLeap y) m + d - 1).
  { unfold DayWithinYear. rewrite HD, Hy. unfold MakeDay.
    rewrite Z.div_small, Z.mod_small, Z.add_0_r by lia. lia. }
  assert (Hmo : MonthFromTime t = m).
  { unfold MonthFromTime, InLeapYear. rewrite Hw, Hy.
    unfold monthOfDayWithinYear, daysBeforeMonth. destruct (isLeap y); cbv zeta;
    repeat match goal with
           | |- context [if ?a <=? ?b then _ else _] => destruct (Z.leb_spec a b)
           | |- context [if ?a =? ?b then _ else _] => destruct (Z.eqb_spec a b)
           end;
    repeat match goal with
           | |- context [if ?a <? ?b then _ else _] => destruct (Z.ltb_spec a b)
           end; lia. }
  split; [exact Hy|]. split; [exact Hmo|].
  unfold DateFromTime, InLeapYear. rewrite Hmo, Hw, Hy. lia.
Qed.

Lemma Day_MakeDate (day time : Z) :
  0 <= time < msPerDay -> Day (MakeDate day time) = day.
Proof. unfold Day, MakeDate, msPerDay. intros H. zdiv. Qed.

Lemma WeekDay_range (t : Z) : 0 <= WeekDay t <= 6.
Proof. unfold WeekDay. zdiv. Qed.

Lemma HourFromTime_range (t : Z) : 0 <= HourFromTime t < 24.
Proof. unfold HourFromTime. zdiv. Qed.

(** *** Zones *)

Lemma fixedZone_dayStable (c : Z) : dayStable (fixedZone c).
Proof. intros x. unfold LocalTime, UTC. cbn. f_equal. lia. Qed.

Lemma fixedZone_steadyOn (c D : Z) : steadyOn (fixedZone c) D c.
Proof. split; intros; reflexivity. Qed.

Lemma newYork2025_dayStable : dayStable newYork2025.
Proof.
  intros x. unfold LocalTime, UTC, Day.
  cbn [offsetAtLocal offsetAtUTC newYork2025].
  destruct ((1741489200000 <=? x) && (x <? 1762048800000)) eqn:E.
  - apply andb_true_iff in E as [E1 E2].
    apply Z.leb_le in E1. apply Z.ltb_lt in E2.
    replace ((1741503600000 <=? x - -4 * msPerHour)
             && (x - -4 * msPerHour <? 1762063200000)) with true.
    + f_equal. lia.
    + symmetry. apply andb_true_iff. unfold msPerHour.
      split; [apply Z.leb_le | apply Z.ltb_lt]; lia.
  - destruct ((1741503600000 <=? x - -5 * msPerHour)
              && (x - -5 * msPerHour <? 1762063200000)) eqn:F.
    + apply andb_true_iff in F as [F1 F2].
      apply Z.leb_le in F1. apply Z.ltb_lt in F2.
      apply andb_false_iff in E. unfold msPerHour, msPerDay in *.
      destruct E as [E | E]; [apply Z.leb_gt in E | apply Z.ltb_ge in E]; zdiv.
    + f_equal. lia.
Qed.

Lemma newYork2025_steadyOn_winter (D : Z) :
  20395 <= D -> steadyOn newYork2025 D (-5 * msPerHour).
Proof.
  intros HD. unfold steadyOn, newYork2025, Day, msPerHour, msPerDay. cbn.
  split; intros x Hx;
  repeat match goal with
         | |- context [?a <=? ?b] => destruct (Z.leb_spec a b)
         | |- context [?a <? ?b] => destruct (Z.ltb_spec a b)
         end; cbn [andb]; try reflexivity; exfalso; zdiv.
Qed.

Lemma steadyOn_UTC (tz : TimeZone) (D c x : Z) :
  steadyOn tz D c -> Day x = D -> UTC tz x = x - c.
Proof. intros [H _] Hx. unfold UTC. now rewrite H. Qed.

Lemma steadyOn_LocalTime (tz : TimeZone) (D c x : Z) :
  steadyOn tz D c -> Day x = D -> LocalTime tz (x - c) = x.
Proof.
  intros [_ H] Hx. unfold LocalTime. rewrite H; [lia|].
  now replace (x - c + c) with x by lia.
Qed.

End JSDateFacts.

(** ** The dates the schedules evaluate *)

Module ScheduleDates.
Import JSDate JSDateFacts Bmh.
Local Open Scope Z_scope.

Section Dates.
Variable tz : TimeZone.
Hypothesis stable : dayStable tz.

Lemma TimeWithinDay_range (t : Z) : 0 <= TimeWithinDay t < msPerDay.
Proof. unfold TimeWithinDay, msPerDay. zdiv. Qed.

Lemma localDay_setDate (d k : Z) :
  localDay tz (setDate tz d (getDate tz d + k)) = localDay tz d + k.
Proof.
  unfold localDay, setDate, getDate. rewrite stable, MakeDay_fields.
  apply Day_MakeDate, TimeWithinDay_range.
Qed.

Lemma localDay_setHours (d h m : Z) :
  0 <= h < 24 -> 0 <= m < 60 ->
  localDay tz (setHours tz d h m 0 0) = localDay tz d.
Proof.
  intros Hh Hm. unfold localDay, setHours. rewrite stable.
  apply Day_MakeDate. unfold MakeTime, msPerHour, msPerMinute, msPerSecond, msPerDay.
  lia.
Qed.

Lemma getDay_localDay (d : Z) : getDay tz d = (localDay tz d + 4) mod 7.
Proof. reflexivity. Qed.

Lemma localDay_getSundayOfWeek (today : Z) :
  localDay tz (getSundayOfWeek tz today) = localDay tz today - getDay tz today.
Proof.
  unfold getSundayOfWeek. rewrite localDay_setHours by lia.
  replace (getDate tz today - getDay tz today)
    with (getDate tz today + - getDay tz today) by lia.
  rewrite localDay_setDate. lia.
Qed.

Lemma getDay_getSundayOfWeek (today : Z) :
  getDay tz (getSundayOfWeek tz today) = 0.
Proof.
  rewrite getDay_localDay, localDay_getSundayOfWeek, getDay_localDay. zdiv.
Qed.

Lemma localDay_weekdayDate (today i : Z) :
  localDay tz (weekdayDate tz (getSundayOfWeek tz today) i)
  = localDay tz today - getDay tz today + i.
Proof.
  unfold weekdayDate. rewrite localDay_setDate, localDay_getSundayOfWeek. lia.
Qed.

Lemma getDay_weekdayDate (today i : Z) :
  0 <= i <= 6 ->
  getDay tz (weekdayDate tz (getSundayOfWeek tz today) i) = i.
Proof.
  intros Hi. rewrite getDay_localDay, localDay_weekdayDate, getDay_localDay. zdiv.
Qed.

Lemma localDay_getComingShabbos (fromDate : Z) :
  localDay tz (getComingShabbos tz fromDate)
  = localDay tz fromDate + shabbosAdvance tz fromDate.
Proof.
  unfold getComingShabbos, shabbosAdvance.
  rewrite localDay_setHours by lia. rewrite localDay_setDate. f_equal.
  pose proof (WeekDay_range (LocalTime tz fromDate)) as Hw.
  fold (getDay tz fromDate) in Hw.
  assert (E : Z.rem (6 - getDay tz fromDate + 7) 7 = 6 - getDay tz fromDate).
  { rewrite Z.rem_mod_nonneg by lia. zdiv. }
  rewrite E.
  destruct (Z.eqb_spec (getDay tz fromDate) 6) as [E6 | N6].
  - rewrite E6. reflexivity.
  - destruct (Z.eqb_spec (6 - getDay tz fromDate) 0); [lia | reflexivity].
Qed.

End Dates.

Lemma earliestOf_spec (sunsets : list Z) (first : Z) :
  let e := earliestOf first sunsets in
  (e = first \/ In e sunsets) /\ e <= first /\ forall s, In s sunsets -> e <= s.
Proof.
  revert first. induction sunsets as [| a l IH]; intros first; cbn.
  - split; [now left|]. split; [lia | intros s []].
  - unfold earliestOf in IH.
    destruct (Z.ltb_spec a first) as [Hlt | Hge].
    + destruct (IH a) as [Hin [Hle Hall]]. split.
      * destruct Hin as [-> | Hin]; right; auto.
      * split; [lia|]. intros s [<- | Hs]; auto.
    + destruct (IH first) as [Hin [Hle Hall]]. split.
      * destruct Hin as [-> | Hin]; auto.
      * split; [lia|]. intros s [<- | Hs]; [lia | auto].
Qed.

End ScheduleDates.

(** ** Facts about the sunset engine *)

Module EngineFacts.
Import JSDate JSDateFacts JSNum Bmh.
Local Open Scope R_scope.

Lemma rem_nonneg (x y : R) : 0 <= x -> 0 < y -> 0 <= rem x y < y.
Proof.
  intros Hx Hy. unfold rem, Rtrunc.
  assert (Hq : 0 <= x / y).
  { unfold Rdiv. pose proof (Rinv_0_lt_compat y Hy). nra. }
  destruct (Rle_dec 0 (x / y)) as [_ | N]; [| contradiction].
  pose proof (Zfloor_bound (x / y)) as [Hlo Hhi].
  assert (E : x = y * (x / y)) by (field; lra).
  split; nra.
Qed.

Lemma rem_bounds (x y : R) : 0 < y -> - y < rem x y < y.
Proof.
  intros Hy. destruct (Rle_dec 0 x) as [Hx | Hx].
  - pose proof (rem_nonneg x y Hx Hy). lra.
  - unfold rem, Rtrunc.
    assert (E : x = y * (x / y)) by (field; lra).
    assert (Hq : x / y < 0).
    { apply Rnot_le_lt in Hx. unfold Rdiv.
      pose proof (Rinv_0_lt_compat y Hy). nra. }
    destruct (Rle_dec 0 (x / y)) as [P | _]; [lra |].
    pose proof (Zceil_bound (x / y)) as [Hlo Hhi].
    split; nra.
Qed.

(** The idiom [((x % y) + y) % y] lands in [0, y). *)
Lemma rem_rem_range (x y : R) : 0 < y -> 0 <= rem (rem x y + y) y < y.
Proof.
  intros Hy. pose proof (rem_bounds x y Hy). apply rem_nonneg; lra.
Qed.

Lemma noaaSunsetUT_None (cfg : Config) (tz : TimeZone) (date : Z)
      (latDeg lngDeg zenithDeg : R) :
  noaaSunsetUT cfg tz date latDeg lngDeg zenithDeg = None <->
  (sunsetCosH cfg tz date lngDeg zenithDeg < -1 \/
   1 < sunsetCosH cfg tz date lngDeg zenithDeg).
Proof.
  unfold noaaSunsetUT, sunsetCosH. cbv zeta.
  destruct (Rlt_dec _ _) as [L | NL]; [tauto |].
  destruct (Rlt_dec _ _) as [G | NG]; [tauto |].
  split; [discriminate | tauto].
Qed.

Lemma noaaSunsetUT_Some (cfg : Config) (tz : TimeZone) (date : Z)
      (latDeg lngDeg zenithDeg : R) :
  -1 <= sunsetCosH cfg tz date lngDeg zenithDeg <= 1 ->
  exists ut, noaaSunsetUT cfg tz date latDeg lngDeg zenithDeg = Some ut
             /\ 0 <= ut < 24.
Proof.
  intros [Hlo Hhi]. unfold noaaSunsetUT, sunsetCosH in *. cbv zeta in *.
  destruct (Rlt_dec _ _) as [L | NL]; [lra |].
  destruct (Rlt_dec _ _) as [G | NG]; [lra |].
  eexists. split; [reflexivity |]. apply rem_rem_range. lra.
Qed.

Lemma noaaSunsetUT_range (cfg : Config) (tz : TimeZone) (date : Z)
      (latDeg lngDeg zenithDeg ut : R) :
  noaaSunsetUT cfg tz date latDeg lngDeg zenithDeg = Some ut -> 0 <= ut < 24.
Proof.
  unfold noaaSunsetUT. cbv zeta.
  destruct (Rlt_dec _ _) as [L | NL]; [discriminate |].
  destruct (Rlt_dec _ _) as [G | NG]; [discriminate |].
  intros E. injection E as <-. apply rem_rem_range. lra.
Qed.

Lemma getNoaaSunsetDateRaw_eq (cfg : Config) (tz : TimeZone) (date : Z)
      (latDeg lngDeg zenithDeg : R) :
  getNoaaSunsetDateRaw cfg tz date latDeg lngDeg zenithDeg =
  match noaaSunsetUT cfg tz (localMidnight tz date) latDeg lngDeg zenithDeg with
  | None => None
  | Some utHours =>
      Some (sunsetInstant (getFullYear tz date) (getMonth tz date)
                          (getDate tz date) utHours)
  end.
Proof.
  unfold getNoaaSunsetDateRaw, localMidnight, toDateParts.
  cbv beta iota zeta. reflexivity.
Qed.

(** The latitude argument is never read. *)
Lemma noaaSunsetUT_latDeg_unused (cfg : Config) (tz : TimeZone) (date : Z)
      (latDeg latDeg' lngDeg zenithDeg : R) :
  noaaSunsetUT cfg tz date latDeg lngDeg zenithDeg
  = noaaSunsetUT cfg tz date latDeg' lngDeg zenithDeg /\
  getNoaaSunsetDateRaw cfg tz date latDeg lngDeg zenithDeg
  = getNoaaSunsetDateRaw cfg tz date latDeg' lngDeg zenithDeg.
Proof. split; reflexivity. Qed.

(** With the constants of the script the sun sets on every day: at the
    latitude of [LAT] and zenith 90 the cosine is within [-1, 1]. *)
Lemma cosd_90 : cosd 90.0 = 0.
Proof.
  unfold cosd. replace (90.0 * PI / 180) with (PI / 2) by lra. apply cos_PI2.
Qed.

Lemma cosd_LAT_bmh : 1 / 2 <= cosd (LAT bmh).
Proof.
  unfold cosd. cbn [LAT bmh]. rewrite <- cos_PI3.
  pose proof PI_RGT_0 as Hpi.
  apply cos_decr_1; lra.
Qed.

Lemma cos_asin_sinDec (L : R) :
  9 / 10 <= cos (asin (0.39782 * sind L)) <= 1.
Proof.
  pose proof (SIN_bound (L * PI / 180)) as Hs. fold (sind L) in Hs.
  rewrite cos_asin by lra.
  set (s := 0.39782 * sind L). assert (Hs2 : s * s <= 0.16) by (unfold s; nra).
  split.
  - replace (9 / 10) with (sqrt ((9 / 10) * (9 / 10)))
      by (apply sqrt_square; lra).
    apply sqrt_le_1_alt. unfold Rsqr. lra.
  - rewrite <- sqrt_1 at 2. apply sqrt_le_1_alt. unfold Rsqr. nra.
Qed.

Lemma bmh_hourAngleCos_range (L : R) :
  -1 <= hourAngleCos bmh L (ZENITH_DEG bmh) <= 1.
Proof.
  unfold hourAngleCos. cbv zeta. cbn [ZENITH_DEG bmh]. rewrite cosd_90.
  pose proof (cos_asin_sinDec L) as Hc.
  pose proof cosd_LAT_bmh as Hl.
  pose proof (COS_bound (LAT bmh * PI / 180)) as Hl1. fold (cosd (LAT bmh)) in Hl1.
  pose proof (SIN_bound (LAT bmh * PI / 180)) as Ha. fold (sind (LAT bmh)) in Ha.
  pose proof (SIN_bound (L * PI / 180)) as Hs. fold (sind L) in Hs.
  set (c := cos (asin (0.39782 * sind L))) in *.
  set (n := 0 - 0.39782 * sind L * sind (LAT bmh)).
  set (den := c * cosd (LAT bmh)).
  assert (Hden : 0.45 <= den) by (unfold den; nra).
  assert (Hn : -0.4 <= n <= 0.4) by (unfold n; nra).
  assert (E : n = n / den * den) by (field; lra).
  split; nra.
Qed.

Lemma bmh_sunset_computable (tz : TimeZone) (date : Z) (latDeg lngDeg : R) :
  exists instant,
    getNoaaSunsetDateRaw bmh tz date latDeg lngDeg (ZENITH_DEG bmh) = Some instant.
Proof.
  rewrite getNoaaSunsetDateRaw_eq.
  destruct (noaaSunsetUT_Some bmh tz (localMidnight tz date) latDeg lngDeg
              (ZENITH_DEG bmh)) as [ut [E _]].
  - apply bmh_hourAngleCos_range.
  - rewrite E. eexists. reflexivity.
Qed.

(** Under [neverSets] the cosine is above 1 on every day. *)
Lemma neverSets_hourAngleCos (L : R) :
  1 < hourAngleCos neverSets L (ZENITH_DEG neverSets).
Proof.
  unfold hourAngleCos. cbv zeta. cbn [ZENITH_DEG LAT neverSets].
  assert (E0 : cosd 0 = 1).
  { unfold cosd. replace (0 * PI / 180) with 0 by lra. apply cos_0. }
  assert (E60 : cosd 60 = 1 / 2).
  { unfold cosd. replace (60 * PI / 180) with (PI / 3) by lra. apply cos_PI3. }
  rewrite E0, E60.
  pose proof (cos_asin_sinDec L) as Hc.
  pose proof (SIN_bound (60 * PI / 180)) as Ha. fold (sind 60) in Ha.
  pose proof (SIN_bound (L * PI / 180)) as Hs. fold (sind L) in Hs.
  set (c := cos (asin (0.39782 * sind L))) in *.
  set (n := 1 - 0.39782 * sind L * sind 60).
  set (den := c * (1 / 2)).
  assert (Hden : 0.45 <= den <= 0.5) by (unfold den; lra).
  assert (Hn : 0.6 <= n) by (unfold n; nra).
  assert (E : n = n / den * den) by (field; lra).
  nra.
Qed.

Lemma neverSets_no_sunset (tz : TimeZone) (date : Z) (latDeg lngDeg : R) :
  getNoaaSunsetDateRaw neverSets tz date latDeg lngDeg (ZENITH_DEG neverSets)
  = None.
Proof.
  rewrite getNoaaSunsetDateRaw_eq.
  replace (noaaSunsetUT neverSets tz (localMidnight tz date) latDeg lngDeg
             (ZENITH_DEG neverSets)) with (@None R); [reflexivity |].
  symmetry. apply noaaSunsetUT_None. right. apply neverSets_hourAngleCos.
Qed.

End EngineFacts.

(** ** The schedules *)

Module ScheduleFacts.
Import JSDate JSDateFacts JSNum DateParse Bmh ScheduleDates EngineFacts.
Local Open Scope Z_scope.

Lemma shabbosAdvance_cases (tz : TimeZone) (fromDate : Z) :
  (getDay tz fromDate = 6 /\ 18 <= getHours tz fromDate /\
   shabbosAdvance tz fromDate = 7) \/
  (~ (getDay tz fromDate = 6 /\ 18 <= getHours tz fromDate) /\
   shabbosAdvance tz fromDate = 6 - getDay tz fromDate).
Proof.
  unfold shabbosAdvance.
  destruct (Z.eqb_spec (getDay tz fromDate) 6) as [E | N];
    destruct (Z.leb_spec 18 (getHours tz fromDate)) as [H | H]; cbn [andb];
    [left | right | right | right]; repeat split; auto; lia.
Qed.

(** C4.  For every date-time, in a zone whose transitions do not cross
    midnight, [getComingShabbos] returns a Saturday: the one seven days
    after the input's day when the input is a Saturday at local hour 18 or
    later, the input's own day when it is a Saturday before 18, and
    otherwise the first Saturday after the input's day. *)
Theorem getComingShabbos_selects (tz : TimeZone) (fromDate : Z) :
  dayStable tz ->
  let shabbos := getComingShabbos tz fromDate in
  getDay tz shabbos = 6 /\
  localDay tz shabbos = localDay tz fromDate + shabbosAdvance tz fromDate /\
  (getDay tz fromDate = 6 -> 18 <= getHours tz fromDate ->
   localDay tz shabbos = localDay tz fromDate + 7) /\
  (getDay tz fromDate = 6 -> getHours tz fromDate < 18 ->
   localDay tz shabbos = localDay tz fromDate) /\
  (getDay tz fromDate <> 6 ->
   localDay tz fromDate < localDay tz shabbos <= localDay tz fromDate + 6).
Proof.
  intros Hst shabbos.
  pose proof (localDay_getComingShabbos tz Hst fromDate) as Hday.
  fold shabbos in Hday.
  pose proof (WeekDay_range (LocalTime tz fromDate)) as Hw.
  fold (getDay tz fromDate) in Hw.
  pose proof (getDay_localDay tz fromDate) as Hg.
  pose proof (shabbosAdvance_cases tz fromDate) as Hadv.
  split.
  - rewrite getDay_localDay, Hday. destruct Hadv as [[E6 [_ ->]] | [_ ->]]; zdiv.
  - split; [exact Hday |]. repeat split; intros; lia.
Qed.

(** At the site, Saturday 2025-12-06 at 19:00 local time selects the
    Saturday seven days later, and 17:59 the same day selects that day. *)
Lemma getComingShabbos_selects_witness :
  dayStable newYork2025 /\
  getDay newYork2025 1765065600000 = 6 /\
  getHours newYork2025 1765065600000 = 19 /\
  localDay newYork2025 (getComingShabbos newYork2025 1765065600000)
  = localDay newYork2025 1765065600000 + 7 /\
  getHours newYork2025 1765061940000 = 17 /\
  localDay newYork2025 (getComingShabbos newYork2025 1765061940000)
  = localDay newYork2025 1765061940000.
Proof.
  split; [exact newYork2025_dayStable |].
  split; [reflexivity |]. split; [reflexivity |].
  split.
  - apply (getComingShabbos_selects newYork2025 1765065600000
             newYork2025_dayStable); [reflexivity | vm_compute; discriminate].
  - split; [reflexivity |].
    apply (getComingShabbos_selects newYork2025 1765061940000
             newYork2025_dayStable); reflexivity.
Defined.

Lemma weekdaySunsets_In (cfg : Config) (tz : TimeZone) (cal today s : Z) :
  In s (weekdaySunsets cfg tz cal today) <->
  exists i, 0 <= i <= 4 /\
    getSunsetWithCalibration cfg tz cal
      (weekdayDate tz (getSundayOfWeek tz today) i) = Some s.
Proof.
  unfold weekdaySunsets. cbv zeta. rewrite in_flat_map. split.
  - intros [i [Hi Hs]]. exists i. split.
    + cbn in Hi. lia.
    + destruct (getSunsetWithCalibration _ _ _ _) as [s' |]; [| destruct Hs].
      destruct Hs as [-> | []]. reflexivity.
  - intros [i [Hi Hs]]. exists i. split.
    + cbn. lia.
    + rewrite Hs. now left.
Qed.

(** The weekday loop, instant by instant.  In a zone whose transitions do
    not cross midnight, the five dates of the loop are the Sunday to
    Thursday of the week of [today]; [sunsets] holds exactly the calibrated
    sunsets of those days that were computable; the result is the least of
    them as instants, not as times of day, minus 15 minutes; and the
    computation fails exactly when none was computable. *)
Lemma weekday_schedule_instants (cfg : Config) (tz : TimeZone) (cal today : Z) :
  dayStable tz ->
  let date i := weekdayDate tz (getSundayOfWeek tz today) i in
  let sunsets := weekdaySunsets cfg tz cal today in
  (forall i, 0 <= i <= 4 ->
     localDay tz (date i) = localDay tz today - getDay tz today + i /\
     getDay tz (date i) = i) /\
  (forall s, In s sunsets <->
     exists i, 0 <= i <= 4 /\
       getSunsetWithCalibration cfg tz cal (date i) = Some s) /\
  (forall mincha, weekdayMinchaTime cfg tz cal today = Some mincha ->
     exists earliest, In earliest sunsets /\
       (forall s, In s sunsets -> earliest <= s) /\
       mincha = earliest - 15 * msPerMinute) /\
  (weekdayMinchaTime cfg tz cal today = None <->
     forall i, 0 <= i <= 4 ->
       getSunsetWithCalibration cfg tz cal (date i) = None).
Proof.
  intros Hst date sunsets. split; [| split; [| split]].
  - intros i Hi. split.
    + apply localDay_weekdayDate, Hst.
    + apply getDay_weekdayDate; [exact Hst | lia].
  - intros s. apply weekdaySunsets_In.
  - intros mincha. unfold weekdayMinchaTime. cbv zeta. fold sunsets.
    destruct sunsets as [| s0 l] eqn:El; [discriminate |].
    intros E.
    assert (Em : mincha = earliestOf s0 (s0 :: l) - 15 * 60 * 1000)
      by congruence.
    pose proof (earliestOf_spec (s0 :: l) s0) as [Hin [_ Hall]].
    exists (earliestOf s0 (s0 :: l)). split.
    + destruct Hin as [-> | Hin]; [now left | exact Hin].
    + split; [exact Hall | unfold msPerMinute; lia].
  - unfold weekdayMinchaTime. cbv zeta. fold sunsets. split.
    + destruct sunsets as [| s0 l] eqn:El; [| discriminate].
      intros _ i Hi.
      destruct (getSunsetWithCalibration cfg tz cal (date i)) as [s |] eqn:Es;
        [| reflexivity].
      assert (Hin : In s sunsets)
        by (apply weekdaySunsets_In; exists i; auto).
      rewrite El in Hin. destruct Hin.
    + intros Hnone. destruct sunsets as [| s0 l] eqn:El; [reflexivity |].
      assert (Hin : In s0 sunsets) by (rewrite El; now left).
      apply weekdaySunsets_In in Hin as [i [Hi Hs]].
      fold (date i) in Hs. rewrite (Hnone i Hi) in Hs. discriminate.
Qed.

(** The min rule on the five sunsets of the spec's example, in minutes of
    the day: 18:02, 18:05, 17:58, 18:10, 18:00 give 17:58. *)
Example earliestOf_example :
  earliestOf 1082 [1082; 1085; 1078; 1090; 1080] - 15 = 17 * 60 + 43.
Proof. reflexivity. Qed.

End ScheduleFacts.

(** ** Calibration *)

Module CalibrationFacts.
Import JSDate JSDateFacts JSNum DateParse Bmh ScheduleDates EngineFacts.
Local Open Scope string_scope.
Local Open Scope Z_scope.

Lemma getNoaaSunsetDateRaw_same_day (cfg : Config) (tz : TimeZone) (d d' : Z)
      (latDeg lngDeg zenithDeg : R) :
  toDateParts tz d = toDateParts tz d' ->
  getNoaaSunsetDateRaw cfg tz d latDeg lngDeg zenithDeg
  = getNoaaSunsetDateRaw cfg tz d' latDeg lngDeg zenithDeg.
Proof. unfold getNoaaSunsetDateRaw. intros E. rewrite E. reflexivity. Qed.

Lemma getSunsetWithCalibration_add (cfg : Config) (tz : TimeZone)
      (cal d raw : Z) :
  CALIBRATION_ENABLED cfg = true ->
  getNoaaSunsetDateRaw cfg tz d (LAT cfg) (LNG cfg) (ZENITH_DEG cfg) = Some raw ->
  getSunsetWithCalibration cfg tz cal d = Some (raw + cal).
Proof.
  intros En E. unfold getSunsetWithCalibration. rewrite E, En. cbn [negb orb].
  destruct (Z.eqb_spec cal 0) as [-> | N]; [| reflexivity].
  now rewrite Z.add_0_r.
Qed.

(** The reference day of the script, 2025-12-06, in a zone that keeps one
    offset [c] during that local day. *)
Section ReferenceDay.
Variable tz : TimeZone.
Variable c : Z.
Hypothesis steady : steadyOn tz (MakeDay 2025 11 6) c.

Lemma reference_noon :
  newDateOfString tz (REFERENCE_SHABBOS bmh ++ "T12:00:00")
  = Some (1765022400000 - c).
Proof.
  replace (1765022400000 - c) with (UTC tz 1765022400000).
  - reflexivity.
  - apply (steadyOn_UTC _ _ _ _ steady). reflexivity.
Qed.

Lemma reference_noon_parts : toDateParts tz (1765022400000 - c) = (2025, 11, 6).
Proof.
  unfold toDateParts, getFullYear, getMonth, getDate.
  rewrite (steadyOn_LocalTime _ _ _ _ steady) by reflexivity.
  reflexivity.
Qed.

Lemma reference_maariv :
  parseLocalTimeOnDate tz (REFERENCE_SHABBOS bmh) (REFERENCE_MOTZAEI_MAARIV bmh)
  = Some (1765041420000 - c).
Proof.
  unfold parseLocalTimeOnDate.
  change (map Number (split ":" (REFERENCE_MOTZAEI_MAARIV bmh)))
    with [Finite 17 0; Finite 17 0].
  replace (newDateOfString tz (REFERENCE_SHABBOS bmh ++ "T00:00:00"))
    with (Some (1764979200000 - c)).
  - change (finiteInteger (Finite 17 0)) with (Some 17). cbv beta iota.
    unfold setHours.
    rewrite (steadyOn_LocalTime _ _ _ _ steady) by reflexivity.
    change (MakeDate (Day 1764979200000) (MakeTime 17 17 0 0))
      with 1765041420000.
    f_equal. apply (steadyOn_UTC _ _ _ _ steady). reflexivity.
  - replace (1764979200000 - c) with (UTC tz 1764979200000).
    + reflexivity.
    + apply (steadyOn_UTC _ _ _ _ steady). reflexivity.
Qed.

Lemma reference_sunset_local (d : Z) :
  toDateParts tz d = (2025, 11, 6) ->
  exists sunset,
    getSunsetWithCalibration bmh tz (loadedCalOffsetMs bmh tz) d = Some sunset /\
    LocalTime tz sunset = DateUTC 2025 11 6 16 27 0 /\
    toDateParts tz sunset = (2025, 11, 6) /\
    getHours tz sunset = 16 /\ getMinutes tz sunset = 27.
Proof.
  intros Hd.
  destruct (bmh_sunset_computable tz d (LAT bmh) (LNG bmh)) as [raw Eraw].
  assert (Eref : getNoaaSunsetDateRaw bmh tz (1765022400000 - c)
                   (LAT bmh) (LNG bmh) (ZENITH_DEG bmh) = Some raw).
  { rewrite <- Eraw. apply getNoaaSunsetDateRaw_same_day.
    now rewrite reference_noon_parts, Hd. }
  assert (Ecal : loadedCalOffsetMs bmh tz = 1765041420000 - c - 50 * 60 * 1000 - raw).
  { unfold loadedCalOffsetMs, computeCalibrationOffsetMs.
    change (CALIBRATION_ENABLED bmh) with true. cbn [negb].
    rewrite reference_noon, Eref, reference_maariv. reflexivity. }
  exists (1765038420000 - c).
  assert (Eloc : LocalTime tz (1765038420000 - c) = 1765038420000)
    by (apply (steadyOn_LocalTime _ _ _ _ steady); reflexivity).
  split.
  - rewrite (getSunsetWithCalibration_add bmh tz _ d raw eq_refl Eraw), Ecal.
    f_equal. lia.
  - unfold toDateParts, getFullYear, getMonth, getDate, getHours, getMinutes.
    rewrite Eloc. repeat split; reflexivity.
Qed.

End ReferenceDay.

(** C2.  Round trip of the calibration.  Whenever the theoretical sunset of
    the reference date is computable, the offset satisfies theoretical
    sunset + offset + minutes before the event = observed event, exactly.
    With the constants of the script, in a zone with no transition on
    2025-12-06, the calibrated sunset of any instant of that local day is
    16:27 local time. *)
Theorem calibration_round_trip :
  (forall (cfg : Config) (tz : TimeZone) (shabbosDate theoretical observed : Z),
     CALIBRATION_ENABLED cfg = true ->
     newDateOfString tz (REFERENCE_SHABBOS cfg ++ "T12:00:00") = Some shabbosDate ->
     getNoaaSunsetDateRaw cfg tz shabbosDate (LAT cfg) (LNG cfg) (ZENITH_DEG cfg)
       = Some theoretical ->
     parseLocalTimeOnDate tz (REFERENCE_SHABBOS cfg) (REFERENCE_MOTZAEI_MAARIV cfg)
       = Some observed ->
     exists offset,
       computeCalibrationOffsetMs cfg tz = Some offset /\
       theoretical + offset + REFERENCE_MAARIV_OFFSET_MIN cfg * msPerMinute
       = observed /\
       getSunsetWithCalibration cfg tz offset shabbosDate
       = Some (observed - REFERENCE_MAARIV_OFFSET_MIN cfg * msPerMinute))
  /\
  (forall (tz : TimeZone) (c d : Z),
     steadyOn tz (MakeDay 2025 11 6) c ->
     toDateParts tz d = (2025, 11, 6) ->
     exists sunset,
       getSunsetWithCalibration bmh tz (loadedCalOffsetMs bmh tz) d = Some sunset /\
       LocalTime tz sunset = DateUTC 2025 11 6 16 27 0 /\
       toDateParts tz sunset = (2025, 11, 6) /\
       getHours tz sunset = 16 /\ getMinutes tz sunset = 27).
Proof.
  split.
  - intros cfg tz shabbosDate theoretical observed En Eref Eraw Eobs.
    exists (observed - REFERENCE_MAARIV_OFFSET_MIN cfg * 60 * 1000 - theoretical).
    split; [| split].
    + unfold computeCalibrationOffsetMs. now rewrite En, Eref, Eraw, Eobs.
    + unfold msPerMinute. lia.
    + rewrite (getSunsetWithCalibration_add cfg tz _ shabbosDate theoretical En Eraw).
      f_equal. unfold msPerMinute. lia.
  - intros tz c d Hs Hd. exact (reference_sunset_local tz c Hs d Hd).
Qed.

(** At the site, in winter time, the calibrated sunset of the reference
    Shabbos is 16:27 local (21:27 UTC). *)
Lemma calibration_round_trip_witness :
  steadyOn newYork2025 (MakeDay 2025 11 6) (-5 * msPerHour) /\
  toDateParts newYork2025 1765040400000 = (2025, 11, 6) /\
  exists sunset,
    getSunsetWithCalibration bmh newYork2025 (loadedCalOffsetMs bmh newYork2025)
      1765040400000 = Some sunset /\
    LocalTime newYork2025 sunset = DateUTC 2025 11 6 16 27 0 /\
    toDateParts newYork2025 sunset = (2025, 11, 6) /\
    getHours newYork2025 sunset = 16 /\ getMinutes newYork2025 sunset = 27.
Proof.
  assert (Hs : steadyOn newYork2025 (MakeDay 2025 11 6) (-5 * msPerHour))
    by (apply newYork2025_steadyOn_winter; vm_compute; discriminate).
  split; [exact Hs |]. split; [reflexivity |].
  exact (proj2 calibration_round_trip newYork2025 (-5 * msPerHour)
           1765040400000 Hs eq_refl).
Defined.

(** C6.  The three cases of [computeCalibrationOffsetMs]: 0 when the flag
    is off, whatever the engine gives; 0 when the engine gives no sunset
    for the reference date; otherwise the implied sunset (the observed
    event less its minutes after sunset) minus the theoretical sunset. *)
Theorem calibration_offset_cases (cfg : Config) (tz : TimeZone) :
  (CALIBRATION_ENABLED cfg = false ->
     computeCalibrationOffsetMs cfg tz = Some 0) /\
  (forall shabbosDate,
     newDateOfString tz (REFERENCE_SHABBOS cfg ++ "T12:00:00") = Some shabbosDate ->
     getNoaaSunsetDateRaw cfg tz shabbosDate (LAT cfg) (LNG cfg) (ZENITH_DEG cfg)
       = None ->
     computeCalibrationOffsetMs cfg tz = Some 0) /\
  (forall shabbosDate theoreticalSunset maarivActual,
     CALIBRATION_ENABLED cfg = true ->
     newDateOfString tz (REFERENCE_SHABBOS cfg ++ "T12:00:00") = Some shabbosDate ->
     getNoaaSunsetDateRaw cfg tz shabbosDate (LAT cfg) (LNG cfg) (ZENITH_DEG cfg)
       = Some theoreticalSunset ->
     parseLocalTimeOnDate tz (REFERENCE_SHABBOS cfg) (REFERENCE_MOTZAEI_MAARIV cfg)
       = Some maarivActual ->
     let impliedSunset :=
       maarivActual - REFERENCE_MAARIV_OFFSET_MIN cfg * msPerMinute in
     computeCalibrationOffsetMs cfg tz = Some (impliedSunset - theoreticalSunset)).
Proof.
  unfold computeCalibrationOffsetMs. split; [| split].
  - intros ->. reflexivity.
  - intros shabbosDate -> ->. destruct (CALIBRATION_ENABLED cfg); reflexivity.
  - intros shabbosDate theoreticalSunset maarivActual -> -> -> ->. cbn [negb].
    cbv zeta. f_equal. unfold msPerMinute. lia.
Qed.

(** The three cases at the site: calibration off; a configuration with no
    sunset; the script's own constants. *)
Lemma calibration_offset_cases_witness :
  computeCalibrationOffsetMs uncalibrated newYork2025 = Some 0 /\
  computeCalibrationOffsetMs neverSets newYork2025 = Some 0 /\
  exists theoreticalSunset,
    getNoaaSunsetDateRaw bmh newYork2025 1765040400000
      (LAT bmh) (LNG bmh) (ZENITH_DEG bmh) = Some theoreticalSunset /\
    computeCalibrationOffsetMs bmh newYork2025
    = Some (1765059420000 - 50 * msPerMinute - theoreticalSunset).
Proof.
  split; [| split].
  - exact (proj1 (calibration_offset_cases uncalibrated newYork2025) eq_refl).
  - exact (proj1 (proj2 (calibration_offset_cases neverSets newYork2025))
             1765040400000 eq_refl
             (neverSets_no_sunset newYork2025 1765040400000 _ _)).
  - destruct (bmh_sunset_computable newYork2025 1765040400000 (LAT bmh) (LNG bmh))
      as [theoreticalSunset E].
    exists theoreticalSunset. split; [exact E |].
    exact (proj2 (proj2 (calibration_offset_cases bmh newYork2025))
             1765040400000 theoreticalSunset 1765059420000
             eq_refl eq_refl E eq_refl).
Defined.

End CalibrationFacts.

(** ** The Shabbos schedule, and the weekday schedule at the site *)

Module ScheduleClaims.
Import JSDate JSDateFacts JSNum DateParse Bmh ScheduleDates EngineFacts.
Import ScheduleFacts CalibrationFacts.
Local Open Scope string_scope.
Local Open Scope Z_scope.

Lemma assign_text (hasElement : string -> bool) (id text : string)
      (p : string * string) :
  In p (assign hasElement id text) -> snd p = text.
Proof.
  unfold assign. destruct (hasElement id); [| intros []].
  intros [<- | []]. reflexivity.
Qed.

(** C9.  From the calibrated sunset of the selected Shabbos the schedule
    derives erev Shabbos Mincha 15 minutes before it, Shabbos day Mincha 45
    minutes before it and Motzaei Shabbos Maariv 50 minutes after it; with
    no sunset it fails, and every element it writes gets the fallback. *)
Theorem shabbos_schedule_offsets (cfg : Config) (tz : TimeZone)
        (hasElement : string -> bool) (formatTimeLocal : Z -> string)
        (cal today : Z) :
  let shabbos := getComingShabbos tz today in
  (forall sunset,
     getSunsetWithCalibration cfg tz cal shabbos = Some sunset ->
     shabbosTimes cfg tz cal today
     = Some (sunset - 15 * msPerMinute,
             sunset - 45 * msPerMinute,
             sunset + 50 * msPerMinute)) /\
  (getSunsetWithCalibration cfg tz cal shabbos = None ->
     shabbosTimes cfg tz cal today = None /\
     forall p,
       In p (updateShabbosTimes cfg tz hasElement formatTimeLocal cal today) ->
       snd p = "See local listing").
Proof.
  intros shabbos. unfold updateShabbosTimes, shabbosTimes. fold shabbos. split.
  - intros sunset ->. reflexivity.
  - intros ->. split; [reflexivity |].
    intros p Hp. cbv zeta in Hp. apply in_flat_map in Hp as [id [_ Hp]].
    exact (assign_text _ _ _ _ Hp).
Qed.

(** On Friday 2025-12-05 at the site the Shabbos sunset is computable and
    the three instants follow from it; under [neverSets] the schedule
    fails. *)
Lemma shabbos_schedule_offsets_witness :
  (exists sunset,
     getSunsetWithCalibration bmh newYork2025 0
       (getComingShabbos newYork2025 1764979200000) = Some sunset /\
     shabbosTimes bmh newYork2025 0 1764979200000
     = Some (sunset - 15 * msPerMinute,
             sunset - 45 * msPerMinute,
             sunset + 50 * msPerMinute)) /\
  shabbosTimes neverSets newYork2025 0 1764979200000 = None.
Proof.
  split.
  - destruct (bmh_sunset_computable newYork2025
                (getComingShabbos newYork2025 1764979200000) (LAT bmh) (LNG bmh))
      as [raw E].
    assert (Es : getSunsetWithCalibration bmh newYork2025 0
                   (getComingShabbos newYork2025 1764979200000) = Some (raw + 0))
      by (apply getSunsetWithCalibration_add; [reflexivity | exact E]).
    exists (raw + 0). split; [exact Es |].
    exact (proj1 (shabbos_schedule_offsets bmh newYork2025 (fun _ => true)
                    (fun _ => "") 0 1764979200000) (raw + 0) Es).
  - apply (proj2 (shabbos_schedule_offsets neverSets newYork2025 (fun _ => true)
                    (fun _ => "") 0 1764979200000)).
    unfold getSunsetWithCalibration.
    now rewrite (neverSets_no_sunset newYork2025).
Defined.

End ScheduleClaims.

(** ** The engine: statements about [noaaSunsetUT] *)

Module EngineClaims.
Import JSDate JSDateFacts JSNum DateParse Bmh EngineFacts.
Local Open Scope R_scope.

(** C5.  [noaaSunsetUT] returns [null] exactly when the cosine of the hour
    angle it computed is below -1 or above 1, and so does
    [getNoaaSunsetDateRaw]; both are total functions of their arguments. *)
Theorem sunset_undefined_iff (cfg : Config) (tz : TimeZone) (date : Z)
        (latDeg lngDeg zenithDeg : R) :
  (noaaSunsetUT cfg tz date latDeg lngDeg zenithDeg = None <->
   (sunsetCosH cfg tz date lngDeg zenithDeg < -1 \/
    1 < sunsetCosH cfg tz date lngDeg zenithDeg)) /\
  (getNoaaSunsetDateRaw cfg tz date latDeg lngDeg zenithDeg = None <->
   (sunsetCosH cfg tz (localMidnight tz date) lngDeg zenithDeg < -1 \/
    1 < sunsetCosH cfg tz (localMidnight tz date) lngDeg zenithDeg)).
Proof.
  split; [apply noaaSunsetUT_None |].
  rewrite getNoaaSunsetDateRaw_eq.
  rewrite <- (noaaSunsetUT_None cfg tz (localMidnight tz date) latDeg).
  destruct (noaaSunsetUT cfg tz (localMidnight tz date) latDeg lngDeg zenithDeg);
    split; intros H; try discriminate; reflexivity.
Qed.

Lemma sunsetInstant_hour (year month day : Z) (utHours : R) :
  (0 <= HourFromTime (sunsetInstant year month day utHours) < 24)%Z.
Proof. apply HourFromTime_range. Qed.

(** C7.  When the cosine of the hour angle is within [-1, 1], the UT value
    returned after the normalisation is in [0, 24), its whole hours are
    0..23, and the instant built from it has a UTC hour in [0, 24). *)
Theorem sunset_UT_range (cfg : Config) (tz : TimeZone) (date : Z)
        (latDeg lngDeg zenithDeg : R) :
  -1 <= sunsetCosH cfg tz (localMidnight tz date) lngDeg zenithDeg <= 1 ->
  exists UT instant,
    noaaSunsetUT cfg tz (localMidnight tz date) latDeg lngDeg zenithDeg = Some UT /\
    0 <= UT < 24 /\
    (0 <= Math_floor UT <= 23)%Z /\
    getNoaaSunsetDateRaw cfg tz date latDeg lngDeg zenithDeg = Some instant /\
    (0 <= HourFromTime instant < 24)%Z.
Proof.
  intros Hc.
  destruct (noaaSunsetUT_Some cfg tz (localMidnight tz date) latDeg lngDeg
              zenithDeg Hc) as [UT [E HUT]].
  exists UT. eexists. split; [exact E |]. split; [exact HUT |]. split.
  - unfold Math_floor. pose proof (Zfloor_bound UT) as [Hlo Hhi]. split.
    + apply (Zfloor_lub 0). lra.
    + apply Z.lt_succ_r. apply lt_IZR. simpl. lra.
  - rewrite getNoaaSunsetDateRaw_eq, E. split; [reflexivity |].
    apply sunsetInstant_hour.
Qed.

(** At the site the hypothesis holds on every day, here 2025-12-06. *)
Lemma sunset_UT_range_witness :
  -1 <= sunsetCosH bmh newYork2025 (localMidnight newYork2025 1765040400000)
          (LNG bmh) (ZENITH_DEG bmh) <= 1 /\
  exists UT instant,
    noaaSunsetUT bmh newYork2025 (localMidnight newYork2025 1765040400000)
      (LAT bmh) (LNG bmh) (ZENITH_DEG bmh) = Some UT /\
    0 <= UT < 24 /\
    (0 <= Math_floor UT <= 23)%Z /\
    getNoaaSunsetDateRaw bmh newYork2025 1765040400000
      (LAT bmh) (LNG bmh) (ZENITH_DEG bmh) = Some instant /\
    (0 <= HourFromTime instant < 24)%Z.
Proof.
  split.
  - apply bmh_hourAngleCos_range.
  - apply (sunset_UT_range bmh newYork2025 1765040400000).
    apply bmh_hourAngleCos_range.
Defined.

End EngineClaims.

(** ** The day of the year *)

Module DayOfYearFacts.
Import JSDate JSDateFacts Bmh.
Local Open Scope Z_scope.

(** In a zone with a fixed offset, [dayOfYear] is the ordinal day of the
    local calendar date (years 0..99 apart, which [new Date(y, 0, 0)] reads
    as 1900..1999). *)
Lemma dayOfYear_fixedZone (c date : Z) :
  ~ (0 <= getFullYear (fixedZone c) date <= 99) ->
  dayOfYear (fixedZone c) date
  = ordinalDayOfYear (getFullYear (fixedZone c) date)
                     (getMonth (fixedZone c) date)
                     (getDate (fixedZone c) date).
Proof.
  intros Hy. unfold dayOfYear, ordinalDayOfYear, newDate. cbv zeta.
  unfold getFullYear, getMonth, getDate in *.
  unfold LocalTime, UTC in *. cbn [offsetAtUTC offsetAtLocal fixedZone] in *.
  set (t := date + c) in *.
  assert (Ef : fullYear (YearFromTime t) = YearFromTime t).
  { unfold fullYear. destruct (Z.leb_spec 0 (YearFromTime t));
      destruct (Z.leb_spec (YearFromTime t) 99); cbn [andb]; lia. }
  rewrite Ef, MakeDay_year_start.
  unfold DateFromTime, InLeapYear, DayWithinYear, MakeDate, MakeTime, Day.
  unfold msPerHour, msPerMinute, msPerSecond, msPerDay.
  replace (date - ((DayFromYear (YearFromTime t) - 1) * 86400000
                   + (0 * 3600000 + 0 * 60000 + 0 * 1000 + 0) - c))
    with (t + (- (DayFromYear (YearFromTime t) - 1)) * 86400000)
    by (unfold t; lia).
  change (1000 * 60 * 60 * 24) with 86400000.
  rewrite Z.div_add by lia. lia.
Qed.

(** C8 (the failing case).  At the site in summer time the value is one
    less than the ordinal day: local midnight of 2025-07-01, the 182nd day
    of the year, is 181 days less one hour after local midnight of
    2024-12-31, and [dayOfYear] returns 181. *)
Theorem dayOfYear_summer_time :
  let date := newDate newYork2025 2025 6 1 in
  toDateParts newYork2025 date = (2025, 6, 1) /\
  ordinalDayOfYear 2025 6 1 = 182 /\
  dayOfYear newYork2025 date = 181.
Proof. vm_compute. repeat split. Qed.

End DayOfYearFacts.

(** ** A sunset that rounds to the next UTC day *)

Module NearMidnight.
Import JSDate JSDateFacts JSNum Bmh EngineFacts.
Local Open Scope R_scope.

(** *** Enclosures of [PI], [sin] and [cos] *)

Lemma PI_lower : 3.1415 < PI.
Proof.
  pose proof (PI_2_3_7_ineq 1) as [H _].
  unfold sum_f_R0, tg_alt, PI_2_3_7_tg, Ratan_seq in H. simpl in H. lra.
Qed.

Lemma PI_upper : PI < 3.1416.
Proof.
  pose proof (PI_2_3_7_ineq 2) as [_ H].
  unfold sum_f_R0, tg_alt, PI_2_3_7_tg, Ratan_seq in H. simpl in H. lra.
Qed.

Lemma INR_fact (n : nat) (z : Z) : Z.of_nat (fact n) = z -> INR (fact n) = IZR z.
Proof. intros <-. apply INR_IZR_INZ. Qed.

Lemma sin_poly_bounds (r : R) :
  0 <= r <= 4 -> sinPolyLo r <= sin r <= sinPolyHi r.
Proof.
  intros [H0 H4]. pose proof (pre_sin_bound r 1 H0 H4) as H.
  unfold sin_approx, sin_term in H. cbn [sum_f_R0 Nat.mul Nat.add] in H.
  rewrite (INR_fact 1 1), (INR_fact 3 6), (INR_fact 5 120), (INR_fact 7 5040),
    (INR_fact 9 362880) in H by reflexivity.
  unfold sinPolyHi, sinPolyLo. lra.
Qed.

Lemma cos_poly_bounds (r : R) :
  0 <= r <= 2 -> cosPolyLo r <= cos r <= cosPolyHi r.
Proof.
  intros [H0 H2]. pose proof (pre_cos_bound r 1 ltac:(lra) H2) as H.
  unfold cos_approx, cos_term in H. cbn [sum_f_R0 Nat.mul Nat.add] in H.
  rewrite (INR_fact 0 1), (INR_fact 2 2), (INR_fact 4 24), (INR_fact 6 720),
    (INR_fact 8 40320) in H by reflexivity.
  unfold cosPolyHi, cosPolyLo. lra.
Qed.

(** An angle between two rationals of the first quadrant. *)
Lemma sin_enclose (x lo hi : R) :
  0 <= lo -> lo <= x -> x <= hi -> hi <= 3 / 2 ->
  sinPolyLo lo <= sin x <= sinPolyHi hi.
Proof.
  intros H0 Hlo Hhi H32. pose proof PI_lower as Hpi.
  pose proof (sin_poly_bounds lo ltac:(lra)) as [Hl _].
  pose proof (sin_poly_bounds hi ltac:(lra)) as [_ Hh].
  assert (sin lo <= sin x) by (apply sin_incr_1; lra).
  assert (sin x <= sin hi) by (apply sin_incr_1; lra).
  lra.
Qed.

Lemma cos_enclose (x lo hi : R) :
  0 <= lo -> lo <= x -> x <= hi -> hi <= 3 / 2 ->
  cosPolyLo hi <= cos x <= cosPolyHi lo.
Proof.
  intros H0 Hlo Hhi H32. pose proof PI_lower as Hpi.
  pose proof (cos_poly_bounds lo ltac:(lra)) as [_ Hl].
  pose proof (cos_poly_bounds hi ltac:(lra)) as [Hh _].
  assert (cos x <= cos lo) by (apply cos_decr_1; lra).
  assert (cos hi <= cos x) by (apply cos_decr_1; lra).
  lra.
Qed.

(** *** The remainder on a known range *)

Lemma rem_id (x y : R) : 0 < y -> - y < x < y -> rem x y = x.
Proof.
  intros Hy [Hlo Hhi]. unfold rem, Rtrunc.
  assert (Hq : -1 < x / y < 1).
  { pose proof (Rinv_0_lt_compat y Hy) as Hi. unfold Rdiv.
    assert (E : y * / y = 1) by (field; lra). split; nra. }
  destruct (Rle_dec 0 (x / y)) as [P | N].
  - rewrite (Zfloor_eq 0) by (simpl; lra). simpl. lra.
  - rewrite (Zceil_eq 0) by (simpl; lra). simpl. lra.
Qed.

Lemma rem_once (x y : R) : 0 < y -> y <= x < 2 * y -> rem x y = x - y.
Proof.
  intros Hy [Hlo Hhi]. unfold rem, Rtrunc.
  assert (Hq : 1 <= x / y < 2).
  { pose proof (Rinv_0_lt_compat y Hy) as Hi. unfold Rdiv.
    assert (E : y * / y = 1) by (field; lra). split; nra. }
  destruct (Rle_dec 0 (x / y)) as [P | N]; [| lra].
  rewrite (Zfloor_eq 1) by (simpl; lra). lra.
Qed.

Lemma div_enclose (a b al ah bl bh : R) :
  0 <= al -> al <= a -> a <= ah -> 0 < bl -> bl <= b -> b <= bh ->
  al / bh <= a / b <= ah / bl.
Proof.
  intros H0 Hal Hah Hbl Hb Hbh. unfold Rdiv.
  assert (Hib : / bh <= / b <= / bl).
  { split; apply Rinv_le_contravar; lra. }
  assert (0 < / bh) by (apply Rinv_0_lt_compat; lra).
  split; nra.
Qed.

Lemma tan_enclose (x lo hi : R) :
  0 <= lo -> lo <= x -> x <= hi -> hi <= 3 / 2 ->
  0 <= sinPolyLo lo -> 0 < cosPolyLo hi ->
  sinPolyLo lo / cosPolyHi lo <= tan x <= sinPolyHi hi / cosPolyLo hi.
Proof.
  intros H0 Hlo Hhi H32 Hs Hc.
  pose proof (sin_enclose x lo hi H0 Hlo Hhi H32) as [Hsl Hsh].
  pose proof (cos_enclose x lo hi H0 Hlo Hhi H32) as [Hcl Hch].
  unfold tan. apply div_enclose; lra.
Qed.

Lemma atan_le (x y : R) : x <= y -> atan x <= atan y.
Proof.
  intros [H | ->]; [left; now apply atan_increasing | right; reflexivity].
Qed.

Lemma atan_enclose (w lo hi : R) :
  - (PI / 2) < lo -> hi < PI / 2 -> lo <= hi ->
  tan lo <= w <= tan hi -> lo <= atan w <= hi.
Proof.
  intros Hlo Hhi Hle [Hl Hh].
  split.
  - rewrite <- (atan_tan lo) by lra. now apply atan_le.
  - rewrite <- (atan_tan hi) by lra. now apply atan_le.
Qed.

Lemma acos_enclose (c lo hi : R) :
  -1 <= c <= 1 -> 0 <= lo -> lo <= PI -> 0 <= hi -> hi <= PI ->
  cos hi <= c <= cos lo -> lo <= acos c <= hi.
Proof.
  intros Hc Hlo0 Hlo Hhi0 Hhi [Hl Hh].
  pose proof (acos_bound c) as [Ha0 Ha].
  rewrite <- (cos_acos c Hc) in Hl, Hh.
  split.
  - apply (cos_decr_0 (acos c) lo); assumption.
  - apply (cos_decr_0 hi (acos c)); assumption.
Qed.

Lemma sqrt_enclose (v lo hi : R) :
  0 <= lo -> lo * lo <= v -> v <= hi * hi -> 0 <= hi -> lo <= sqrt v <= hi.
Proof.
  intros Hlo Hl Hh Hhi.
  split.
  - rewrite <- (sqrt_square lo Hlo). now apply sqrt_le_1_alt.
  - rewrite <- (sqrt_square hi Hhi). now apply sqrt_le_1_alt.
Qed.

(** *** Day 220 at the longitude of the site *)

Lemma approxTime_220 :
  220.95562 < approxTime 220 (LNG bmh) < 220.95563.
Proof. unfold approxTime. cbn [LNG bmh]. lra. Qed.

Lemma sind_M_220 (M : R) :
  214.48485 < M < 214.48488 -> -0.5663 <= sind M <= -0.5661.
Proof.
  intros HM. pose proof PI_lower as Hl. pose proof PI_upper as Hu.
  unfold sind. set (x := (M - 180) * PI / 180).
  replace (M * PI / 180) with (x + PI) by (unfold x; field).
  rewrite neg_sin.
  assert (Hx : 0.60185 <= x <= 0.60189) by (unfold x; split; nra).
  pose proof (sin_enclose x 0.60185 0.60189 ltac:(lra) ltac:(lra) ltac:(lra)
                ltac:(lra)) as [Hs1 Hs2].
  unfold sinPolyHi, sinPolyLo in Hs1, Hs2. lra.
Qed.

Lemma sind_2M_220 (M : R) :
  214.48485 < M < 214.48488 -> 0.9333 <= sind (2 * M) <= 0.9335.
Proof.
  intros HM. pose proof PI_lower as Hl. pose proof PI_upper as Hu.
  unfold sind. set (x := (2 * M - 360) * PI / 180).
  replace (2 * M * PI / 180) with (x + PI + PI) by (unfold x; field).
  rewrite !neg_sin.
  assert (Hx : 1.2037 <= x <= 1.2038) by (unfold x; split; nra).
  pose proof (sin_enclose x 1.2037 1.2038 ltac:(lra) ltac:(lra) ltac:(lra)
                ltac:(lra)) as [Hs1 Hs2].
  unfold sinPolyHi, sinPolyLo in Hs1, Hs2. lra.
Qed.

Lemma trueLongitude_220 (t : R) :
  220.95562 < t < 220.95563 -> 136.0524 < trueLongitude t < 136.0530.
Proof.
  intros Ht. unfold trueLongitude. cbv zeta.
  set (M := 0.9856 * t - 3.289).
  assert (HM : 214.48485 < M < 214.48488) by (unfold M; lra).
  pose proof (sind_M_220 M HM) as H1. pose proof (sind_2M_220 M HM) as H2.
  set (L := M + 1.916 * sind M + 0.020 * sind (2 * M) + 282.634).
  assert (HL : 496.0524 < L < 496.0530) by (unfold L; lra).
  rewrite (rem_once L 360) by lra.
  replace (L - 360 + 360) with L by lra.
  rewrite (rem_once L 360) by lra. lra.
Qed.

Lemma degrees_enclose (a lo hi : R) :
  lo * PI / 180 <= a <= hi * PI / 180 -> lo <= a * 180 / PI <= hi.
Proof.
  intros [Hl Hh]. pose proof PI_RGT_0 as Hpi.
  assert (Hk : 0 <= 180 / PI).
  { unfold Rdiv. pose proof (Rinv_0_lt_compat PI Hpi). nra. }
  replace (a * 180 / PI) with (a * (180 / PI)) by (field; lra).
  split.
  - apply Rle_trans with (lo * PI / 180 * (180 / PI)).
    + right. field. lra.
    + now apply Rmult_le_compat_r.
  - apply Rle_trans with (hi * PI / 180 * (180 / PI)).
    + now apply Rmult_le_compat_r.
    + right. field. lra.
Qed.

(** *** The true longitude of that day: declination, right ascension *)

Section Longitude.
Variable L : R.
Hypothesis HL : 136.0524 < L < 136.0530.

Lemma supplementRad_range : 0.76699 <= supplementRad L <= 0.76704.
Proof.
  pose proof PI_lower as Hl. pose proof PI_upper as Hu.
  unfold supplementRad. split; nra.
Qed.

Lemma sin_supplement : 0.69397 <= sin (supplementRad L) <= 0.69401.
Proof.
  pose proof supplementRad_range as [H1 H2].
  pose proof (sin_enclose (supplementRad L) 0.76699 0.76704
                ltac:(lra) H1 H2 ltac:(lra)) as [Hs1 Hs2].
  unfold sinPolyHi, sinPolyLo in Hs1, Hs2. lra.
Qed.

Lemma cos_supplement : 0.71996 <= cos (supplementRad L) <= 0.72001.
Proof.
  pose proof supplementRad_range as [H1 H2].
  pose proof (cos_enclose (supplementRad L) 0.76699 0.76704
                ltac:(lra) H1 H2 ltac:(lra)) as [Hc1 Hc2].
  unfold cosPolyHi, cosPolyLo in Hc1, Hc2. lra.
Qed.

Lemma sind_L : sind L = sin (supplementRad L).
Proof.
  unfold sind, supplementRad. rewrite <- sin_PI_x. f_equal. field.
Qed.

Lemma tand_L : tand L = - tan (supplementRad L).
Proof.
  unfold tand, tan, supplementRad.
  replace (L * PI / 180) with (PI - (180 - L) * PI / 180) by field.
  rewrite sin_PI_x, Rtrigo_facts.cos_pi_minus.
  pose proof cos_supplement as Hc. unfold supplementRad in Hc. field. lra.
Qed.

Lemma tan_supplement : 0.88445 <= 0.91764 * tan (supplementRad L) <= 0.88457.
Proof.
  pose proof sin_supplement as Hs. pose proof cos_supplement as Hc.
  pose proof (div_enclose (sin (supplementRad L)) (cos (supplementRad L))
                0.69397 0.69401 0.71996 0.72001
                ltac:(lra) ltac:(lra) ltac:(lra) ltac:(lra) ltac:(lra) ltac:(lra))
    as Hd.
  unfold tan. lra.
Qed.

Lemma atan_tan_supplement :
  41.489 * PI / 180 <= atan (0.91764 * tan (supplementRad L))
  <= 41.498 * PI / 180.
Proof.
  pose proof PI_lower as Hl. pose proof PI_upper as Hu.
  pose proof tan_supplement as Hw.
  apply atan_enclose; try lra. split.
  - pose proof (tan_enclose (41.489 * PI / 180) 0.72409 0.72413
                  ltac:(lra) ltac:(lra) ltac:(lra) ltac:(lra)
                  ltac:(unfold sinPolyLo; lra) ltac:(unfold cosPolyLo; lra))
      as Ht.
    unfold sinPolyHi, sinPolyLo, cosPolyHi, cosPolyLo in Ht.
    destruct Ht as [_ Ht]; lra.
  - pose proof (tan_enclose (41.498 * PI / 180) 0.72425 0.72428
                  ltac:(lra) ltac:(lra) ltac:(lra) ltac:(lra)
                  ltac:(unfold sinPolyLo; lra) ltac:(unfold cosPolyLo; lra))
      as Ht.
    unfold sinPolyHi, sinPolyLo, cosPolyHi, cosPolyLo in Ht.
    destruct Ht as [Ht _]; lra.
Qed.

Lemma rightAscension_L : 9.2334 <= rightAscension L <= 9.2341.
Proof.
  unfold rightAscension. cbv zeta. rewrite tand_L.
  replace (0.91764 * - tan (supplementRad L))
    with (- (0.91764 * tan (supplementRad L))) by ring.
  rewrite atan_opp.
  pose proof (degrees_enclose _ _ _ atan_tan_supplement) as Ha.
  set (a := atan (0.91764 * tan (supplementRad L)) * 180 / PI) in *.
  replace (- atan (0.91764 * tan (supplementRad L)) * 180 / PI) with (- a)
    by (unfold a; field; pose proof PI_RGT_0; lra).
  rewrite (rem_id (- a) 360) by lra.
  rewrite (rem_id (- a + 360) 360) by lra.
  unfold Math_floor.
  rewrite (Zfloor_eq 1 (L / 90)) by (simpl; lra).
  rewrite (Zfloor_eq 3 ((- a + 360) / 90)) by (simpl; lra).
  lra.
Qed.

(** The cosine of the hour angle with the constants of the script. *)
Lemma sind_LAT : 0.65858 <= sind (LAT bmh) <= 0.65862.
Proof.
  pose proof PI_lower as Hl. pose proof PI_upper as Hu.
  unfold sind. cbn [LAT bmh].
  pose proof (sin_enclose (41.19392515448243 * PI / 180) 0.71894 0.71898
                ltac:(lra) ltac:(lra) ltac:(lra) ltac:(lra)) as [Hs1 Hs2].
  unfold sinPolyHi, sinPolyLo in Hs1, Hs2. lra.
Qed.

Lemma cosd_LAT : 0.75247 <= cosd (LAT bmh) <= 0.75251.
Proof.
  pose proof PI_lower as Hl. pose proof PI_upper as Hu.
  unfold cosd. cbn [LAT bmh].
  pose proof (cos_enclose (41.19392515448243 * PI / 180) 0.71894 0.71898
                ltac:(lra) ltac:(lra) ltac:(lra) ltac:(lra)) as [Hc1 Hc2].
  unfold cosPolyHi, cosPolyLo in Hc1, Hc2. lra.
Qed.

Lemma hourAngleCos_L :
  -0.25145 <= hourAngleCos bmh L (ZENITH_DEG bmh) <= -0.25137.
Proof.
  unfold hourAngleCos. cbv zeta. cbn [ZENITH_DEG bmh].
  rewrite cosd_90, sind_L.
  pose proof sin_supplement as Hs. pose proof sind_LAT as Ha. pose proof cosd_LAT as Hc.
  set (sinDec := 0.39782 * sin (supplementRad L)).
  assert (Hsd : 0.27607 <= sinDec <= 0.2761) by (unfold sinDec; lra).
  rewrite cos_asin by lra.
  pose proof (sqrt_enclose (1 - sinDec²) 0.96112 0.96114 ltac:(lra)
                ltac:(unfold Rsqr; nra) ltac:(unfold Rsqr; nra) ltac:(lra)) as Hcd.
  set (cosDec := sqrt (1 - sinDec²)) in *.
  assert (Hn : 0.18181 <= sinDec * sind (LAT bmh) <= 0.18185) by nra.
  assert (Hd : 0.72321 <= cosDec * cosd (LAT bmh) <= 0.72327) by nra.
  pose proof (div_enclose (sinDec * sind (LAT bmh)) (cosDec * cosd (LAT bmh))
                0.18181 0.18185 0.72321 0.72327
                ltac:(lra) ltac:(lra) ltac:(lra) ltac:(lra) ltac:(lra) ltac:(lra))
    as Hk.
  replace ((0 - sinDec * sind (LAT bmh)) / (cosDec * cosd (LAT bmh)))
    with (- (sinDec * sind (LAT bmh) / (cosDec * cosd (LAT bmh))))
    by (field; lra).
  lra.
Qed.

Lemma hourAngle_L :
  104.557 <= acos (hourAngleCos bmh L (ZENITH_DEG bmh)) * 180 / PI <= 104.565.
Proof.
  pose proof PI_lower as Hl. pose proof PI_upper as Hu.
  pose proof hourAngleCos_L as Hc.
  apply degrees_enclose. apply acos_enclose; try lra. split.
  - replace (104.565 * PI / 180) with (PI / 2 + 14.565 * PI / 180) by lra.
    pose proof (sin_cos (14.565 * PI / 180)) as E.
    pose proof (sin_enclose (14.565 * PI / 180) 0.25419 0.25422
                  ltac:(lra) ltac:(lra) ltac:(lra) ltac:(lra)) as [Hs _].
    unfold sinPolyLo in Hs. lra.
  - replace (104.557 * PI / 180) with (PI / 2 + 14.557 * PI / 180) by lra.
    pose proof (sin_cos (14.557 * PI / 180)) as E.
    pose proof (sin_enclose (14.557 * PI / 180) 0.25405 0.25407
                  ltac:(lra) ltac:(lra) ltac:(lra) ltac:(lra)) as [_ Hs].
    unfold sinPolyHi, sinPolyLo in Hs. lra.
Qed.

End Longitude.

(** *** The UT value of day 220 *)

Lemma noaaSunsetUT_day220 (tz : TimeZone) (date : Z) (latDeg : R) :
  dayOfYear tz date = 220%Z ->
  exists UT,
    noaaSunsetUT bmh tz date latDeg (LNG bmh) (ZENITH_DEG bmh) = Some UT /\
    23.997 < UT < 23.9995.
Proof.
  intros HN. unfold noaaSunsetUT. rewrite HN. cbv zeta.
  pose proof approxTime_220 as Ht.
  set (t := approxTime 220 (LNG bmh)) in *.
  pose proof (trueLongitude_220 t Ht) as HL.
  set (L := trueLongitude t) in *.
  pose proof (rightAscension_L L HL) as HRA.
  pose proof (hourAngleCos_L L HL) as Hc.
  pose proof (hourAngle_L L HL) as HH.
  set (cosH := hourAngleCos bmh L (ZENITH_DEG bmh)) in *.
  destruct (Rlt_dec cosH (-1)) as [C1 | _]; [lra |].
  destruct (Rlt_dec 1 cosH) as [C2 | _]; [lra |].
  eexists. split; [reflexivity |].
  set (UT := acos cosH * 180 / PI / 15.0 + rightAscension L - 0.06571 * t
             - 6.622 - LNG bmh / 15.0).
  assert (HUT : -0.003 < UT < -0.0005) by (unfold UT; cbn [LNG bmh]; lra).
  rewrite (rem_id UT 24) by lra.
  rewrite (rem_id (UT + 24) 24) by lra. lra.
Qed.

Lemma sunsetInstant_rounds_up (year month day : Z) (UT : R) :
  23 + 59.5 / 60 <= UT < 24 ->
  Math_floor UT = 23%Z /\
  Math_round ((UT - IZR (Math_floor UT)) * 60) = 60%Z /\
  sunsetInstant year month day UT
  = (DateUTC year month day 0 0 0 + 24 * msPerHour)%Z.
Proof.
  intros HUT.
  assert (Hf : Math_floor UT = 23%Z) by (apply Zfloor_eq; simpl; lra).
  assert (Hr : Math_round ((UT - IZR (Math_floor UT)) * 60) = 60%Z).
  { rewrite Hf. apply Zfloor_eq. simpl. lra. }
  split; [exact Hf |]. split; [exact Hr |].
  unfold sunsetInstant. cbv zeta. rewrite Hr, Hf. unfold msPerHour. lia.
Qed.

End NearMidnight.

Module NearMidnightClaims.
Import JSDate JSDateFacts JSNum Bmh EngineFacts NearMidnight.
Local Open Scope R_scope.

(** C10.  At the site, for Saturday 2025-08-09, the engine takes day 220 and
    returns a UT value between 23:59:30 and 24:00: the whole hours are 23,
    the minutes round to 60, and the instant built is UTC midnight of
    2025-08-09 plus 24 hours, on the next UTC calendar day.  In a host in
    UTC the same happens for 2025-08-08. *)
Theorem sunset_rounds_into_next_UTC_day :
  (exists UT instant,
     toDateParts newYork2025 1754755200000 = (2025, 7, 9)%Z /\
     noaaSunsetUT bmh newYork2025 (localMidnight newYork2025 1754755200000)
       (LAT bmh) (LNG bmh) (ZENITH_DEG bmh) = Some UT /\
     Math_floor UT = 23%Z /\
     Math_round ((UT - IZR (Math_floor UT)) * 60) = 60%Z /\
     getNoaaSunsetDateRaw bmh newYork2025 1754755200000
       (LAT bmh) (LNG bmh) (ZENITH_DEG bmh) = Some instant /\
     instant = (DateUTC 2025 7 9 0 0 0 + 24 * msPerHour)%Z /\
     Day instant = (Day (DateUTC 2025 7 9 0 0 0) + 1)%Z)
  /\
  (exists UT instant,
     toDateParts utcZone 1754654400000 = (2025, 7, 8)%Z /\
     noaaSunsetUT bmh utcZone (localMidnight utcZone 1754654400000)
       (LAT bmh) (LNG bmh) (ZENITH_DEG bmh) = Some UT /\
     Math_floor UT = 23%Z /\
     Math_round ((UT - IZR (Math_floor UT)) * 60) = 60%Z /\
     getNoaaSunsetDateRaw bmh utcZone 1754654400000
       (LAT bmh) (LNG bmh) (ZENITH_DEG bmh) = Some instant /\
     instant = (DateUTC 2025 7 8 0 0 0 + 24 * msPerHour)%Z /\
     Day instant = (Day (DateUTC 2025 7 8 0 0 0) + 1)%Z).
Proof.
  split.
  - destruct (noaaSunsetUT_day220 newYork2025
                (localMidnight newYork2025 1754755200000) (LAT bmh))
      as [UT [E HUT]]; [reflexivity |].
    destruct (sunsetInstant_rounds_up 2025 7 9 UT ltac:(lra)) as [Hf [Hr Hi]].
    exists UT, (DateUTC 2025 7 9 0 0 0 + 24 * msPerHour)%Z.
    split; [reflexivity |]. split; [exact E |]. split; [exact Hf |].
    split; [exact Hr |]. split; [| split; reflexivity].
    rewrite getNoaaSunsetDateRaw_eq, E.
    change (getFullYear newYork2025 1754755200000) with 2025%Z.
    change (getMonth newYork2025 1754755200000) with 7%Z.
    change (getDate newYork2025 1754755200000) with 9%Z.
    now rewrite Hi.
  - destruct (noaaSunsetUT_day220 utcZone
                (localMidnight utcZone 1754654400000) (LAT bmh))
      as [UT [E HUT]]; [reflexivity |].
    destruct (sunsetInstant_rounds_up 2025 7 8 UT ltac:(lra)) as [Hf [Hr Hi]].
    exists UT, (DateUTC 2025 7 8 0 0 0 + 24 * msPerHour)%Z.
    split; [reflexivity |]. split; [exact E |]. split; [exact Hf |].
    split; [exact Hr |]. split; [| split; reflexivity].
    rewrite getNoaaSunsetDateRaw_eq, E.
    change (getFullYear utcZone 1754654400000) with 2025%Z.
    change (getMonth utcZone 1754654400000) with 7%Z.
    change (getDate utcZone 1754654400000) with 8%Z.
    now rewrite Hi.
Qed.

Lemma hourAngleCosSpec_equator (L : R) : hourAngleCosSpec 0 L 90.0 = 0.
Proof.
  unfold hourAngleCosSpec. cbv zeta. rewrite cosd_90.
  assert (E : sind 0 = 0).
  { unfold sind. replace (0 * PI / 180) with 0 by lra. apply sin_0. }
  rewrite E. unfold Rdiv. ring.
Qed.

(** C1 (what the code does instead).  [noaaSunsetUT] never reads its
    latitude argument: any two latitudes give the same result, computed with
    the constant [LAT].  For 2025-08-09 at the site and the latitude
    argument 0, the formula of the spec gives the cosine 0, and the code
    computes a cosine below -0.25 and returns the sunset of latitude
    41.19. *)
Theorem latitude_argument_ignored :
  (forall (cfg : Config) (tz : TimeZone) (date : Z)
          (latDeg latDeg' lngDeg zenithDeg : R),
     noaaSunsetUT cfg tz date latDeg lngDeg zenithDeg
     = noaaSunsetUT cfg tz date latDeg' lngDeg zenithDeg) /\
  (let date := localMidnight newYork2025 1754755200000 in
   let L := trueLongitude (approxTime (dayOfYear newYork2025 date) (LNG bmh)) in
   hourAngleCosSpec 0 L (ZENITH_DEG bmh) = 0 /\
   sunsetCosH bmh newYork2025 date (LNG bmh) (ZENITH_DEG bmh) <= -0.25137 /\
   noaaSunsetUT bmh newYork2025 date 0 (LNG bmh) (ZENITH_DEG bmh)
   = noaaSunsetUT bmh newYork2025 date (LAT bmh) (LNG bmh) (ZENITH_DEG bmh)).
Proof.
  split.
  - intros. apply noaaSunsetUT_latDeg_unused.
  - cbv zeta. split; [apply hourAngleCosSpec_equator |]. split; [| reflexivity].
    unfold sunsetCosH.
    change (dayOfYear newYork2025 (localMidnight newYork2025 1754755200000))
      with 220%Z.
    apply hourAngleCos_L. apply trueLongitude_220. apply approxTime_220.
Qed.

End NearMidnightClaims.

(** ** Further properties of the schedules *)

Module ScheduleExtras.
Import JSDate JSDateFacts JSNum DateParse Bmh ScheduleDates EngineFacts.
Import CalibrationFacts Page.
Local Open Scope string_scope.
Local Open Scope Z_scope.

Lemma toDateParts_localDay (tz : TimeZone) (d d' : Z) :
  localDay tz d = localDay tz d' -> toDateParts tz d = toDateParts tz d'.
Proof.
  unfold localDay. intros E.
  unfold toDateParts, getFullYear, getMonth, getDate.
  unfold DateFromTime, MonthFromTime, InLeapYear, DayWithinYear, YearFromTime.
  now rewrite E.
Qed.

(** X1.  The sunset of an instant depends on the instant only through
    its local calendar day: two instants of one local day get the same raw
    and the same calibrated sunset. *)
Theorem sunset_of_local_day (cfg : Config) (tz : TimeZone) (cal d d' : Z)
        (latDeg lngDeg zenithDeg : R) :
  localDay tz d = localDay tz d' ->
  getNoaaSunsetDateRaw cfg tz d latDeg lngDeg zenithDeg
  = getNoaaSunsetDateRaw cfg tz d' latDeg lngDeg zenithDeg /\
  getSunsetWithCalibration cfg tz cal d = getSunsetWithCalibration cfg tz cal d'.
Proof.
  intros E. apply toDateParts_localDay in E. split.
  - now apply getNoaaSunsetDateRaw_same_day.
  - unfold getSunsetWithCalibration.
    now rewrite (getNoaaSunsetDateRaw_same_day cfg tz d d' _ _ _ E).
Qed.

(** 2025-12-06 at 08:00 and at 23:00 in New York. *)
Lemma sunset_of_local_day_witness :
  localDay newYork2025 1765026000000 = localDay newYork2025 1765080000000 /\
  getSunsetWithCalibration bmh newYork2025 0 1765026000000
  = getSunsetWithCalibration bmh newYork2025 0 1765080000000.
Proof.
  split; [reflexivity |].
  exact (proj2 (sunset_of_local_day bmh newYork2025 0 1765026000000
                  1765080000000 (LAT bmh) (LNG bmh) (ZENITH_DEG bmh) eq_refl)).
Defined.

Lemma setHours_localDay (tz : TimeZone) (d h m s ms : Z) :
  setHours tz d h m s ms = UTC tz (MakeDate (localDay tz d) (MakeTime h m s ms)).
Proof. reflexivity. Qed.

Lemma getSundayOfWeek_unfold (tz : TimeZone) (today : Z) :
  getSundayOfWeek tz today
  = setHours tz (setDate tz today (getDate tz today + - getDay tz today))
      12 0 0 0.
Proof. reflexivity. Qed.



Section Week.
Variable tz : TimeZone.
Hypothesis stable : dayStable tz.

Lemma getSundayOfWeek_eq (today : Z) :
  getSundayOfWeek tz today
  = UTC tz (MakeDate (localDay tz today - getDay tz today) (MakeTime 12 0 0 0)).
Proof.
  rewrite getSundayOfWeek_unfold, setHours_localDay.
  rewrite (localDay_setDate tz stable). reflexivity.
Qed.


End Week.

(** X2.  In a zone whose transitions do not cross midnight,
    [getSundayOfWeek] returns a Sunday, on the local day of its argument or
    up to six days before it, and applying it to its own result changes
    nothing. *)
Theorem getSundayOfWeek_sunday (tz : TimeZone) (today : Z) :
  dayStable tz ->
  let sunday := getSundayOfWeek tz today in
  getDay tz sunday = 0 /\
  localDay tz today - 6 <= localDay tz sunday <= localDay tz today /\
  getSundayOfWeek tz sunday = sunday.
Proof.
  intros Hst sunday.
  pose proof (getDay_getSundayOfWeek tz Hst today) as H0.
  pose proof (localDay_getSundayOfWeek tz Hst today) as Hd.
  pose proof (WeekDay_range (LocalTime tz today)) as Hw.
  fold (getDay tz today) in Hw. fold sunday in H0, Hd.
  split; [exact H0 |]. split; [lia |].
  rewrite (getSundayOfWeek_eq tz Hst sunday), H0, Hd.
  unfold sunday. rewrite (getSundayOfWeek_eq tz Hst today).
  f_equal. f_equal. lia.
Qed.

(** Wednesday 2025-12-03 in New York. *)
Lemma getSundayOfWeek_sunday_witness :
  dayStable newYork2025 /\
  getDay newYork2025 (getSundayOfWeek newYork2025 1764781200000) = 0 /\
  getSundayOfWeek newYork2025 (getSundayOfWeek newYork2025 1764781200000)
  = getSundayOfWeek newYork2025 1764781200000.
Proof.
  split; [exact newYork2025_dayStable |].
  pose proof (getSundayOfWeek_sunday newYork2025 1764781200000
                newYork2025_dayStable) as [H0 [_ Hi]].
  split; [exact H0 | exact Hi].
Defined.

(** X3.  The weekday time is the same on every day of a week: two
    instants whose local days have the same Sunday get the same
    [getSundayOfWeek], the same weekday Mincha/Maariv instant and the same
    assignments. *)
Theorem weekday_schedule_same_all_week (cfg : Config) (tz : TimeZone)
        (hasElement : string -> bool) (formatTimeLocal : Z -> string)
        (cal today today' : Z) :
  dayStable tz ->
  localDay tz today - getDay tz today = localDay tz today' - getDay tz today' ->
  getSundayOfWeek tz today = getSundayOfWeek tz today' /\
  weekdayMinchaTime cfg tz cal today = weekdayMinchaTime cfg tz cal today' /\
  updateWeekdayMinchaMaariv cfg tz hasElement formatTimeLocal cal today
  = updateWeekdayMinchaMaariv cfg tz hasElement formatTimeLocal cal today'.
Proof.
  intros Hst E.
  assert (Es : getSundayOfWeek tz today = getSundayOfWeek tz today')
    by (rewrite !(getSundayOfWeek_eq tz Hst); now rewrite E).
  assert (Ew : weekdayMinchaTime cfg tz cal today
               = weekdayMinchaTime cfg tz cal today')
    by (unfold weekdayMinchaTime, weekdaySunsets; now rewrite Es).
  split; [exact Es |]. split; [exact Ew |].
  unfold updateWeekdayMinchaMaariv. now rewrite Ew.
Qed.

(** Monday 2025-12-01 and Friday 2025-12-05 in New York. *)
Lemma weekday_schedule_same_all_week_witness :
  dayStable newYork2025 /\
  localDay newYork2025 1764608400000 - getDay newYork2025 1764608400000
  = localDay newYork2025 1764954000000 - getDay newYork2025 1764954000000 /\
  getDay newYork2025 1764608400000 = 1 /\
  getDay newYork2025 1764954000000 = 5 /\
  weekdayMinchaTime bmh newYork2025 0 1764608400000
  = weekdayMinchaTime bmh newYork2025 0 1764954000000.
Proof.
  split; [exact newYork2025_dayStable |].
  split; [reflexivity |]. split; [reflexivity |]. split; [reflexivity |].
  exact (proj1 (proj2 (weekday_schedule_same_all_week bmh newYork2025
                         (fun _ => true) (fun _ => "") 0 1764608400000
                         1764954000000 newYork2025_dayStable eq_refl))).
Defined.



End ScheduleExtras.

(** ** Calibration as a translation, and what the updates write *)

Module WriteExtras.
Import JSDate JSDateFacts JSNum DateParse Bmh ScheduleDates EngineFacts.
Import CalibrationFacts Page.
Local Open Scope string_scope.
Local Open Scope Z_scope.

Lemma getSunsetWithCalibration_shift (cfg : Config) (tz : TimeZone) (cal d : Z) :
  CALIBRATION_ENABLED cfg = true ->
  getSunsetWithCalibration cfg tz cal d
  = option_map (fun s => s + cal) (getSunsetWithCalibration cfg tz 0 d).
Proof.
  intros En. unfold getSunsetWithCalibration. rewrite En. cbn [negb orb].
  destruct (getNoaaSunsetDateRaw cfg tz d _ _ _) as [raw |]; [| reflexivity].
  change (0 =? 0) with true. cbn [option_map].
  destruct (Z.eqb_spec cal 0) as [-> | N]; [| reflexivity].
  now rewrite Z.add_0_r.
Qed.

Lemma getSunsetWithCalibration_off (cfg : Config) (tz : TimeZone) (cal d : Z) :
  CALIBRATION_ENABLED cfg = false ->
  getSunsetWithCalibration cfg tz cal d = getSunsetWithCalibration cfg tz 0 d.
Proof.
  intros En. unfold getSunsetWithCalibration. rewrite En. cbn [negb orb].
  reflexivity.
Qed.

Lemma weekdaySunsets_unfold (cfg : Config) (tz : TimeZone) (cal today : Z) :
  weekdaySunsets cfg tz cal today
  = flat_map
      (fun i =>
         match getSunsetWithCalibration cfg tz cal
                 (weekdayDate tz (getSundayOfWeek tz today) i) with
         | Some sunset => [sunset]
         | None => []
         end)
      [0; 1; 2; 3; 4].
Proof. reflexivity. Qed.

Lemma flat_map_option_map (g : Z -> Z) (f f' : Z -> option Z) (l : list Z) :
  (forall i, f' i = option_map g (f i)) ->
  flat_map (fun i => match f' i with Some s => [s] | None => [] end) l
  = map g (flat_map (fun i => match f i with Some s => [s] | None => [] end) l).
Proof.
  intros H. induction l as [| i l IH]; [reflexivity |].
  cbn [flat_map]. rewrite IH, map_app, H.
  destruct (f i); reflexivity.
Qed.

Lemma earliestOf_shift (c : Z) (l : list Z) (first : Z) :
  earliestOf (first + c) (map (fun s => s + c) l) = earliestOf first l + c.
Proof.
  unfold earliestOf. revert first. induction l as [| a l IH]; intros first.
  - reflexivity.
  - cbn [map fold_left].
    destruct (Z.ltb_spec (a + c) (first + c)); destruct (Z.ltb_spec a first);
      try lia; apply IH.
Qed.

Lemma weekdayMinchaTime_unfold (cfg : Config) (tz : TimeZone) (cal today : Z) :
  weekdayMinchaTime cfg tz cal today
  = match weekdaySunsets cfg tz cal today with
    | [] => None
    | s0 :: _ =>
        Some (earliestOf s0 (weekdaySunsets cfg tz cal today) - 15 * 60 * 1000)
    end.
Proof. reflexivity. Qed.

Lemma shabbosTimes_unfold (cfg : Config) (tz : TimeZone) (cal today : Z) :
  shabbosTimes cfg tz cal today
  = match getSunsetWithCalibration cfg tz cal (getComingShabbos tz today) with
    | None => None
    | Some sunset =>
        Some (sunset - 15 * 60 * 1000, sunset - 45 * 60 * 1000,
              sunset + 50 * 60 * 1000)
    end.
Proof. reflexivity. Qed.

(** X5.  Calibration is one translation of every time: with the flag on,
    the weekday instant and the three Shabbos instants computed with the
    offset [cal] are those computed with offset 0, moved by [cal]; with the
    flag off, [cal] is not used at all. *)
Theorem calibration_translates_schedules (cfg : Config) (tz : TimeZone)
        (cal today : Z) :
  (CALIBRATION_ENABLED cfg = true ->
   weekdayMinchaTime cfg tz cal today
   = option_map (fun t => t + cal) (weekdayMinchaTime cfg tz 0 today) /\
   shabbosTimes cfg tz cal today
   = option_map (fun '(erev, day, maariv) => (erev + cal, day + cal, maariv + cal))
       (shabbosTimes cfg tz 0 today)) /\
  (CALIBRATION_ENABLED cfg = false ->
   weekdayMinchaTime cfg tz cal today = weekdayMinchaTime cfg tz 0 today /\
   shabbosTimes cfg tz cal today = shabbosTimes cfg tz 0 today).
Proof.
  split; intros En.
  - split.
    + rewrite !weekdayMinchaTime_unfold.
      assert (E : weekdaySunsets cfg tz cal today
                  = map (fun s => s + cal) (weekdaySunsets cfg tz 0 today)).
      { rewrite !weekdaySunsets_unfold. apply flat_map_option_map.
        intros i. now apply getSunsetWithCalibration_shift. }
      rewrite E. destruct (weekdaySunsets cfg tz 0 today) as [| s0 l];
        [reflexivity |].
      cbn [map option_map].
      change ((s0 + cal) :: map (fun s => s + cal) l)
        with (map (fun s => s + cal) (s0 :: l)).
      rewrite (earliestOf_shift cal (s0 :: l) s0). f_equal. lia.
    + rewrite !shabbosTimes_unfold.
      rewrite (getSunsetWithCalibration_shift cfg tz cal _ En).
      destruct (getSunsetWithCalibration cfg tz 0 _) as [s |]; [| reflexivity].
      cbn [option_map]. f_equal. f_equal; [f_equal |]; lia.
  - split.
    + rewrite !weekdayMinchaTime_unfold, !weekdaySunsets_unfold.
      rewrite (flat_map_option_map (fun s => s)
                 (fun i => getSunsetWithCalibration cfg tz 0
                             (weekdayDate tz (getSundayOfWeek tz today) i))
                 (fun i => getSunsetWithCalibration cfg tz cal
                             (weekdayDate tz (getSundayOfWeek tz today) i))).
      * now rewrite map_id.
      * intros i. rewrite (getSunsetWithCalibration_off cfg tz cal _ En).
        now destruct (getSunsetWithCalibration cfg tz 0 _).
    + rewrite !shabbosTimes_unfold.
      now rewrite (getSunsetWithCalibration_off cfg tz cal _ En).
Qed.

(** With the constants of the script and with the flag off, for an
    offset of one minute. *)
Lemma calibration_translates_schedules_witness :
  weekdayMinchaTime bmh newYork2025 60000 1764979200000
  = option_map (fun t => t + 60000)
      (weekdayMinchaTime bmh newYork2025 0 1764979200000) /\
  weekdayMinchaTime uncalibrated newYork2025 60000 1764979200000
  = weekdayMinchaTime uncalibrated newYork2025 0 1764979200000.
Proof.
  split.
  - exact (proj1 (proj1 (calibration_translates_schedules bmh newYork2025
                           60000 1764979200000) eq_refl)).
  - exact (proj1 (proj2 (calibration_translates_schedules uncalibrated
                           newYork2025 60000 1764979200000) eq_refl)).
Defined.

Lemma assign_fst (hasElement : string -> bool) (id text : string) :
  map fst (assign hasElement id text) = filter hasElement [id].
Proof. unfold assign. cbn [filter]. now destruct (hasElement id). Qed.

Lemma updateWeekdayMinchaMaariv_unfold (cfg : Config) (tz : TimeZone)
      (hasElement : string -> bool) (formatTimeLocal : Z -> string)
      (cal today : Z) :
  updateWeekdayMinchaMaariv cfg tz hasElement formatTimeLocal cal today
  = let text := match weekdayMinchaTime cfg tz cal today with
                | Some minchaTime => formatTimeLocal minchaTime
                | None => "Check shul board"
                end in
    (assign hasElement "weekdayMinchaMaariv" text
     ++ assign hasElement "weekdayMinchaMaarivCard" text
     ++ assign hasElement "heroWeekdayMincha" text)%list.
Proof.
  unfold updateWeekdayMinchaMaariv.
  destruct (weekdayMinchaTime cfg tz cal today); cbv zeta; cbn [flat_map];
    now rewrite ?app_nil_r.
Qed.

Lemma updateShabbosTimes_unfold (cfg : Config) (tz : TimeZone)
      (hasElement : string -> bool) (formatTimeLocal : Z -> string)
      (cal today : Z) :
  updateShabbosTimes cfg tz hasElement formatTimeLocal cal today
  = let '(erev, day, maariv) :=
      match shabbosTimes cfg tz cal today with
      | Some (erevMincha, shabbosMincha, maariv) =>
          (formatTimeLocal erevMincha, formatTimeLocal shabbosMincha,
           formatTimeLocal maariv)
      | None => ("See local listing", "See local listing", "See local listing")
      end in
    (assign hasElement "erevShabbosMinchaTime" erev
     ++ assign hasElement "shabbosMinchaTime" day
     ++ assign hasElement "shabbosMaarivTime" maariv
     ++ assign hasElement "heroShabbosMincha" day
     ++ assign hasElement "heroShabbosMaariv" maariv)%list.
Proof.
  unfold updateShabbosTimes.
  destruct (shabbosTimes cfg tz cal today) as [[[e d] m] |]; cbv zeta;
    cbn [flat_map]; now rewrite ?app_nil_r.
Qed.

(** X6.  Whether it succeeds or falls back, [updateWeekdayMinchaMaariv]
    assigns once to each of its three elements that exist, in a fixed
    order, to nothing else, and the same text to all of them. *)
Theorem updateWeekdayMinchaMaariv_writes (cfg : Config) (tz : TimeZone)
        (hasElement : string -> bool) (formatTimeLocal : Z -> string)
        (cal today : Z) :
  let writes :=
    updateWeekdayMinchaMaariv cfg tz hasElement formatTimeLocal cal today in
  map fst writes = filter hasElement weekdayIds /\
  forall p q, In p writes -> In q writes -> snd p = snd q.
Proof.
  cbv zeta. rewrite updateWeekdayMinchaMaariv_unfold. cbv zeta.
  set (text := match weekdayMinchaTime cfg tz cal today with
               | Some t => formatTimeLocal t | None => _ end).
  split.
  - rewrite !map_app, !assign_fst. unfold weekdayIds. cbn [filter].
    destruct (hasElement "weekdayMinchaMaariv");
      destruct (hasElement "weekdayMinchaMaarivCard");
      destruct (hasElement "heroWeekdayMincha"); reflexivity.
  - assert (H : forall p,
               In p (assign hasElement "weekdayMinchaMaariv" text
                     ++ assign hasElement "weekdayMinchaMaarivCard" text
                     ++ assign hasElement "heroWeekdayMincha" text)%list ->
               snd p = text).
    { intros p Hp. rewrite !in_app_iff in Hp.
      destruct Hp as [Hp | [Hp | Hp]];
        exact (ScheduleClaims.assign_text _ _ _ _ Hp). }
    intros p q Hp Hq. now rewrite (H p Hp), (H q Hq).
Qed.

Lemma updateShabbosTimes_table (cfg : Config) (tz : TimeZone)
      (hasElement : string -> bool) (formatTimeLocal : Z -> string)
      (cal today : Z) :
  updateShabbosTimes cfg tz hasElement formatTimeLocal cal today
  = filter (fun w => hasElement (fst w))
      (match shabbosTimes cfg tz cal today with
       | Some (erevMincha, shabbosMincha, maariv) =>
           shabbosWrites (formatTimeLocal erevMincha)
             (formatTimeLocal shabbosMincha) (formatTimeLocal maariv)
       | None =>
           shabbosWrites "See local listing" "See local listing"
             "See local listing"
       end).
Proof.
  rewrite updateShabbosTimes_unfold.
  destruct (shabbosTimes cfg tz cal today) as [[[e d] m] |];
    unfold shabbosWrites, assign; cbn [filter fst];
    destruct (hasElement "erevShabbosMinchaTime");
    destruct (hasElement "shabbosMinchaTime");
    destruct (hasElement "shabbosMaarivTime");
    destruct (hasElement "heroShabbosMincha");
    destruct (hasElement "heroShabbosMaariv"); reflexivity.
Qed.

(** X7.  Whether it succeeds or falls back, [updateShabbosTimes] assigns
    once to each of its five elements that exist, in a fixed order, and to
    nothing else.  With a calibrated sunset of the selected Shabbos, the
    element of erev Shabbos gets the formatted time 15 minutes before it,
    [shabbosMinchaTime] and the hero Mincha the formatted time 45 minutes
    before it (the Shabbos day Mincha, not that of erev Shabbos), and
    [shabbosMaarivTime] and the hero Maariv the formatted time 50 minutes
    after it; without one, all five get the fallback text. *)
Theorem updateShabbosTimes_writes (cfg : Config) (tz : TimeZone)
        (hasElement : string -> bool) (formatTimeLocal : Z -> string)
        (cal today : Z) :
  let writes :=
    updateShabbosTimes cfg tz hasElement formatTimeLocal cal today in
  let sunset :=
    getSunsetWithCalibration cfg tz cal (getComingShabbos tz today) in
  map fst writes = filter hasElement shabbosIds /\
  (forall text text',
     In ("heroShabbosMincha", text) writes ->
     In ("shabbosMinchaTime", text') writes -> text = text') /\
  (forall text text',
     In ("heroShabbosMaariv", text) writes ->
     In ("shabbosMaarivTime", text') writes -> text = text') /\
  (forall s, sunset = Some s ->
     writes
     = filter (fun w => hasElement (fst w))
         [("erevShabbosMinchaTime", formatTimeLocal (s - 15 * msPerMinute));
          ("shabbosMinchaTime", formatTimeLocal (s - 45 * msPerMinute));
          ("shabbosMaarivTime", formatTimeLocal (s + 50 * msPerMinute));
          ("heroShabbosMincha", formatTimeLocal (s - 45 * msPerMinute));
          ("heroShabbosMaariv", formatTimeLocal (s + 50 * msPerMinute))]) /\
  (sunset = None ->
     writes
     = filter (fun w => hasElement (fst w))
         [("erevShabbosMinchaTime", "See local listing");
          ("shabbosMinchaTime", "See local listing");
          ("shabbosMaarivTime", "See local listing");
          ("heroShabbosMincha", "See local listing");
          ("heroShabbosMaariv", "See local listing")]).
Proof.
  cbv zeta. split; [| split; [| split; [| split]]].
  - rewrite updateShabbosTimes_unfold.
    destruct (match shabbosTimes cfg tz cal today with
              | Some (e, d, m) => _ | None => _ end) as [[erev day] maariv].
    rewrite !map_app, !assign_fst. unfold shabbosIds. cbn [filter].
    destruct (hasElement "erevShabbosMinchaTime");
      destruct (hasElement "shabbosMinchaTime");
      destruct (hasElement "shabbosMaarivTime");
      destruct (hasElement "heroShabbosMincha");
      destruct (hasElement "heroShabbosMaariv"); reflexivity.
  - rewrite updateShabbosTimes_table.
    set (table := match shabbosTimes cfg tz cal today with
                  | Some (e, d, m) => _ | None => _ end).
    assert (Ht : exists erev day maariv, table = shabbosWrites erev day maariv).
    { unfold table. destruct (shabbosTimes cfg tz cal today) as [[[e d] m] |];
        eexists _, _, _; reflexivity. }
    destruct Ht as [erev [day [maariv ->]]].
    intros text text' H1 H2.
    apply filter_In in H1 as [H1 _]. apply filter_In in H2 as [H2 _].
    unfold shabbosWrites in H1, H2. cbn [In] in H1, H2.
    assert (E1 : text = day)
      by (repeat (destruct H1 as [H1 | H1]; [inversion H1; try reflexivity |]);
          destruct H1).
    assert (E2 : text' = day)
      by (repeat (destruct H2 as [H2 | H2]; [inversion H2; try reflexivity |]);
          destruct H2).
    congruence.
  - rewrite updateShabbosTimes_table.
    set (table := match shabbosTimes cfg tz cal today with
                  | Some (e, d, m) => _ | None => _ end).
    assert (Ht : exists erev day maariv, table = shabbosWrites erev day maariv).
    { unfold table. destruct (shabbosTimes cfg tz cal today) as [[[e d] m] |];
        eexists _, _, _; reflexivity. }
    destruct Ht as [erev [day [maariv ->]]].
    intros text text' H1 H2.
    apply filter_In in H1 as [H1 _]. apply filter_In in H2 as [H2 _].
    unfold shabbosWrites in H1, H2. cbn [In] in H1, H2.
    assert (E1 : text = maariv)
      by (repeat (destruct H1 as [H1 | H1]; [inversion H1; try reflexivity |]);
          destruct H1).
    assert (E2 : text' = maariv)
      by (repeat (destruct H2 as [H2 | H2]; [inversion H2; try reflexivity |]);
          destruct H2).
    congruence.
  - intros s Es. rewrite updateShabbosTimes_table, shabbosTimes_unfold, Es.
    unfold shabbosWrites, msPerMinute.
    repeat (f_equal; try lia).
  - intros Es. rewrite updateShabbosTimes_table, shabbosTimes_unfold, Es.
    reflexivity.
Qed.

End WriteExtras.

(** ** Further properties of the engine *)

Module EngineExtras.
Import JSDate JSDateFacts JSNum DateParse Bmh ScheduleDates EngineFacts.
Import CalibrationFacts.
Local Open Scope R_scope.

Lemma rightAscension_unfold (L : R) :
  rightAscension L
  = (rem (rem (atan (0.91764 * tand L) * 180 / PI) 360 + 360) 360
     + (IZR (Math_floor (L / 90)) * 90
        - IZR (Math_floor
                 (rem (rem (atan (0.91764 * tand L) * 180 / PI) 360 + 360) 360
                  / 90)) * 90))
    / 15.0.
Proof. reflexivity. Qed.

Lemma trueLongitude_range (t : R) : 0 <= trueLongitude t < 360.
Proof. unfold trueLongitude. cbv zeta. apply rem_rem_range. lra. Qed.

(** X8.  The true longitude is normalised to [0, 360), and the right
    ascension is brought into the quadrant of the true longitude: it is in
    [0, 24) hours and, in degrees, has the same multiple of 90 below it as
    the longitude. *)
Theorem rightAscension_quadrant (t : R) :
  let L := trueLongitude t in
  let RA := rightAscension L in
  0 <= L < 360 /\
  0 <= RA < 24 /\
  Math_floor (RA * 15 / 90) = Math_floor (L / 90).
Proof.
  cbv zeta. pose proof (trueLongitude_range t) as HL.
  set (L := trueLongitude t) in *. split; [exact HL |].
  rewrite rightAscension_unfold.
  set (RA1 := rem (rem (atan (0.91764 * tand L) * 180 / PI) 360 + 360) 360).
  assert (H1 : 0 <= RA1 < 360) by (apply rem_rem_range; lra).
  unfold Math_floor.
  pose proof (Zfloor_bound (L / 90)) as HqL.
  pose proof (Zfloor_bound (RA1 / 90)) as HqR.
  assert (Hq : (0 <= Zfloor (L / 90) <= 3)%Z).
  { split; [apply (Zfloor_lub 0); simpl; lra |].
    apply Z.lt_succ_r. apply lt_IZR. simpl. lra. }
  assert (Hq' : 0 <= IZR (Zfloor (L / 90)) <= 3)
    by (split; [apply (IZR_le 0) | apply (IZR_le _ 3)]; lia).
  set (qL := IZR (Zfloor (L / 90))) in *.
  set (qR := IZR (Zfloor (RA1 / 90))) in *.
  split.
  - lra.
  - apply Zfloor_eq. fold qL. lra.
Qed.

Lemma sunsetInstant_unfold (year month day : Z) (UT : R) :
  sunsetInstant year month day UT
  = (DateUTC year month day 0 0 0
     + (Math_floor UT * 60
        + Math_round ((UT - IZR (Math_floor UT)) * 60)) * 60 * 1000)%Z.
Proof. reflexivity. Qed.

Lemma sunsetInstant_offset (year month day : Z) (UT : R) :
  0 <= UT < 24 ->
  let offset :=
    (sunsetInstant year month day UT - DateUTC year month day 0 0 0)%Z in
  (0 <= offset <= msPerDay)%Z /\
  (offset mod msPerMinute = 0)%Z /\
  Rabs (IZR offset - UT * 3600000) <= 30000.
Proof.
  intros HUT. cbv zeta. rewrite sunsetInstant_unfold. unfold Math_floor, Math_round.
  pose proof (Zfloor_bound UT) as Hh.
  pose proof (Zfloor_bound ((UT - IZR (Zfloor UT)) * 60 + 1 / 2)) as Hm.
  set (h := Zfloor UT) in *.
  set (m := Zfloor ((UT - IZR h) * 60 + 1 / 2)) in *.
  assert (Hh0 : (0 <= h <= 23)%Z).
  { split; [apply (Zfloor_lub 0); simpl; lra |].
    apply Z.lt_succ_r. apply lt_IZR. simpl. lra. }
  assert (Hm0 : (0 <= m <= 60)%Z).
  { split.
    - apply le_IZR. apply Rnot_lt_le. intros C.
      assert (IZR m <= -1) by (apply (IZR_le m (-1)); apply lt_IZR in C; lia).
      lra.
    - apply Z.lt_succ_r. apply lt_IZR. simpl. lra. }
  replace (DateUTC year month day 0 0 0 + (h * 60 + m) * 60 * 1000
           - DateUTC year month day 0 0 0)%Z
    with ((h * 60 + m) * 60000)%Z by lia.
  split; [unfold msPerDay; lia |].
  split; [unfold msPerMinute; apply Z.mod_mul; lia |].
  rewrite mult_IZR, plus_IZR, mult_IZR.
  apply Rabs_le. simpl. lra.
Qed.

(** X9.  A raw sunset is an instant of the UTC day that begins at UTC
    midnight of the local calendar date, that midnight and the next one
    included; it is a whole minute; and it is within 30 seconds of the UT
    value the engine returned. *)
Theorem raw_sunset_in_UTC_day (cfg : Config) (tz : TimeZone) (date : Z)
        (latDeg lngDeg zenithDeg : R) (instant : Z) :
  getNoaaSunsetDateRaw cfg tz date latDeg lngDeg zenithDeg = Some instant ->
  let baseUTC :=
    DateUTC (getFullYear tz date) (getMonth tz date) (getDate tz date) 0 0 0 in
  exists UT,
    noaaSunsetUT cfg tz (localMidnight tz date) latDeg lngDeg zenithDeg = Some UT /\
    (baseUTC <= instant <= baseUTC + msPerDay)%Z /\
    ((instant - baseUTC) mod msPerMinute = 0)%Z /\
    Rabs (IZR (instant - baseUTC) - UT * 3600000) <= 30000.
Proof.
  rewrite getNoaaSunsetDateRaw_eq.
  destruct (noaaSunsetUT cfg tz (localMidnight tz date) latDeg lngDeg zenithDeg)
    as [UT |] eqn:E; [| discriminate].
  intros Hi baseUTC. injection Hi as <-. exists UT. split; [reflexivity |].
  pose proof (noaaSunsetUT_range _ _ _ _ _ _ _ E) as HUT.
  pose proof (sunsetInstant_offset (getFullYear tz date) (getMonth tz date)
                (getDate tz date) UT HUT) as [H1 [H2 H3]].
  fold baseUTC in H1, H2, H3. split; [lia |]. split; assumption.
Qed.

(** At the site on 2025-12-06. *)
Lemma raw_sunset_in_UTC_day_witness :
  exists instant,
    getNoaaSunsetDateRaw bmh newYork2025 1765040400000
      (LAT bmh) (LNG bmh) (ZENITH_DEG bmh) = Some instant /\
    ((instant
      - DateUTC (getFullYear newYork2025 1765040400000)
          (getMonth newYork2025 1765040400000)
          (getDate newYork2025 1765040400000) 0 0 0) mod msPerMinute = 0)%Z.
Proof.
  destruct (bmh_sunset_computable newYork2025 1765040400000 (LAT bmh) (LNG bmh))
    as [instant E].
  exists instant. split; [exact E |].
  destruct (raw_sunset_in_UTC_day bmh newYork2025 1765040400000 _ _ _ instant E)
    as [UT [_ [_ [H _]]]].
  exact H.
Defined.

Lemma noaaSunsetUT_dayOfYear (cfg : Config) (tz tz' : TimeZone) (d d' : Z)
      (latDeg lngDeg zenithDeg : R) :
  dayOfYear tz d = dayOfYear tz' d' ->
  noaaSunsetUT cfg tz d latDeg lngDeg zenithDeg
  = noaaSunsetUT cfg tz' d' latDeg lngDeg zenithDeg.
Proof. unfold noaaSunsetUT. intros E. now rewrite E. Qed.

End EngineExtras.

(** ** Dates, the day of the year and the order of the week's sunsets *)

Module DateExtras.
Import JSDate JSDateFacts JSNum DateParse Bmh ScheduleDates EngineFacts.
Import CalibrationFacts CalendarDates EngineExtras ScheduleExtras WriteExtras.
Local Open Scope string_scope.
Local Open Scope Z_scope.

Lemma fullYear_id (y : Z) : ~ (0 <= y <= 99) -> fullYear y = y.
Proof.
  intros H. unfold fullYear.
  destruct (Z.leb_spec 0 y); destruct (Z.leb_spec y 99); cbn [andb]; lia.
Qed.

Lemma Day_MakeDate_midnight (D : Z) : Day (MakeDate D (MakeTime 0 0 0 0)) = D.
Proof. apply Day_MakeDate. unfold MakeTime, msPerDay. cbn. lia. Qed.

Lemma fields_of_Day (t t' : Z) :
  Day t = Day t' ->
  YearFromTime t = YearFromTime t' /\ MonthFromTime t = MonthFromTime t' /\
  DateFromTime t = DateFromTime t'.
Proof.
  intros E. unfold DateFromTime, MonthFromTime, InLeapYear, DayWithinYear,
    YearFromTime. now rewrite E.
Qed.

(** The fields of the day [MakeDay] returns for a date of the calendar. *)
Lemma MakeDay_valid (y m d : Z) :
  0 <= m <= 11 -> 1 <= d <= daysInMonth (isLeap y) m ->
  let t := MakeDate (MakeDay y m d) 0 in
  YearFromTime t = y /\ MonthFromTime t = m /\ DateFromTime t = d.
Proof.
  intros Hm Hd t.
  assert (HD : Day t = MakeDay y m d).
  { unfold t, MakeDate, Day, msPerDay. rewrite Z.add_0_r. now rewrite Z.div_mul. }
  assert (HM : MakeDay y m d = DayFromYear y + daysBeforeMonth (isLeap y) m + d - 1).
  { unfold MakeDay. now rewrite Z.div_small, Z.mod_small, Z.add_0_r by lia. }
  assert (Hrange : 0 <= daysBeforeMonth (isLeap y) m + d - 1 < DaysInYear y
                   /\ monthOfDayWithinYear (isLeap y)
                        (daysBeforeMonth (isLeap y) m + d - 1) = m).
  { unfold DaysInYear. revert Hd. generalize (isLeap y). intros l Hd.
    assert (Hc : m = 0 \/ m = 1 \/ m = 2 \/ m = 3 \/ m = 4 \/ m = 5 \/ m = 6
                 \/ m = 7 \/ m = 8 \/ m = 9 \/ m = 10 \/ m = 11) by lia.
    clear Hm HM HD t.
    destruct l;
      repeat (destruct Hc as [Hc | Hc]); subst m;
      cbv beta iota zeta delta
        [daysInMonth daysBeforeMonth Z.eqb Z.leb Z.compare Pos.compare
         Pos.compare_cont Pos.eqb orb] in Hd |- *;
      unfold monthOfDayWithinYear; cbv zeta;
      repeat match goal with
             | |- context [if ?a <? ?b then _ else _] => destruct (Z.ltb_spec a b)
             end; lia. }
  destruct Hrange as [Hr Hmo].
  assert (Hy : YearFromTime t = y).
  { unfold YearFromTime. rewrite HD, HM. apply YearFromDay_unique.
    rewrite DayFromYear_succ. lia. }
  assert (Hw : DayWithinYear t = daysBeforeMonth (isLeap y) m + d - 1).
  { unfold DayWithinYear. rewrite HD, Hy, HM. lia. }
  assert (Hmon : MonthFromTime t = m).
  { unfold MonthFromTime, InLeapYear. now rewrite Hw, Hy. }
  split; [exact Hy |]. split; [exact Hmon |].
  unfold DateFromTime, InLeapYear. rewrite Hmon, Hw, Hy. lia.
Qed.

(** X10.  In a zone whose transitions do not cross midnight,
    [toDateParts] reads back the date given to [new Date(year, month, day)],
    for every date of the calendar outside the years 0..99. *)
Theorem toDateParts_newDate (tz : TimeZone) (year month day : Z) :
  dayStable tz -> validDate year month day ->
  toDateParts tz (newDate tz year month day) = (year, month, day).
Proof.
  intros Hst [Hy [Hm Hd]].
  pose proof (MakeDay_valid year month day Hm Hd) as Hf. cbv zeta in Hf.
  assert (E : Day (LocalTime tz (newDate tz year month day))
              = Day (MakeDate (MakeDay year month day) 0)).
  { unfold newDate. rewrite Hst, (fullYear_id year Hy).
    rewrite Day_MakeDate_midnight. symmetry. apply Day_MakeDate.
    unfold msPerDay. lia. }
  apply fields_of_Day in E as [E1 [E2 E3]].
  unfold toDateParts, getFullYear, getMonth, getDate.
  rewrite E1, E2, E3. destruct Hf as [-> [-> ->]]. reflexivity.
Qed.

(** 2024-02-29 in New York. *)
Lemma toDateParts_newDate_witness :
  dayStable newYork2025 /\ validDate 2024 1 29 /\
  toDateParts newYork2025 (newDate newYork2025 2024 1 29) = (2024, 1, 29).
Proof.
  assert (Hv : validDate 2024 1 29) by (unfold validDate; cbn; lia).
  split; [exact newYork2025_dayStable |]. split; [exact Hv |].
  exact (toDateParts_newDate newYork2025 2024 1 29 newYork2025_dayStable Hv).
Defined.

Lemma toDateParts_localMidnight (tz : TimeZone) (d : Z) :
  dayStable tz -> ~ (0 <= getFullYear tz d <= 99) ->
  toDateParts tz (localMidnight tz d) = toDateParts tz d.
Proof.
  intros Hst Hy. apply toDateParts_localDay.
  change (localMidnight tz d)
    with (newDate tz (getFullYear tz d) (getMonth tz d) (getDate tz d)).
  unfold localDay, newDate. rewrite Hst, (fullYear_id _ Hy).
  rewrite Day_MakeDate_midnight.
  unfold getFullYear, getMonth, getDate.
  pose proof (MakeDay_fields (LocalTime tz d) 0) as H.
  rewrite Z.add_0_r in H. rewrite H. lia.
Qed.

Lemma dayOfYear_localMidnight_fixedZone (c d : Z) :
  ~ (0 <= getFullYear (fixedZone c) d <= 99) ->
  dayOfYear (fixedZone c) (localMidnight (fixedZone c) d)
  = ordinalDayOfYear (getFullYear (fixedZone c) d) (getMonth (fixedZone c) d)
      (getDate (fixedZone c) d).
Proof.
  intros Hy.
  pose proof (toDateParts_localMidnight (fixedZone c) d
                (fixedZone_dayStable c) Hy) as E.
  unfold toDateParts in E. injection E as E1 E2 E3.
  rewrite DayOfYearFacts.dayOfYear_fixedZone by (rewrite E1; exact Hy).
  now rewrite E1, E2, E3.
Qed.

Lemma sunsetInstant_offset_eq (y m d y' m' d' : Z) (UT : R) :
  sunsetInstant y m d UT - DateUTC y m d 0 0 0
  = sunsetInstant y' m' d' UT - DateUTC y' m' d' 0 0 0.
Proof. rewrite !sunsetInstant_unfold. lia. Qed.

(** X11.  In a host with a fixed UTC offset the sunset does not depend on
    the year: two dates with the same month and day, in years that are both
    leap or both common (and not 0..99), get the same UT value and raw
    sunsets at the same distance from their UTC midnights. *)
Theorem sunset_same_every_year (cfg : Config) (c d d' : Z)
        (latDeg lngDeg zenithDeg : R) :
  let tz := fixedZone c in
  let baseUTC x :=
    DateUTC (getFullYear tz x) (getMonth tz x) (getDate tz x) 0 0 0 in
  ~ (0 <= getFullYear tz d <= 99) -> ~ (0 <= getFullYear tz d' <= 99) ->
  isLeap (getFullYear tz d) = isLeap (getFullYear tz d') ->
  getMonth tz d = getMonth tz d' -> getDate tz d = getDate tz d' ->
  noaaSunsetUT cfg tz (localMidnight tz d) latDeg lngDeg zenithDeg
  = noaaSunsetUT cfg tz (localMidnight tz d') latDeg lngDeg zenithDeg /\
  option_map (fun instant => instant - baseUTC d)
    (getNoaaSunsetDateRaw cfg tz d latDeg lngDeg zenithDeg)
  = option_map (fun instant => instant - baseUTC d')
      (getNoaaSunsetDateRaw cfg tz d' latDeg lngDeg zenithDeg).
Proof.
  intros tz baseUTC Hy Hy' Hl Hm Hd.
  assert (E : noaaSunsetUT cfg tz (localMidnight tz d) latDeg lngDeg zenithDeg
              = noaaSunsetUT cfg tz (localMidnight tz d') latDeg lngDeg zenithDeg).
  { apply noaaSunsetUT_dayOfYear. unfold tz.
    rewrite !dayOfYear_localMidnight_fixedZone by assumption.
    unfold ordinalDayOfYear. fold tz. now rewrite Hl, Hm, Hd. }
  split; [exact E |].
  rewrite !getNoaaSunsetDateRaw_eq, E.
  destruct (noaaSunsetUT cfg tz (localMidnight tz d') latDeg lngDeg zenithDeg)
    as [UT |]; [| reflexivity].
  cbn [option_map]. f_equal. unfold baseUTC. apply sunsetInstant_offset_eq.
Qed.

(** 2025-12-06 and 2026-12-06 in a host five hours behind UTC. *)
Lemma sunset_same_every_year_witness :
  noaaSunsetUT bmh (fixedZone (-18000000))
    (localMidnight (fixedZone (-18000000)) 1765040400000)
    (LAT bmh) (LNG bmh) (ZENITH_DEG bmh)
  = noaaSunsetUT bmh (fixedZone (-18000000))
      (localMidnight (fixedZone (-18000000)) 1796576400000)
      (LAT bmh) (LNG bmh) (ZENITH_DEG bmh).
Proof.
  refine (proj1 (sunset_same_every_year bmh (-18000000) 1765040400000
                   1796576400000 (LAT bmh) (LNG bmh) (ZENITH_DEG bmh)
                   _ _ eq_refl eq_refl eq_refl));
    vm_compute; intros [_ H]; apply H; reflexivity.
Defined.

(** X12.  In New York, for every date of 2025, [dayOfYear] of the local
    midnight that [getNoaaSunsetDateRaw] builds is the ordinal day of the
    date while that midnight is in winter time, and one less from March 10
    to November 2, while it is in summer time. *)
Theorem dayOfYear_newYork2025 (month day : Z) :
  validDate 2025 month day ->
  let ordinal := ordinalDayOfYear 2025 month day in
  1 <= ordinal <= 365 /\
  dayOfYear newYork2025 (newDate newYork2025 2025 month day)
  = ordinal - (if summerMidnight2025 ordinal then 1 else 0).
Proof.
  intros [_ [Hm Hd]] ordinal.
  assert (HM : MakeDay 2025 month day = 20088 + ordinal).
  { unfold MakeDay, ordinal, ordinalDayOfYear.
    rewrite Z.div_small, Z.mod_small, Z.add_0_r by lia.
    change (DayFromYear 2025) with 20089. lia. }
  assert (Ho : 1 <= ordinal <= 365).
  { change (isLeap 2025) with false in Hd.
    unfold ordinal, ordinalDayOfYear. change (isLeap 2025) with false.
    assert (Hc : month = 0 \/ month = 1 \/ month = 2 \/ month = 3 \/ month = 4
                 \/ month = 5 \/ month = 6 \/ month = 7 \/ month = 8
                 \/ month = 9 \/ month = 10 \/ month = 11) by lia.
    clear HM Hm.
    repeat (destruct Hc as [Hc | Hc]); subst month;
      cbv beta iota zeta delta
        [daysInMonth daysBeforeMonth Z.eqb Z.leb Z.compare Pos.compare
         Pos.compare_cont Pos.eqb orb] in Hd |- *; lia. }
  split; [exact Ho |].
  set (date := newDate newYork2025 2025 month day).
  assert (Edate : date = UTC newYork2025 (MakeDate (20088 + ordinal) 0)).
  { unfold date, newDate. change (fullYear 2025) with 2025. now rewrite HM. }
  assert (Hy : getFullYear newYork2025 date = 2025).
  { unfold getFullYear, YearFromTime. rewrite Edate, newYork2025_dayStable.
    rewrite Day_MakeDate by (unfold msPerDay; lia).
    apply YearFromDay_unique. change (DayFromYear 2025) with 20089.
    change (DayFromYear (2025 + 1)) with 20454. lia. }
  unfold dayOfYear. cbv zeta. rewrite Hy.
  replace (newDate newYork2025 2025 0 0) with 1735621200000
    by (vm_compute; reflexivity).
  change (1000 * 60 * 60 * 24) with 86400000.
  rewrite Edate. unfold UTC, MakeDate, summerMidnight2025, msPerDay.
  cbn [offsetAtLocal newYork2025]. unfold msPerHour.
  destruct (Z.leb_spec 69 ordinal); destruct (Z.leb_spec ordinal 306);
    destruct (Z.leb_spec 1741489200000 ((20088 + ordinal) * 86400000 + 0));
    destruct (Z.ltb_spec ((20088 + ordinal) * 86400000 + 0) 1762048800000);
    cbn [andb]; zdiv.
Qed.

(** 2025-07-01, the 182nd day, gets 181; 2025-12-06, the 340th, gets 340. *)
Lemma dayOfYear_newYork2025_witness :
  validDate 2025 6 1 /\ validDate 2025 11 6 /\
  dayOfYear newYork2025 (newDate newYork2025 2025 6 1) = 181 /\
  dayOfYear newYork2025 (newDate newYork2025 2025 11 6) = 340.
Proof.
  assert (H1 : validDate 2025 6 1) by (unfold validDate; cbn; lia).
  assert (H2 : validDate 2025 11 6) by (unfold validDate; cbn; lia).
  split; [exact H1 |]. split; [exact H2 |]. split.
  - exact (proj2 (dayOfYear_newYork2025 6 1 H1)).
  - exact (proj2 (dayOfYear_newYork2025 11 6 H2)).
Defined.

End DateExtras.

(** ** The order of the week's sunsets *)

Module WeekOrderExtras.
Import JSDate JSDateFacts JSNum DateParse Bmh ScheduleDates EngineFacts.
Import CalibrationFacts CalendarDates EngineExtras ScheduleExtras WriteExtras.
Import DateExtras.
Local Open Scope string_scope.
Local Open Scope Z_scope.

Lemma year_from_100 (tz : TimeZone) (d : Z) :
  DayFromYear 100 <= localDay tz d -> ~ (0 <= getFullYear tz d <= 99).
Proof.
  intros H [_ Hy]. unfold getFullYear, YearFromTime in Hy.
  fold (localDay tz d) in Hy.
  pose proof (YearFromDay_spec (localDay tz d)) as [_ Hs].
  pose proof (DayFromYear_mono (YearFromDay (localDay tz d) + 1) 100
                ltac:(lia)).
  lia.
Qed.

Lemma baseUTC_localDay (tz : TimeZone) (d : Z) :
  ~ (0 <= getFullYear tz d <= 99) ->
  DateUTC (getFullYear tz d) (getMonth tz d) (getDate tz d) 0 0 0
  = localDay tz d * msPerDay.
Proof.
  intros Hy. unfold DateUTC. rewrite (fullYear_id _ Hy).
  unfold getFullYear, getMonth, getDate.
  pose proof (MakeDay_fields (LocalTime tz d) 0) as H.
  rewrite Z.add_0_r in H. rewrite H. unfold MakeDate, MakeTime, localDay. lia.
Qed.

Lemma raw_sunset_bounds (cfg : Config) (tz : TimeZone) (d : Z)
      (latDeg lngDeg zenithDeg : R) (instant : Z) :
  ~ (0 <= getFullYear tz d <= 99) ->
  getNoaaSunsetDateRaw cfg tz d latDeg lngDeg zenithDeg = Some instant ->
  localDay tz d * msPerDay <= instant <= (localDay tz d + 1) * msPerDay.
Proof.
  intros Hy. rewrite getNoaaSunsetDateRaw_eq.
  destruct (noaaSunsetUT cfg tz (localMidnight tz d) latDeg lngDeg zenithDeg)
    as [UT |] eqn:E; [| discriminate].
  intros Hi. injection Hi as <-.
  pose proof (noaaSunsetUT_range _ _ _ _ _ _ _ E) as HUT.
  pose proof (sunsetInstant_offset (getFullYear tz d) (getMonth tz d)
                (getDate tz d) UT HUT) as [H1 _].
  rewrite (baseUTC_localDay tz d Hy) in H1. lia.
Qed.

Lemma getSunsetWithCalibration_raw (cfg : Config) (tz : TimeZone) (cal : Z) :
  exists k, forall d,
    getSunsetWithCalibration cfg tz cal d
    = option_map (fun raw => raw + k)
        (getNoaaSunsetDateRaw cfg tz d (LAT cfg) (LNG cfg) (ZENITH_DEG cfg)).
Proof.
  exists (if negb (CALIBRATION_ENABLED cfg) || (cal =? 0) then 0 else cal).
  intros d. unfold getSunsetWithCalibration.
  destruct (getNoaaSunsetDateRaw cfg tz d _ _ _) as [raw |]; [| reflexivity].
  destruct (negb (CALIBRATION_ENABLED cfg) || (cal =? 0)); cbn [option_map];
    [now rewrite Z.add_0_r | reflexivity].
Qed.

Lemma flat_map_sorted (f : Z -> option Z) (l : list Z) :
  StronglySorted Z.lt l ->
  (forall i j a b, In i l -> In j l -> i < j ->
                   f i = Some a -> f j = Some b -> a <= b) ->
  StronglySorted Z.le
    (flat_map (fun i => match f i with Some s => [s] | None => [] end) l).
Proof.
  induction l as [| i l IH]; intros Hs Hf; [constructor |].
  apply StronglySorted_inv in Hs as [Hs Hi].
  cbn [flat_map].
  assert (IH' : StronglySorted Z.le
                  (flat_map (fun i => match f i with Some s => [s] | None => [] end) l)).
  { apply IH; [exact Hs |]. intros i' j a b Hi' Hj. apply Hf; now right. }
  destruct (f i) as [a |] eqn:Ea; [| exact IH'].
  cbn [app]. constructor; [exact IH' |].
  apply Forall_forall. intros b Hb. apply in_flat_map in Hb as [j [Hj Hb]].
  destruct (f j) as [b' |] eqn:Eb; [| destruct Hb].
  destruct Hb as [<- | []].
  rewrite Forall_forall in Hi.
  apply (Hf i j a b'); [now left | now right | now apply Hi | exact Ea | exact Eb].
Qed.

Lemma earliestOf_least (first : Z) (l : list Z) :
  Forall (Z.le first) l -> earliestOf first l = first.
Proof.
  unfold earliestOf. induction 1 as [| a l Ha _ IH]; [reflexivity |].
  cbn [fold_left]. destruct (Z.ltb_spec a first); [lia | exact IH].
Qed.

Lemma weekdaySunsets_sorted (cfg : Config) (tz : TimeZone) (cal today : Z) :
  dayStable tz ->
  DayFromYear 100 + 6 <= localDay tz today ->
  StronglySorted Z.le (weekdaySunsets cfg tz cal today).
Proof.
  intros Hst Hy. rewrite weekdaySunsets_unfold.
  apply (flat_map_sorted
           (fun i => getSunsetWithCalibration cfg tz cal
                       (weekdayDate tz (getSundayOfWeek tz today) i))).
  - repeat (constructor; [| repeat constructor; lia]). constructor.
  - intros i j a b Hi Hj Hij Ea Eb.
    assert (Hi' : 0 <= i <= 4) by (cbn in Hi; lia).
    assert (Hj' : 0 <= j <= 4) by (cbn in Hj; lia).
    destruct (getSunsetWithCalibration_raw cfg tz cal) as [k Hk].
    rewrite Hk in Ea, Eb.
    pose proof (WeekDay_range (LocalTime tz today)) as Hw.
    fold (getDay tz today) in Hw.
    pose proof (localDay_weekdayDate tz Hst today i) as Di.
    pose proof (localDay_weekdayDate tz Hst today j) as Dj.
    set (di := weekdayDate tz (getSundayOfWeek tz today) i) in *.
    set (dj := weekdayDate tz (getSundayOfWeek tz today) j) in *.
    destruct (getNoaaSunsetDateRaw cfg tz di _ _ _) as [ri |] eqn:Eri;
      [| discriminate].
    destruct (getNoaaSunsetDateRaw cfg tz dj _ _ _) as [rj |] eqn:Erj;
      [| discriminate].
    cbn [option_map] in Ea, Eb.
    assert (Ha : a = ri + k) by congruence.
    assert (Hb : b = rj + k) by congruence.
    pose proof (raw_sunset_bounds cfg tz di _ _ _ ri
                  (year_from_100 tz di ltac:(lia)) Eri) as Bi.
    pose proof (raw_sunset_bounds cfg tz dj _ _ _ rj
                  (year_from_100 tz dj ltac:(lia)) Erj) as Bj.
    unfold msPerDay in *. nia.
Qed.

Lemma weekdayMinchaTime_head (cfg : Config) (tz : TimeZone) (cal today : Z) :
  StronglySorted Z.le (weekdaySunsets cfg tz cal today) ->
  weekdayMinchaTime cfg tz cal today
  = option_map (fun s => s - 15 * msPerMinute)
      (hd_error (weekdaySunsets cfg tz cal today)).
Proof.
  intros Hsorted. rewrite weekdayMinchaTime_unfold.
  destruct (weekdaySunsets cfg tz cal today) as [| s0 l]; [reflexivity |].
  cbn [hd_error option_map].
  apply StronglySorted_inv in Hsorted as [_ Hall].
  change (earliestOf s0 (s0 :: l))
    with (earliestOf (if s0 <? s0 then s0 else s0) l).
  rewrite Z.ltb_irrefl, (earliestOf_least s0 l Hall).
  unfold msPerMinute. f_equal.
Qed.

Lemma weekdayMinchaTime_sunday (cfg : Config) (tz : TimeZone)
      (cal today sunset : Z) :
  dayStable tz ->
  DayFromYear 100 + 6 <= localDay tz today ->
  getSunsetWithCalibration cfg tz cal
    (weekdayDate tz (getSundayOfWeek tz today) 0) = Some sunset ->
  weekdayMinchaTime cfg tz cal today = Some (sunset - 15 * msPerMinute).
Proof.
  intros Hst Hy Es.
  rewrite (weekdayMinchaTime_head cfg tz cal today
             (weekdaySunsets_sorted cfg tz cal today Hst Hy)).
  rewrite weekdaySunsets_unfold. cbn [flat_map]. rewrite Es. reflexivity.
Qed.

(** X13.  The sunsets of the weekday loop are instants of five successive
    days, so they come in increasing order and the earliest is always the
    first one computed: the weekday time is the sunset of Sunday minus 15
    minutes whenever Sunday has one, whatever the later days give.  (In a
    zone whose transitions do not cross midnight, from the year 100 on.) *)
Theorem weekday_time_is_first_sunset (cfg : Config) (tz : TimeZone)
        (cal today : Z) :
  dayStable tz ->
  DayFromYear 100 + 6 <= localDay tz today ->
  let sunsets := weekdaySunsets cfg tz cal today in
  StronglySorted Z.le sunsets /\
  weekdayMinchaTime cfg tz cal today
  = option_map (fun s => s - 15 * msPerMinute) (hd_error sunsets) /\
  (forall sunset,
     getSunsetWithCalibration cfg tz cal
       (weekdayDate tz (getSundayOfWeek tz today) 0) = Some sunset ->
     weekdayMinchaTime cfg tz cal today = Some (sunset - 15 * msPerMinute)).
Proof.
  intros Hst Hy sunsets.
  pose proof (weekdaySunsets_sorted cfg tz cal today Hst Hy) as Hsorted.
  split; [exact Hsorted |]. split.
  - exact (weekdayMinchaTime_head cfg tz cal today Hsorted).
  - intros sunset. exact (weekdayMinchaTime_sunday cfg tz cal today sunset Hst Hy).
Qed.

(** Friday 2025-12-05 in New York. *)
Lemma weekday_time_is_first_sunset_witness :
  dayStable newYork2025 /\
  DayFromYear 100 + 6 <= localDay newYork2025 1764979200000 /\
  weekdayMinchaTime bmh newYork2025 0 1764979200000
  = option_map (fun s => s - 15 * msPerMinute)
      (hd_error (weekdaySunsets bmh newYork2025 0 1764979200000)).
Proof.
  assert (Hy : DayFromYear 100 + 6 <= localDay newYork2025 1764979200000)
    by (vm_compute; discriminate).
  split; [exact newYork2025_dayStable |]. split; [exact Hy |].
  exact (proj1 (proj2 (weekday_time_is_first_sunset bmh newYork2025 0
                         1764979200000 newYork2025_dayStable Hy))).
Defined.

(** X14.  With the constants of the script the sun sets on every day, so
    neither schedule ever fails: both give their instants, and every text
    the two updates assign is a formatted time, never the fallback. *)
Theorem bmh_schedules_never_fall_back (tz : TimeZone)
        (hasElement : string -> bool) (formatTimeLocal : Z -> string)
        (cal today : Z) :
  exists mincha erev day maariv,
    weekdayMinchaTime bmh tz cal today = Some mincha /\
    shabbosTimes bmh tz cal today = Some (erev, day, maariv) /\
    (forall p,
       In p (updateWeekdayMinchaMaariv bmh tz hasElement formatTimeLocal cal today) ->
       snd p = formatTimeLocal mincha) /\
    (forall p,
       In p (updateShabbosTimes bmh tz hasElement formatTimeLocal cal today) ->
       snd p = formatTimeLocal erev \/ snd p = formatTimeLocal day \/
       snd p = formatTimeLocal maariv).
Proof.
  assert (Hsome : forall d, exists s,
             getSunsetWithCalibration bmh tz cal d = Some s).
  { intros d. destruct (bmh_sunset_computable tz d (LAT bmh) (LNG bmh))
      as [raw E].
    exists (raw + cal). now apply getSunsetWithCalibration_add. }
  assert (Hw : exists mincha, weekdayMinchaTime bmh tz cal today = Some mincha).
  { rewrite weekdayMinchaTime_unfold.
    destruct (weekdaySunsets bmh tz cal today) as [| s0 l] eqn:El;
      [| eexists; reflexivity].
    exfalso. rewrite weekdaySunsets_unfold in El. cbn [flat_map] in El.
    destruct (Hsome (weekdayDate tz (getSundayOfWeek tz today) 0)) as [s Es].
    rewrite Es in El. discriminate. }
  destruct Hw as [mincha Hw].
  destruct (Hsome (getComingShabbos tz today)) as [s Es].
  assert (Hs : shabbosTimes bmh tz cal today
               = Some (s - 15 * 60 * 1000, s - 45 * 60 * 1000, s + 50 * 60 * 1000))
    by (rewrite shabbosTimes_unfold; now rewrite Es).
  exists mincha, (s - 15 * 60 * 1000), (s - 45 * 60 * 1000), (s + 50 * 60 * 1000).
  split; [exact Hw |]. split; [exact Hs |]. split.
  - intros p. rewrite updateWeekdayMinchaMaariv_unfold, Hw. cbv zeta.
    rewrite !in_app_iff. intros [H | [H | H]];
      exact (ScheduleClaims.assign_text _ _ _ _ H).
  - intros p. rewrite updateShabbosTimes_unfold, Hs.
    rewrite !in_app_iff. intros [H | [H | [H | [H | H]]]];
      apply ScheduleClaims.assign_text in H; auto.
Qed.

End WeekOrderExtras.

(** ** The reading of the week and the load handler *)

Module PageExtras.
Import JSDate Bmh Page.
Local Open Scope string_scope.
Local Open Scope Z_scope.

Lemma isParashat_true (item : JSON) :
  isParashat item = Normal true ->
  exists members,
    item = JObject members /\
    getOwn "category" members = Some (JString "parashat").
Proof.
  unfold isParashat, getProperty.
  destruct item as [| b | x | s | l | members]; try discriminate.
  destruct (getOwn "category" members) as [[| b | x | s | l | m] |] eqn:E;
    try discriminate.
  intros H. injection H as H. apply String.eqb_eq in H. subst s.
  now exists members.
Qed.

Lemma isParashat_object (members : list (string * JSON)) :
  getOwn "category" members = Some (JString "parashat") ->
  isParashat (JObject members) = Normal true.
Proof. intros H. unfold isParashat, getProperty. now rewrite H. Qed.

Lemma findParashat_found (items : list JSON) (item : JSON) :
  findParashat items = Normal (Some item) ->
  In item items /\ isParashat item = Normal true.
Proof.
  induction items as [| i items IH]; [discriminate |].
  cbn [findParashat].
  destruct (isParashat i) as [[|] |] eqn:E; [| | discriminate].
  - intros H. injection H as <-. split; [now left | exact E].
  - intros H. destruct (IH H) as [Hin Hp]. split; [now right | exact Hp].
Qed.

Lemma findParashat_first (before after : list JSON) (item : JSON) :
  Forall (fun i => isParashat i = Normal false) before ->
  findParashat (before ++ item :: after)
  = match isParashat item with
    | Throw => Throw
    | Normal true => Normal (Some item)
    | Normal false => findParashat after
    end.
Proof.
  induction 1 as [| i before Hi _ IH]; [reflexivity |].
  cbn [app findParashat]. now rewrite Hi.
Qed.

Lemma truthy_dash : truthy dash = true.
Proof. reflexivity. Qed.

Lemma truthy_jsOr_dash (v : Value) : truthy (jsOr v dash) = true.
Proof. unfold jsOr. destruct (truthy v) eqn:E; [exact E | reflexivity]. Qed.

Lemma setTextContent_normal (v w : Value) :
  setTextContent v = Normal w -> w = v /\ stringableValue v = true.
Proof.
  unfold setTextContent. destruct (stringableValue v); [| discriminate].
  intros H. injection H as <-. now split.
Qed.

(** The value [parshaOfData] leaves, when it completes: the dash, or the
    [hebrew] or [title] of an object of the array with category
    [parashat]; it is truthy and has a string. *)
Lemma parshaOfData_normal (data : JSON) (v : Value) :
  parshaOfData data = Normal v ->
  truthy v = true /\ stringableValue v = true /\
  (v = dash \/
   exists members items item,
     data = JObject members /\
     getOwn "items" members = Some (JArray items) /\
     In (JObject item) items /\
     getOwn "category" item = Some (JString "parashat") /\
     (v = getOwn "hebrew" item \/
      truthy (getOwn "hebrew" item) = false /\ v = getOwn "title" item)).
Proof.
  unfold parshaOfData.
  destruct (getProperty data "items") as [[[| b | x | s | items | m] |] |] eqn:Ei;
    try discriminate.
  destruct (findParashat items) as [[item |] |] eqn:Ef; try discriminate.
  2:{ cbn [truthy]. intros H. apply setTextContent_normal in H as [-> Hs].
      split; [reflexivity |]. split; [exact Hs | now left]. }
  destruct (findParashat_found items item Ef) as [Hin Hp].
  destruct (isParashat_true item Hp) as [im [-> Hc]].
  cbn [truthy getProperty].
  assert (Hd : exists members, data = JObject members /\
                               getOwn "items" members = Some (JArray items)).
  { destruct data as [| b | x | s | l | members]; cbn in Ei; try discriminate.
    exists members. split; [reflexivity | congruence]. }
  destruct Hd as [members [-> Hitems]].
  destruct (truthy (getOwn "hebrew" im)) eqn:Eh.
  - intros H. apply setTextContent_normal in H as [-> Hs].
    repeat split; [exact Eh | exact Hs |].
    right. exists members, items, im. repeat split; auto.
  - intros H. apply setTextContent_normal in H as [-> Hs].
    repeat split; [apply truthy_jsOr_dash | exact Hs |].
    unfold jsOr in *. destruct (truthy (getOwn "title" im)) eqn:Et;
      [| now left].
    right. exists members, items, im. repeat split; auto.
Qed.

Lemma responseOk_range (status : Z) :
  responseOk status = true <-> 200 <= status <= 299.
Proof. unfold responseOk. rewrite andb_true_iff, !Z.leb_le. tauto. Qed.

(** X15.  Whatever [fetch] settles to, [updateParsha] either finds no
    element, and then makes no request and assigns nothing, or makes its
    one request and leaves the element with a value that is truthy (never
    the empty string, [null] or [undefined]) and has a string. *)
Theorem updateParsha_leaves_a_text (hasElement : string -> bool)
        (fetch : string -> FetchOutcome) :
  match updateParsha hasElement fetch with
  | (requests, Some v) =>
      hasElement "parshaName" = true /\ requests = [parshaUrl] /\
      truthy v = true /\ stringableValue v = true
  | (requests, None) =>
      hasElement "parshaName" = false /\ requests = []
  end.
Proof.
  unfold updateParsha. destruct (hasElement "parshaName"); cbn [negb];
    [| now split].
  cbv zeta. repeat split.
  - destruct (fetch parshaUrl) as [| status body]; [reflexivity |].
    destruct (negb (responseOk status)); [reflexivity |].
    destruct body as [data |]; [| reflexivity].
    destruct (parshaOfData data) as [v |] eqn:E; [| reflexivity].
    exact (proj1 (parshaOfData_normal data v E)).
  - destruct (fetch parshaUrl) as [| status body]; [reflexivity |].
    destruct (negb (responseOk status)); [reflexivity |].
    destruct body as [data |]; [| reflexivity].
    destruct (parshaOfData data) as [v |] eqn:E; [| reflexivity].
    exact (proj1 (proj2 (parshaOfData_normal data v E))).
Qed.

(** X16.  Anything but the dash is shown only when the response has a
    status from 200 to 299 and a body that is an object whose [items] is an
    array holding an object of category [parashat]; what is shown is then
    the [hebrew] of that object, or its [title] when the [hebrew] is
    falsy. *)
Theorem updateParsha_dash_unless_found (hasElement : string -> bool)
        (fetch : string -> FetchOutcome) (v : Value) :
  snd (updateParsha hasElement fetch) = Some v ->
  v <> dash ->
  exists status members items item,
    fetch parshaUrl = FetchResponse status (Some (JObject members)) /\
    200 <= status <= 299 /\
    getOwn "items" members = Some (JArray items) /\
    In (JObject item) items /\
    getOwn "category" item = Some (JString "parashat") /\
    (v = getOwn "hebrew" item \/
     truthy (getOwn "hebrew" item) = false /\ v = getOwn "title" item).
Proof.
  unfold updateParsha. destruct (hasElement "parshaName"); cbn [negb];
    [| discriminate].
  cbv zeta. cbn [snd]. intros H Hv. injection H as H.
  destruct (fetch parshaUrl) as [| status body] eqn:Ef; [now subst v |].
  destruct (responseOk status) eqn:Eok; cbn [negb] in H; [| now subst v].
  destruct body as [data |]; [| now subst v].
  destruct (parshaOfData data) as [w |] eqn:E; [| now subst v].
  subst w.
  destruct (parshaOfData_normal data v E) as [_ [_ [Hd | Hfound]]];
    [contradiction |].
  destruct Hfound as [members [items [item [-> [Hi [Hin [Hc Hsel]]]]]]].
  exists status, members, items, item.
  repeat split; try assumption; now apply responseOk_range.
Qed.

Lemma updateParsha_dash_unless_found_witness :
  exists status members items item,
    FetchResponse 200 (Some sampleBody)
    = FetchResponse status (Some (JObject members)) /\
    200 <= status <= 299 /\
    getOwn "items" members = Some (JArray items) /\
    In (JObject item) items /\
    getOwn "category" item = Some (JString "parashat") /\
    (Some (JString "Parashat Vayishlach") = getOwn "hebrew" item \/
     truthy (getOwn "hebrew" item) = false /\
     Some (JString "Parashat Vayishlach") = getOwn "title" item).
Proof.
  apply (updateParsha_dash_unless_found
           (fun _ => true) (fun _ => FetchResponse 200 (Some sampleBody))
           (Some (JString "Parashat Vayishlach"))).
  - reflexivity.
  - discriminate.
Defined.

(** X17.  The first item of category [parashat] decides, whatever follows
    it: the element is left with its [hebrew] if truthy, else its [title]
    if truthy, else the dash, and with the dash when that value has no
    string. *)
Theorem updateParsha_first_match (hasElement : string -> bool)
        (fetch : string -> FetchOutcome) (status : Z)
        (members item : list (string * JSON)) (before after : list JSON) :
  hasElement "parshaName" = true ->
  fetch parshaUrl = FetchResponse status (Some (JObject members)) ->
  200 <= status <= 299 ->
  getOwn "items" members = Some (JArray (before ++ JObject item :: after)) ->
  Forall (fun i => isParashat i = Normal false) before ->
  getOwn "category" item = Some (JString "parashat") ->
  let chosen := jsOr (getOwn "hebrew" item) (jsOr (getOwn "title" item) dash) in
  updateParsha hasElement fetch
  = ([parshaUrl], Some (if stringableValue chosen then chosen else dash)).
Proof.
  intros He Hf Hs Hi Hb Hc chosen.
  unfold updateParsha. rewrite He, Hf. cbn [negb]. cbv zeta.
  apply responseOk_range in Hs. rewrite Hs. cbn [negb].
  unfold parshaOfData. cbn [getProperty]. rewrite Hi.
  rewrite (findParashat_first before after (JObject item) Hb).
  rewrite (isParashat_object item Hc). cbn [truthy getProperty].
  subst chosen. unfold setTextContent.
  set (other := jsOr (getOwn "title" item) dash).
  unfold jsOr.
  destruct (truthy (getOwn "hebrew" item)).
  - now destruct (stringableValue (getOwn "hebrew" item)).
  - now destruct (stringableValue other).
Qed.

Lemma updateParsha_first_match_witness :
  updateParsha (fun _ => true) (fun _ => FetchResponse 200 (Some sampleBody))
  = ([parshaUrl], Some (Some (JString "Parashat Vayishlach"))).
Proof.
  apply (updateParsha_first_match
           (fun _ => true) (fun _ => FetchResponse 200 (Some sampleBody)) 200
           [("title", JString "Hebcal");
            ("items",
             JArray
               [JObject [("title", JString "Candle lighting: 4:10pm");
                         ("category", JString "candles")];
                JObject [("title", JString "Parashat Vayishlach");
                         ("category", JString "parashat")];
                JObject [("title", JString "Havdalah (50 min): 5:17pm");
                         ("category", JString "havdalah")]])]
           [("title", JString "Parashat Vayishlach");
            ("category", JString "parashat")]
           [JObject [("title", JString "Candle lighting: 4:10pm");
                     ("category", JString "candles")]]
           [JObject [("title", JString "Havdalah (50 min): 5:17pm");
                     ("category", JString "havdalah")]]).
  - reflexivity.
  - reflexivity.
  - lia.
  - reflexivity.
  - repeat constructor.
  - reflexivity.
Defined.

(** X18.  A [null] among the items stops the search: when it comes before
    any item of category [parashat], the element is left with the dash even
    if the reading follows. *)
Theorem updateParsha_null_item (hasElement : string -> bool)
        (fetch : string -> FetchOutcome) (status : Z)
        (members : list (string * JSON)) (before after : list JSON) :
  hasElement "parshaName" = true ->
  fetch parshaUrl = FetchResponse status (Some (JObject members)) ->
  getOwn "items" members = Some (JArray (before ++ JNull :: after)) ->
  Forall (fun i => isParashat i = Normal false) before ->
  updateParsha hasElement fetch = ([parshaUrl], Some dash).
Proof.
  intros He Hf Hi Hb.
  unfold updateParsha. rewrite He, Hf. cbn [negb]. cbv zeta.
  destruct (negb (responseOk status)); [reflexivity |].
  unfold parshaOfData. cbn [getProperty]. rewrite Hi.
  now rewrite (findParashat_first before after JNull Hb).
Qed.

Lemma updateParsha_null_item_witness :
  updateParsha (fun _ => true)
    (fun _ => FetchResponse 200
                (Some (JObject
                         [("items",
                           JArray [JNull;
                                   JObject [("category", JString "parashat");
                                            ("hebrew", JString "Vayishlach")]])])))
  = ([parshaUrl], Some dash).
Proof.
  apply (updateParsha_null_item (fun _ => true) _ 200
           [("items",
             JArray [JNull;
                     JObject [("category", JString "parashat");
                              ("hebrew", JString "Vayishlach")]])]
           []
           [JObject [("category", JString "parashat");
                     ("hebrew", JString "Vayishlach")]]).
  - reflexivity.
  - reflexivity.
  - reflexivity.
  - constructor.
Defined.

Lemma weekday_ids (cfg : Config) (tz : TimeZone) (hasElement : string -> bool)
      (formatTimeLocal : Z -> string) (cal today : Z) :
  map fst (updateWeekdayMinchaMaariv cfg tz hasElement formatTimeLocal cal today)
  = filter hasElement weekdayIds.
Proof.
  unfold updateWeekdayMinchaMaariv, weekdayIds, assign.
  destruct (weekdayMinchaTime cfg tz cal today); cbv zeta;
    cbn [flat_map filter];
    destruct (hasElement "weekdayMinchaMaariv");
    destruct (hasElement "weekdayMinchaMaarivCard");
    destruct (hasElement "heroWeekdayMincha"); reflexivity.
Qed.

Lemma shabbos_ids (cfg : Config) (tz : TimeZone) (hasElement : string -> bool)
      (formatTimeLocal : Z -> string) (cal today : Z) :
  map fst (updateShabbosTimes cfg tz hasElement formatTimeLocal cal today)
  = filter hasElement shabbosIds.
Proof.
  unfold updateShabbosTimes, shabbosIds, assign.
  destruct (shabbosTimes cfg tz cal today) as [[[e d] m] |]; cbv zeta;
    cbn [flat_map filter];
    destruct (hasElement "erevShabbosMinchaTime");
    destruct (hasElement "shabbosMinchaTime");
    destruct (hasElement "shabbosMaarivTime");
    destruct (hasElement "heroShabbosMincha");
    destruct (hasElement "heroShabbosMaariv"); reflexivity.
Qed.

(** X19.  The load handler assigns once to each of the ten elements of
    the page that exist, in the order year, weekday, Shabbos, reading, and
    to nothing else; it makes one request when the element of the reading
    exists and none otherwise; and the year it shows is the local year of
    the first reading of the clock. *)
Theorem onLoad_writes (cfg : Config) (tz : TimeZone)
        (hasElement : string -> bool) (formatTimeLocal : Z -> string)
        (fetch : string -> FetchOutcome) (now0 now1 now2 : Z) :
  let result := onLoad cfg tz hasElement formatTimeLocal fetch now0 now1 now2 in
  map fst (snd result) = filter hasElement pageIds /\
  fst result = (if hasElement "parshaName" then [parshaUrl] else []) /\
  (forall a, In ("year", a) (snd result) ->
             a = ANumber (getFullYear tz now0)).
Proof.
  cbv zeta. unfold onLoad.
  pose proof (weekday_ids cfg tz hasElement formatTimeLocal
                (loadedCalOffsetMs cfg tz) now1) as Hw.
  pose proof (shabbos_ids cfg tz hasElement formatTimeLocal
                (loadedCalOffsetMs cfg tz) now2) as Hs.
  set (weekday := updateWeekdayMinchaMaariv cfg tz hasElement formatTimeLocal
                    (loadedCalOffsetMs cfg tz) now1) in *.
  set (shabbos := updateShabbosTimes cfg tz hasElement formatTimeLocal
                    (loadedCalOffsetMs cfg tz) now2) in *.
  assert (Hp : updateParsha hasElement fetch
               = if hasElement "parshaName"
                 then ([parshaUrl], snd (updateParsha hasElement fetch))
                 else ([], None)).
  { unfold updateParsha. now destruct (hasElement "parshaName"). }
  assert (Hsome : hasElement "parshaName" = true ->
                  exists v, snd (updateParsha hasElement fetch) = Some v).
  { intros E. unfold updateParsha. rewrite E. cbn. eexists. reflexivity. }
  destruct (updateParsha hasElement fetch) as [requests parsha] eqn:Eu.
  cbn [fst snd] in *.
  assert (Hwy : forall a, ~ In ("year", a)
                  (map (fun w => (fst w, AText (snd w))) weekday)).
  { intros a Hin. apply (in_map fst) in Hin. rewrite map_map in Hin.
    cbn [fst] in Hin. change (In "year" (map fst weekday)) in Hin.
    rewrite Hw in Hin. apply filter_In in Hin as [Hin _].
    cbn in Hin. intuition discriminate. }
  assert (Hsy : forall a, ~ In ("year", a)
                  (map (fun w => (fst w, AText (snd w))) shabbos)).
  { intros a Hin. apply (in_map fst) in Hin. rewrite map_map in Hin.
    cbn [fst] in Hin. change (In "year" (map fst shabbos)) in Hin.
    rewrite Hs in Hin. apply filter_In in Hin as [Hin _].
    cbn in Hin. intuition discriminate. }
  split; [| split].
  - rewrite !map_app, !map_map. cbn [fst].
    change (map (fun x : string * string => fst x) weekday)
      with (map fst weekday).
    change (map (fun x : string * string => fst x) shabbos)
      with (map fst shabbos).
    rewrite Hw, Hs. unfold pageIds. rewrite !filter_app. f_equal.
    { cbn [filter]. now destruct (hasElement "year"). }
    f_equal. f_equal. cbn [filter].
    destruct (hasElement "parshaName") eqn:E.
    + destruct (Hsome eq_refl) as [v ->]. reflexivity.
    + injection Hp as _ ->. reflexivity.
  - destruct (hasElement "parshaName"); congruence.
  - intros a. rewrite !in_app_iff. intros [H | [H | [H | H]]].
    + destruct (hasElement "year"); [| destruct H].
      destruct H as [H | []]. now injection H as <-.
    + now apply Hwy in H.
    + now apply Hsy in H.
    + destruct parsha; [| destruct H]. destruct H as [H | []]. discriminate.
Qed.

End PageExtras.

(** ** Reading a clock time on a date *)

Module ParseExtras.
Import JSDate JSDateFacts JSNum DateParse Bmh ScheduleDates.
Local Open Scope string_scope.
Local Open Scope Z_scope.

Lemma length_append (s t : string) :
  String.length (s ++ t) = (String.length s + String.length t)%nat.
Proof. induction s as [| a s IH]; cbn; [reflexivity | now rewrite IH]. Qed.

Lemma newDateOfString_length (tz : TimeZone) (s : string) (d : Z) :
  newDateOfString tz s = Some d -> String.length s = 19%nat.
Proof.
  unfold newDateOfString.
  destruct (field s 0 4), (field s 5 2), (field s 8 2), (field s 11 2),
    (field s 14 2), (field s 17 2); try discriminate.
  destruct (Nat.eqb (String.length s) 19) eqn:E; [| discriminate].
  intros _. now apply Nat.eqb_eq.
Qed.


(** A date string followed by [T00:00:00], when it is a date at all, is
    the midnight of a day. *)
Lemma newDateOfString_midnight (dateString : string) (d0 : Z) :
  newDateOfString utcZone (dateString ++ "T00:00:00") = Some d0 ->
  d0 = Day d0 * msPerDay.
Proof.
  intros H. pose proof (newDateOfString_length _ _ _ H) as Hlen.
  rewrite length_append in Hlen. cbn [String.length] in Hlen.
  assert (H10 : String.length dateString = 10%nat) by lia. clear Hlen.
  do 10 (destruct dateString as [| ? dateString]; [discriminate |];
         cbn [String.length] in H10; apply Nat.succ_inj in H10).
  destruct dateString; [| discriminate]. clear H10.
  unfold newDateOfString in H.
  destruct (field _ 0 4) as [y |]; [| discriminate].
  destruct (field _ 5 2) as [mo |]; [| discriminate].
  destruct (field _ 8 2) as [dd |]; [| discriminate].
  change (field _ 11 2) with (Some 0) in H.
  change (field _ 14 2) with (Some 0) in H.
  change (field _ 17 2) with (Some 0) in H.
  cbv beta iota in H.
  match type of H with
  | (if ?b then _ else _) = _ => destruct b; [| discriminate]
  end.
  injection H as <-.
  unfold UTC, utcZone, fixedZone, MakeDate, MakeTime, Day, msPerDay.
  cbn [offsetAtLocal]. zdiv.
Qed.



End ParseExtras.

(** ** The weekday time against the clock times of the week *)

Module AugustWeek.
Import JSDate JSDateFacts JSNum Bmh ScheduleDates EngineFacts.
Import ScheduleFacts CalibrationFacts NearMidnight WeekOrderExtras.
Local Open Scope R_scope.

Lemma mul_enclose (a b al ah bl bh : R) :
  0 <= al -> al <= a -> a <= ah -> 0 <= bl -> bl <= b -> b <= bh ->
  al * bl <= a * b <= ah * bh.
Proof. intros. split; nra. Qed.

Lemma sind_LAT_bounds : 0.65858 <= sind (LAT bmh) <= 0.65862.
Proof. apply (sind_LAT 136.0525). lra. Qed.

Lemma cosd_LAT_bounds : 0.75247 <= cosd (LAT bmh) <= 0.75251.
Proof. apply (cosd_LAT 136.0525). lra. Qed.

(** *** Day 221 at the longitude of the site *)

Lemma approxTime_221 :
  221.95562 < approxTime 221 (LNG bmh) < 221.95563.
Proof. unfold approxTime. cbn [LNG bmh]. lra. Qed.

Lemma sind_M_221 (M : R) :
  215.47044 < M < 215.47048 -> (-0.58031) <= sind M <= (-0.58024).
Proof.
  intros HM. pose proof PI_lower as Hl. pose proof PI_upper as Hu.
  unfold sind. set (x := (M - 180) * PI / 180).
  replace (M * PI / 180) with (x + PI) by (unfold x; field).
  rewrite neg_sin.
  assert (Hx : 0.61904 <= x <= 0.61909) by (unfold x; split; nra).
  pose proof (sin_enclose x 0.61904 0.61909 ltac:(lra) ltac:(lra) ltac:(lra)
                ltac:(lra)) as [Hs1 Hs2].
  unfold sinPolyHi, sinPolyLo in Hs1, Hs2. lra.
Qed.

Lemma sind_2M_221 (M : R) :
  215.47044 < M < 215.47048 -> 0.94513 <= sind (2 * M) <= 0.9452.
Proof.
  intros HM. pose proof PI_lower as Hl. pose proof PI_upper as Hu.
  unfold sind. set (x := (2 * M - 360) * PI / 180).
  replace (2 * M * PI / 180) with (x + PI + PI) by (unfold x; field).
  rewrite !neg_sin.
  assert (Hx : 1.2381 <= x <= 1.23817) by (unfold x; split; nra).
  pose proof (sin_enclose x 1.2381 1.23817 ltac:(lra) ltac:(lra) ltac:(lra)
                ltac:(lra)) as [Hs1 Hs2].
  unfold sinPolyHi, sinPolyLo in Hs1, Hs2. lra.
Qed.

Lemma trueLongitude_221 (t : R) :
  221.95562 < t < 221.95563 -> 137.0113 < trueLongitude t < 137.0118.
Proof.
  intros Ht. unfold trueLongitude. cbv zeta.
  set (M := 0.9856 * t - 3.289).
  assert (HM : 215.47044 < M < 215.47048) by (unfold M; lra).
  pose proof (sind_M_221 M HM) as H1. pose proof (sind_2M_221 M HM) as H2.
  set (L := M + 1.916 * sind M + 0.020 * sind (2 * M) + 282.634).
  assert (HL : 497.0113 < L < 497.0118) by (unfold L; lra).
  rewrite (rem_once L 360) by lra.
  replace (L - 360 + 360) with L by lra.
  rewrite (rem_once L 360) by lra. lra.
Qed.

Section Longitude221.
Variable L : R.
Hypothesis HL : 137.0113 < L < 137.0118.

Lemma supplementRad_221 : 0.75025 <= supplementRad L <= 0.75031.
Proof.
  pose proof PI_lower as Hl. pose proof PI_upper as Hu.
  unfold supplementRad. split; nra.
Qed.

Lemma sin_supplement_221 : 0.68181 <= sin (supplementRad L) <= 0.68188.
Proof.
  pose proof supplementRad_221 as [H1 H2].
  pose proof (sin_enclose (supplementRad L) 0.75025 0.75031
                ltac:(lra) H1 H2 ltac:(lra)) as [Hs1 Hs2].
  unfold sinPolyHi, sinPolyLo in Hs1, Hs2. lra.
Qed.

Lemma cos_supplement_221 : 0.73146 <= cos (supplementRad L) <= 0.73153.
Proof.
  pose proof supplementRad_221 as [H1 H2].
  pose proof (cos_enclose (supplementRad L) 0.75025 0.75031
                ltac:(lra) H1 H2 ltac:(lra)) as [Hc1 Hc2].
  unfold cosPolyHi, cosPolyLo in Hc1, Hc2. lra.
Qed.

Lemma sind_L_221 : sind L = sin (supplementRad L).
Proof.
  unfold sind, supplementRad. rewrite <- sin_PI_x. f_equal. field.
Qed.

Lemma tand_L_221 : tand L = - tan (supplementRad L).
Proof.
  unfold tand, tan, supplementRad.
  replace (L * PI / 180) with (PI - (180 - L) * PI / 180) by field.
  rewrite sin_PI_x, Rtrigo_facts.cos_pi_minus.
  pose proof cos_supplement_221 as Hc. unfold supplementRad in Hc. field. lra.
Qed.

Lemma tan_supplement_221 :
  0.85526 <= 0.91764 * tan (supplementRad L) <= 0.85546.
Proof.
  pose proof sin_supplement_221 as Hs. pose proof cos_supplement_221 as Hc.
  pose proof (div_enclose (sin (supplementRad L)) (cos (supplementRad L))
                0.68181 0.68188 0.73146 0.73153
                ltac:(lra) ltac:(lra) ltac:(lra) ltac:(lra) ltac:(lra) ltac:(lra))
    as Hd.
  unfold tan. lra.
Qed.

Lemma atan_tan_supplement_221 :
  40.537 * PI / 180 <= atan (0.91764 * tan (supplementRad L))
  <= 40.548 * PI / 180.
Proof.
  pose proof PI_lower as Hl. pose proof PI_upper as Hu.
  pose proof tan_supplement_221 as Hw.
  apply atan_enclose; try lra. split.
  - pose proof (tan_enclose (40.537 * PI / 180) 0.70747 0.70752
                  ltac:(lra) ltac:(lra) ltac:(lra) ltac:(lra)
                  ltac:(unfold sinPolyLo; lra) ltac:(unfold cosPolyLo; lra))
      as Ht.
    unfold sinPolyHi, sinPolyLo, cosPolyHi, cosPolyLo in Ht.
    destruct Ht as [_ Ht]; lra.
  - pose proof (tan_enclose (40.548 * PI / 180) 0.70766 0.70771
                  ltac:(lra) ltac:(lra) ltac:(lra) ltac:(lra)
                  ltac:(unfold sinPolyLo; lra) ltac:(unfold cosPolyLo; lra))
      as Ht.
    unfold sinPolyHi, sinPolyLo, cosPolyHi, cosPolyLo in Ht.
    destruct Ht as [Ht _]; lra.
Qed.

Lemma rightAscension_221 : 9.2967 <= rightAscension L <= 9.2977.
Proof.
  unfold rightAscension. cbv zeta. rewrite tand_L_221.
  replace (0.91764 * - tan (supplementRad L))
    with (- (0.91764 * tan (supplementRad L))) by ring.
  rewrite atan_opp.
  pose proof (degrees_enclose _ _ _ atan_tan_supplement_221) as Ha.
  set (a := atan (0.91764 * tan (supplementRad L)) * 180 / PI) in *.
  replace (- atan (0.91764 * tan (supplementRad L)) * 180 / PI) with (- a)
    by (unfold a; field; pose proof PI_RGT_0; lra).
  rewrite (rem_id (- a) 360) by lra.
  rewrite (rem_id (- a + 360) 360) by lra.
  unfold Math_floor.
  rewrite (Zfloor_eq 1 (L / 90)) by (simpl; lra).
  rewrite (Zfloor_eq 3 ((- a + 360) / 90)) by (simpl; lra).
  lra.
Qed.

Lemma hourAngleCos_221 :
  (-0.24675) <= hourAngleCos bmh L (ZENITH_DEG bmh) <= (-0.24657).
Proof.
  unfold hourAngleCos. cbv zeta. cbn [ZENITH_DEG bmh].
  rewrite cosd_90, sind_L_221.
  pose proof sin_supplement_221 as Hs.
  pose proof sind_LAT_bounds as Ha. pose proof cosd_LAT_bounds as Hc.
  set (sinDec := 0.39782 * sin (supplementRad L)).
  assert (Hsd : 0.27122 <= sinDec <= 0.27128) by (unfold sinDec; lra).
  rewrite cos_asin by lra.
  pose proof (sqrt_enclose (1 - sinDec²) 0.96249 0.96253 ltac:(lra)
                ltac:(unfold Rsqr; nra) ltac:(unfold Rsqr; nra) ltac:(lra)) as Hcd.
  set (cosDec := sqrt (1 - sinDec²)) in *.
  assert (Hn : 0.17861 <= sinDec * sind (LAT bmh) <= 0.17869).
  { pose proof (mul_enclose sinDec (sind (LAT bmh)) 0.27122 0.27128
                  0.65858 0.65862 ltac:(lra) ltac:(lra) ltac:(lra)
                  ltac:(lra) ltac:(lra) ltac:(lra)).
    lra. }
  assert (Hd : 0.72423 <= cosDec * cosd (LAT bmh) <= 0.72433).
  { pose proof (mul_enclose cosDec (cosd (LAT bmh)) 0.96249 0.96253
                  0.75247 0.75251 ltac:(lra) ltac:(lra) ltac:(lra)
                  ltac:(lra) ltac:(lra) ltac:(lra)).
    lra. }
  pose proof (div_enclose (sinDec * sind (LAT bmh)) (cosDec * cosd (LAT bmh))
                0.17861 0.17869 0.72423 0.72433
                ltac:(lra) ltac:(lra) ltac:(lra) ltac:(lra) ltac:(lra) ltac:(lra))
    as Hk.
  replace ((0 - sinDec * sind (LAT bmh)) / (cosDec * cosd (LAT bmh)))
    with (- (sinDec * sind (LAT bmh) / (cosDec * cosd (LAT bmh))))
    by (field; lra).
  lra.
Qed.

Lemma hourAngle_221 :
  104.273 <= acos (hourAngleCos bmh L (ZENITH_DEG bmh)) * 180 / PI <= 104.287.
Proof.
  pose proof PI_lower as Hl. pose proof PI_upper as Hu.
  pose proof hourAngleCos_221 as Hc.
  apply degrees_enclose. apply acos_enclose; try lra. split.
  - replace (104.287 * PI / 180) with (PI / 2 + 14.287 * PI / 180) by lra.
    pose proof (sin_cos (14.287 * PI / 180)) as E.
    pose proof (sin_enclose (14.287 * PI / 180) 0.24933 0.24937
                  ltac:(lra) ltac:(lra) ltac:(lra) ltac:(lra)) as [Hs _].
    unfold sinPolyLo in Hs. lra.
  - replace (104.273 * PI / 180) with (PI / 2 + 14.273 * PI / 180) by lra.
    pose proof (sin_cos (14.273 * PI / 180)) as E.
    pose proof (sin_enclose (14.273 * PI / 180) 0.24909 0.24913
                  ltac:(lra) ltac:(lra) ltac:(lra) ltac:(lra)) as [_ Hs].
    unfold sinPolyHi, sinPolyLo in Hs. lra.
Qed.

End Longitude221.

Lemma noaaSunsetUT_day221 (tz : TimeZone) (date : Z) (latDeg : R) :
  dayOfYear tz date = 221%Z ->
  exists UT,
    noaaSunsetUT bmh tz date latDeg (LNG bmh) (ZENITH_DEG bmh) = Some UT /\
    23.9764 < UT < 23.9786.
Proof.
  intros HN. unfold noaaSunsetUT. rewrite HN. cbv zeta.
  pose proof approxTime_221 as Ht.
  set (t := approxTime 221 (LNG bmh)) in *.
  pose proof (trueLongitude_221 t Ht) as HL.
  set (L := trueLongitude t) in *.
  pose proof (rightAscension_221 L HL) as HRA.
  pose proof (hourAngleCos_221 L HL) as Hc.
  pose proof (hourAngle_221 L HL) as HH.
  set (cosH := hourAngleCos bmh L (ZENITH_DEG bmh)) in *.
  destruct (Rlt_dec cosH (-1)) as [C1 | _]; [lra |].
  destruct (Rlt_dec 1 cosH) as [C2 | _]; [lra |].
  eexists. split; [reflexivity |].
  set (UT := acos cosH * 180 / PI / 15.0 + rightAscension L - 0.06571 * t
             - 6.622 - LNG bmh / 15.0).
  assert (HUT : (-0.0236) < UT < (-0.0214)) by (unfold UT; cbn [LNG bmh]; lra).
  rewrite (rem_id UT 24) by lra.
  rewrite (rem_id (UT + 24) 24) by lra. lra.
Qed.


(** *** Day 225 at the longitude of the site *)

Lemma approxTime_225 :
  225.95562 < approxTime 225 (LNG bmh) < 225.95563.
Proof. unfold approxTime. cbn [LNG bmh]. lra. Qed.

Lemma sind_M_225 (M : R) :
  219.41284 < M < 219.41288 -> (-0.63493) <= sind M <= (-0.63486).
Proof.
  intros HM. pose proof PI_lower as Hl. pose proof PI_upper as Hu.
  unfold sind. set (x := (M - 180) * PI / 180).
  replace (M * PI / 180) with (x + PI) by (unfold x; field).
  rewrite neg_sin.
  assert (Hx : 0.68785 <= x <= 0.6879) by (unfold x; split; nra).
  pose proof (sin_enclose x 0.68785 0.6879 ltac:(lra) ltac:(lra) ltac:(lra)
                ltac:(lra)) as [Hs1 Hs2].
  unfold sinPolyHi, sinPolyLo in Hs1, Hs2. lra.
Qed.

Lemma sind_2M_225 (M : R) :
  219.41284 < M < 219.41288 -> 0.98097 <= sind (2 * M) <= 0.98106.
Proof.
  intros HM. pose proof PI_lower as Hl. pose proof PI_upper as Hu.
  unfold sind. set (x := (2 * M - 360) * PI / 180).
  replace (2 * M * PI / 180) with (x + PI + PI) by (unfold x; field).
  rewrite !neg_sin.
  assert (Hx : 1.37571 <= x <= 1.37579) by (unfold x; split; nra).
  pose proof (sin_enclose x 1.37571 1.37579 ltac:(lra) ltac:(lra) ltac:(lra)
                ltac:(lra)) as [Hs1 Hs2].
  unfold sinPolyHi, sinPolyLo in Hs1, Hs2. lra.
Qed.

Lemma trueLongitude_225 (t : R) :
  225.95562 < t < 225.95563 -> 140.8498 < trueLongitude t < 140.8503.
Proof.
  intros Ht. unfold trueLongitude. cbv zeta.
  set (M := 0.9856 * t - 3.289).
  assert (HM : 219.41284 < M < 219.41288) by (unfold M; lra).
  pose proof (sind_M_225 M HM) as H1. pose proof (sind_2M_225 M HM) as H2.
  set (L := M + 1.916 * sind M + 0.020 * sind (2 * M) + 282.634).
  assert (HL : 500.8498 < L < 500.8503) by (unfold L; lra).
  rewrite (rem_once L 360) by lra.
  replace (L - 360 + 360) with L by lra.
  rewrite (rem_once L 360) by lra. lra.
Qed.

Section Longitude225.
Variable L : R.
Hypothesis HL : 140.8498 < L < 140.8503.

Lemma supplementRad_225 : 0.68326 <= supplementRad L <= 0.68332.
Proof.
  pose proof PI_lower as Hl. pose proof PI_upper as Hu.
  unfold supplementRad. split; nra.
Qed.

Lemma sin_supplement_225 : 0.63131 <= sin (supplementRad L) <= 0.63139.
Proof.
  pose proof supplementRad_225 as [H1 H2].
  pose proof (sin_enclose (supplementRad L) 0.68326 0.68332
                ltac:(lra) H1 H2 ltac:(lra)) as [Hs1 Hs2].
  unfold sinPolyHi, sinPolyLo in Hs1, Hs2. lra.
Qed.

Lemma cos_supplement_225 : 0.77546 <= cos (supplementRad L) <= 0.77553.
Proof.
  pose proof supplementRad_225 as [H1 H2].
  pose proof (cos_enclose (supplementRad L) 0.68326 0.68332
                ltac:(lra) H1 H2 ltac:(lra)) as [Hc1 Hc2].
  unfold cosPolyHi, cosPolyLo in Hc1, Hc2. lra.
Qed.

Lemma sind_L_225 : sind L = sin (supplementRad L).
Proof.
  unfold sind, supplementRad. rewrite <- sin_PI_x. f_equal. field.
Qed.

Lemma tand_L_225 : tand L = - tan (supplementRad L).
Proof.
  unfold tand, tan, supplementRad.
  replace (L * PI / 180) with (PI - (180 - L) * PI / 180) by field.
  rewrite sin_PI_x, Rtrigo_facts.cos_pi_minus.
  pose proof cos_supplement_225 as Hc. unfold supplementRad in Hc. field. lra.
Qed.

Lemma tan_supplement_225 :
  0.74698 <= 0.91764 * tan (supplementRad L) <= 0.74717.
Proof.
  pose proof sin_supplement_225 as Hs. pose proof cos_supplement_225 as Hc.
  pose proof (div_enclose (sin (supplementRad L)) (cos (supplementRad L))
                0.63131 0.63139 0.77546 0.77553
                ltac:(lra) ltac:(lra) ltac:(lra) ltac:(lra) ltac:(lra) ltac:(lra))
    as Hd.
  unfold tan. lra.
Qed.

Lemma atan_tan_supplement_225 :
  36.758 * PI / 180 <= atan (0.91764 * tan (supplementRad L))
  <= 36.768 * PI / 180.
Proof.
  pose proof PI_lower as Hl. pose proof PI_upper as Hu.
  pose proof tan_supplement_225 as Hw.
  apply atan_enclose; try lra. split.
  - pose proof (tan_enclose (36.758 * PI / 180) 0.64151 0.64156
                  ltac:(lra) ltac:(lra) ltac:(lra) ltac:(lra)
                  ltac:(unfold sinPolyLo; lra) ltac:(unfold cosPolyLo; lra))
      as Ht.
    unfold sinPolyHi, sinPolyLo, cosPolyHi, cosPolyLo in Ht.
    destruct Ht as [_ Ht]; lra.
  - pose proof (tan_enclose (36.768 * PI / 180) 0.64169 0.64174
                  ltac:(lra) ltac:(lra) ltac:(lra) ltac:(lra)
                  ltac:(unfold sinPolyLo; lra) ltac:(unfold cosPolyLo; lra))
      as Ht.
    unfold sinPolyHi, sinPolyLo, cosPolyHi, cosPolyLo in Ht.
    destruct Ht as [Ht _]; lra.
Qed.

Lemma rightAscension_225 : 9.5487 <= rightAscension L <= 9.5496.
Proof.
  unfold rightAscension. cbv zeta. rewrite tand_L_225.
  replace (0.91764 * - tan (supplementRad L))
    with (- (0.91764 * tan (supplementRad L))) by ring.
  rewrite atan_opp.
  pose proof (degrees_enclose _ _ _ atan_tan_supplement_225) as Ha.
  set (a := atan (0.91764 * tan (supplementRad L)) * 180 / PI) in *.
  replace (- atan (0.91764 * tan (supplementRad L)) * 180 / PI) with (- a)
    by (unfold a; field; pose proof PI_RGT_0; lra).
  rewrite (rem_id (- a) 360) by lra.
  rewrite (rem_id (- a + 360) 360) by lra.
  unfold Math_floor.
  rewrite (Zfloor_eq 1 (L / 90)) by (simpl; lra).
  rewrite (Zfloor_eq 3 ((- a + 360) / 90)) by (simpl; lra).
  lra.
Qed.

Lemma hourAngleCos_225 :
  (-0.22718) <= hourAngleCos bmh L (ZENITH_DEG bmh) <= (-0.22701).
Proof.
  unfold hourAngleCos. cbv zeta. cbn [ZENITH_DEG bmh].
  rewrite cosd_90, sind_L_225.
  pose proof sin_supplement_225 as Hs.
  pose proof sind_LAT_bounds as Ha. pose proof cosd_LAT_bounds as Hc.
  set (sinDec := 0.39782 * sin (supplementRad L)).
  assert (Hsd : 0.25113 <= sinDec <= 0.25119) by (unfold sinDec; lra).
  rewrite cos_asin by lra.
  pose proof (sqrt_enclose (1 - sinDec²) 0.96792 0.96797 ltac:(lra)
                ltac:(unfold Rsqr; nra) ltac:(unfold Rsqr; nra) ltac:(lra)) as Hcd.
  set (cosDec := sqrt (1 - sinDec²)) in *.
  assert (Hn : 0.16537 <= sinDec * sind (LAT bmh) <= 0.16545).
  { pose proof (mul_enclose sinDec (sind (LAT bmh)) 0.25113 0.25119
                  0.65858 0.65862 ltac:(lra) ltac:(lra) ltac:(lra)
                  ltac:(lra) ltac:(lra) ltac:(lra)).
    lra. }
  assert (Hd : 0.72832 <= cosDec * cosd (LAT bmh) <= 0.72842).
  { pose proof (mul_enclose cosDec (cosd (LAT bmh)) 0.96792 0.96797
                  0.75247 0.75251 ltac:(lra) ltac:(lra) ltac:(lra)
                  ltac:(lra) ltac:(lra) ltac:(lra)).
    lra. }
  pose proof (div_enclose (sinDec * sind (LAT bmh)) (cosDec * cosd (LAT bmh))
                0.16537 0.16545 0.72832 0.72842
                ltac:(lra) ltac:(lra) ltac:(lra) ltac:(lra) ltac:(lra) ltac:(lra))
    as Hk.
  replace ((0 - sinDec * sind (LAT bmh)) / (cosDec * cosd (LAT bmh)))
    with (- (sinDec * sind (LAT bmh) / (cosDec * cosd (LAT bmh))))
    by (field; lra).
  lra.
Qed.

Lemma hourAngle_225 :
  103.12 <= acos (hourAngleCos bmh L (ZENITH_DEG bmh)) * 180 / PI <= 103.133.
Proof.
  pose proof PI_lower as Hl. pose proof PI_upper as Hu.
  pose proof hourAngleCos_225 as Hc.
  apply degrees_enclose. apply acos_enclose; try lra. split.
  - replace (103.133 * PI / 180) with (PI / 2 + 13.133 * PI / 180) by lra.
    pose proof (sin_cos (13.133 * PI / 180)) as E.
    pose proof (sin_enclose (13.133 * PI / 180) 0.22919 0.22923
                  ltac:(lra) ltac:(lra) ltac:(lra) ltac:(lra)) as [Hs _].
    unfold sinPolyLo in Hs. lra.
  - replace (103.12 * PI / 180) with (PI / 2 + 13.12 * PI / 180) by lra.
    pose proof (sin_cos (13.12 * PI / 180)) as E.
    pose proof (sin_enclose (13.12 * PI / 180) 0.22897 0.229
                  ltac:(lra) ltac:(lra) ltac:(lra) ltac:(lra)) as [_ Hs].
    unfold sinPolyHi, sinPolyLo in Hs. lra.
Qed.

End Longitude225.

Lemma noaaSunsetUT_day225 (tz : TimeZone) (date : Z) (latDeg : R) :
  dayOfYear tz date = 225%Z ->
  exists UT,
    noaaSunsetUT bmh tz date latDeg (LNG bmh) (ZENITH_DEG bmh) = Some UT /\
    23.8887 < UT < 23.8907.
Proof.
  intros HN. unfold noaaSunsetUT. rewrite HN. cbv zeta.
  pose proof approxTime_225 as Ht.
  set (t := approxTime 225 (LNG bmh)) in *.
  pose proof (trueLongitude_225 t Ht) as HL.
  set (L := trueLongitude t) in *.
  pose proof (rightAscension_225 L HL) as HRA.
  pose proof (hourAngleCos_225 L HL) as Hc.
  pose proof (hourAngle_225 L HL) as HH.
  set (cosH := hourAngleCos bmh L (ZENITH_DEG bmh)) in *.
  destruct (Rlt_dec cosH (-1)) as [C1 | _]; [lra |].
  destruct (Rlt_dec 1 cosH) as [C2 | _]; [lra |].
  eexists. split; [reflexivity |].
  set (UT := acos cosH * 180 / PI / 15.0 + rightAscension L - 0.06571 * t
             - 6.622 - LNG bmh / 15.0).
  assert (HUT : (-0.1113) < UT < (-0.1093)) by (unfold UT; cbn [LNG bmh]; lra).
  rewrite (rem_id UT 24) by lra.
  rewrite (rem_id (UT + 24) 24) by lra. lra.
Qed.



(** *** The instant built from a UT value of known hour and minute *)

Lemma sunsetInstant_at (year month day : Z) (UT : R) (h m : Z) :
  IZR h <= UT < IZR h + 1 ->
  IZR m - 1 / 2 <= (UT - IZR h) * 60 < IZR m + 1 / 2 ->
  sunsetInstant year month day UT
  = (DateUTC year month day 0 0 0 + (h * 60 + m) * 60 * 1000)%Z.
Proof.
  intros Hh Hm.
  assert (Hf : Math_floor UT = h) by (apply Zfloor_eq; lra).
  assert (Hr : Math_round ((UT - IZR (Math_floor UT)) * 60) = m).
  { rewrite Hf. apply Zfloor_eq. lra. }
  unfold sunsetInstant. cbv zeta. now rewrite Hr, Hf.
Qed.

Local Open Scope Z_scope.

(** Sunday 2025-08-10 and Thursday 2025-08-14 in New York: the dates of
    the weekday loop (local noon) for a clock in that week, and their raw
    sunsets, 23:59 and 23:53 UTC. *)
Lemma august_sunday :
  weekdayDate newYork2025 (getSundayOfWeek newYork2025 1755100800000) 0
  = 1754841600000.
Proof. vm_compute. reflexivity. Qed.

Lemma august_thursday :
  weekdayDate newYork2025 (getSundayOfWeek newYork2025 1755100800000) 4
  = 1755187200000.
Proof. vm_compute. reflexivity. Qed.

Lemma raw_sunset_august_sunday :
  getNoaaSunsetDateRaw bmh newYork2025 1754841600000
    (LAT bmh) (LNG bmh) (ZENITH_DEG bmh) = Some 1754870340000.
Proof.
  destruct (noaaSunsetUT_day221 newYork2025
              (localMidnight newYork2025 1754841600000) (LAT bmh))
    as [UT [E HUT]]; [reflexivity |].
  rewrite getNoaaSunsetDateRaw_eq, E.
  change (getFullYear newYork2025 1754841600000) with 2025.
  change (getMonth newYork2025 1754841600000) with 7.
  change (getDate newYork2025 1754841600000) with 10.
  rewrite (sunsetInstant_at 2025 7 10 UT 23 59) by lra.
  reflexivity.
Qed.

Lemma raw_sunset_august_thursday :
  getNoaaSunsetDateRaw bmh newYork2025 1755187200000
    (LAT bmh) (LNG bmh) (ZENITH_DEG bmh) = Some 1755215580000.
Proof.
  destruct (noaaSunsetUT_day225 newYork2025
              (localMidnight newYork2025 1755187200000) (LAT bmh))
    as [UT [E HUT]]; [reflexivity |].
  rewrite getNoaaSunsetDateRaw_eq, E.
  change (getFullYear newYork2025 1755187200000) with 2025.
  change (getMonth newYork2025 1755187200000) with 7.
  change (getDate newYork2025 1755187200000) with 14.
  rewrite (sunsetInstant_at 2025 7 14 UT 23 53) by lra.
  reflexivity.
Qed.

(** C3.  At the site, with the clock at noon of Wednesday 2025-08-13, and
    for every calibration offset: the sunsets computed for the Sunday and
    the Thursday of the week are 2025-08-10 23:59 UTC and 2025-08-14 23:53
    UTC plus the offset, 19:59 and 19:53 by the local clock when the offset
    is 0.  The search compares them as instants, so it keeps the first, and
    the weekday time is the sunset of Sunday minus 15 minutes: it is not 15
    minutes before the earliest sunset of the week by the clock, since the
    sunset of Thursday is 6 minutes earlier, and on Thursday the time shown
    is only 9 minutes before the sunset of that day. *)
Theorem weekday_time_not_earliest_by_clock (cal : Z) :
  let tz := newYork2025 in
  let today := 1755100800000 in
  let date i := weekdayDate tz (getSundayOfWeek tz today) i in
  let sunday := 1754870340000 + cal in
  let thursday := 1755215580000 + cal in
  toDateParts tz (date 0) = (2025, 7, 10) /\
  toDateParts tz (date 4) = (2025, 7, 14) /\
  getSunsetWithCalibration bmh tz cal (date 0) = Some sunday /\
  getSunsetWithCalibration bmh tz cal (date 4) = Some thursday /\
  In thursday (weekdaySunsets bmh tz cal today) /\
  weekdayMinchaTime bmh tz cal today = Some (sunday - 15 * msPerMinute) /\
  thursday - 4 * msPerDay = sunday - 6 * msPerMinute /\
  thursday - (sunday - 15 * msPerMinute + 4 * msPerDay) = 9 * msPerMinute /\
  clockTime tz 1754870340000 = (19 * 60 + 59) * msPerMinute /\
  clockTime tz 1755215580000 = (19 * 60 + 53) * msPerMinute /\
  clockTime tz (1754870340000 - 15 * msPerMinute)
  = (19 * 60 + 44) * msPerMinute.
Proof.
  cbv zeta.
  assert (Es : getSunsetWithCalibration bmh newYork2025 cal
                 (weekdayDate newYork2025
                    (getSundayOfWeek newYork2025 1755100800000) 0)
               = Some (1754870340000 + cal)).
  { rewrite august_sunday.
    exact (getSunsetWithCalibration_add bmh newYork2025 cal _ _ eq_refl
             raw_sunset_august_sunday). }
  assert (Et : getSunsetWithCalibration bmh newYork2025 cal
                 (weekdayDate newYork2025
                    (getSundayOfWeek newYork2025 1755100800000) 4)
               = Some (1755215580000 + cal)).
  { rewrite august_thursday.
    exact (getSunsetWithCalibration_add bmh newYork2025 cal _ _ eq_refl
             raw_sunset_august_thursday). }
  split; [rewrite august_sunday; reflexivity |].
  split; [rewrite august_thursday; reflexivity |].
  split; [exact Es |]. split; [exact Et |].
  split.
  { apply weekdaySunsets_In. exists 4. split; [lia | exact Et]. }
  split.
  { apply (weekdayMinchaTime_sunday bmh newYork2025 cal 1755100800000);
      [exact newYork2025_dayStable | vm_compute; discriminate | exact Es]. }
  unfold msPerDay, msPerMinute.
  split; [lia |]. split; [lia |].
  split; [| split]; reflexivity.
Qed.

End AugustWeek.
